(** * go-httplib: response rendering, request decoding and the HTTP server runner

    A shallow embedding of the Go packages [httplib], [httplib/runner] and
    [httplib/httplog] (github.com/Siroshun09/go-httplib) together with the
    small part of the Go runtime and standard library they call into: error
    values, [context], [os/signal], panics with [defer]/[recover],
    [encoding/json] and the attributes of [log/slog].

    Conventions.
    - A Go interface value that may be nil ([error], a func value, a pointer)
      is an [option]; [None] is nil.
    - [time.Duration] and [time.Time] are [Z] (nanoseconds).
    - Calls whose result is decided by the operating system or by user code
      ([http.Server.ListenAndServe], [http.Server.Shutdown], the callbacks,
      the body renderers) are fields of the value they belong to, so every
      theorem quantifies over all their behaviours; [http.Redirect],
      [json.Marshal] and the layout of a time are arguments in the same
      way. *)

From Stdlib Require Import ZArith List String Ascii Strings.Byte Bool.
From stdpp Require Import base decidable option list strings pretty gmap.

Set Warnings "-register-all".
Open Scope Z_scope.

(* ===================================================================== *)
(** ** Package [errors] *)
(* ===================================================================== *)

Module errors.

(** Package-level error variables. Go compares them by identity, so each is
    a constructor of its own. *)
Inductive sentinel : Type :=
| http_ErrServerClosed
| context_Canceled
| context_DeadlineExceeded
| io_EOF
| io_ErrUnexpectedEOF.

(** The error values the library meets. [errorString] is what [errors.New]
    and [fmt.Errorf] without [%w] build, [wrapError] what [fmt.Errorf] with
    [%w] builds, [joinError] what [errors.Join] builds. *)
Inductive error : Type :=
| sentinelError (s : sentinel)
| errorString (msg : string)
| wrapError (msg : string) (inner : error)
| joinError (errs : list error)
| MaxBytesError (limit : Z)
| SyntaxError (msg : string) (offset : Z)
| UnmarshalTypeError (value : string) (type : string)
| OpError (op : string) (msg : string).

#[global] Instance sentinel_eq_dec : EqDecision sentinel.
Proof. solve_decision. Defined.

Definition sentinel_message (s : sentinel) : string :=
  match s with
  | http_ErrServerClosed => "http: Server closed"
  | context_Canceled => "context canceled"
  | context_DeadlineExceeded => "context deadline exceeded"
  | io_EOF => "EOF"
  | io_ErrUnexpectedEOF => "unexpected EOF"
  end.

(** [strings.Join(msgs, "\n")], as [joinError.Error] lays the messages out. *)
Fixpoint join_lines (msgs : list string) : string :=
  match msgs with
  | [] => ""
  | [m] => m
  | m :: rest => m ++ String "010"%char (join_lines rest)
  end.

(** The [Error()] method. *)
Fixpoint Error (e : error) : string :=
  match e with
  | sentinelError s => sentinel_message s
  | errorString msg => msg
  | wrapError msg _ => msg
  | joinError errs => join_lines (map Error errs)
  | MaxBytesError _ => "http: request body too large"
  | SyntaxError msg _ => msg
  | UnmarshalTypeError value type =>
      "json: cannot unmarshal " ++ value ++ " into Go value of type " ++ type
  | OpError op msg => op ++ ": " ++ msg
  end.

(** [errors.Is(err, target)] for a sentinel target: [err == target], or the
    same of what [Unwrap() error] or [Unwrap() []error] give, depth first. *)
Fixpoint Is_sentinel (err : error) (target : sentinel) : bool :=
  match err with
  | sentinelError s => bool_decide (s = target)
  | wrapError _ inner => Is_sentinel inner target
  | joinError errs => existsb (fun e => Is_sentinel e target) errs
  | _ => false
  end.

(** [errors.Is] on an [error] interface value; a nil error is nothing. *)
Definition Is (err : option error) (target : sentinel) : bool :=
  match err with
  | None => false
  | Some e => Is_sentinel e target
  end.

(** [errors.Join(errs...)]: nil values are discarded; nil when nothing is
    left, otherwise a fresh [joinError] over the rest, in order. *)
Definition Join (errs : list (option error)) : option error :=
  match omap id errs with
  | [] => None
  | es => Some (joinError es)
  end.

(** Structural equality of error values. *)
Fixpoint error_eqb (a b : error) : bool :=
  match a, b with
  | sentinelError x, sentinelError y => bool_decide (x = y)
  | errorString x, errorString y => bool_decide (x = y)
  | wrapError m x, wrapError n y => bool_decide (m = n) && error_eqb x y
  | joinError xs, joinError ys =>
      (fix all2 (xs ys : list error) : bool :=
         match xs, ys with
         | [], [] => true
         | x :: xs', y :: ys' => error_eqb x y && all2 xs' ys'
         | _, _ => false
         end) xs ys
  | MaxBytesError x, MaxBytesError y => bool_decide (x = y)
  | SyntaxError m x, SyntaxError n y => bool_decide (m = n) && bool_decide (x = y)
  | UnmarshalTypeError v t, UnmarshalTypeError v' t' =>
      bool_decide (v = v') && bool_decide (t = t')
  | OpError o m, OpError o' m' => bool_decide (o = o') && bool_decide (m = m')
  | _, _ => false
  end.

(** The message of an [error] interface value, nil having none. *)
Definition message (err : option error) : option string := Error <$> err.

End errors.

Export errors.

(* ===================================================================== *)
(** ** Interface values, panics and goroutines *)
(* ===================================================================== *)

(** An address of a heap cell ([&x]). *)
Definition loc := nat.

(** The dynamic values that travel through [any] in this library: panic
    values, context keys and context values. A typed nil pointer stored in an
    interface ([any_RequestLogPtr None]) is not the nil interface. *)
Inductive any : Type :=
| any_string (s : string)
| any_int (n : Z)
| any_error (e : error)
| any_Duration (d : Z)
| any_contextKey (k : N)
| any_RequestLogPtr (p : option loc)
| any_ResponseLogPtr (p : option loc)
| any_PanicNilError
| any_runtimeError (msg : string).

(** [a == b] on interface values: the same dynamic type and equal values. A
    [contextKey] is never equal to an [int] or a [string] of the same
    content. *)
Definition any_eqb (a b : any) : bool :=
  match a, b with
  | any_string x, any_string y => bool_decide (x = y)
  | any_int x, any_int y => bool_decide (x = y)
  | any_error x, any_error y => error_eqb x y
  | any_Duration x, any_Duration y => bool_decide (x = y)
  | any_contextKey x, any_contextKey y => bool_decide (x = y)
  | any_RequestLogPtr x, any_RequestLogPtr y => bool_decide (x = y)
  | any_ResponseLogPtr x, any_ResponseLogPtr y => bool_decide (x = y)
  | any_PanicNilError, any_PanicNilError => true
  | any_runtimeError x, any_runtimeError y => bool_decide (x = y)
  | _, _ => false
  end.

(** How a call ends: it returns, or it panics with a (non-nil) value. *)
Inductive Outcome (A : Type) : Type :=
| Returns (a : A)
| Panics (v : any).
Arguments Returns {A} a.
Arguments Panics {A} v.

(** [panic(v)]. Since Go 1.21 (the module says go 1.25) [panic(nil)] panics
    with a [*runtime.PanicNilError], so [recover()] never yields nil while
    panicking. *)
Definition panic_value (v : option any) : any :=
  match v with
  | Some x => x
  | None => any_PanicNilError
  end.

(** Calling through a nil func value or a nil pointer. *)
Definition nil_dereference : any :=
  any_runtimeError "invalid memory address or nil pointer dereference".

(* ===================================================================== *)
(** ** Packages [context] and [os/signal] *)
(* ===================================================================== *)

Module context.

Inductive Signal : Type :=
| SIGHUP
| SIGINT
| SIGQUIT
| SIGKILL
| SIGTERM.

#[global] Instance Signal_eq_dec : EqDecision Signal.
Proof. solve_decision. Defined.

(** [os.Interrupt] is [syscall.SIGINT]. *)
Definition os_Interrupt : Signal := SIGINT.

(** The implementations of [context.Context] a program of this library can
    hold. [cancelCtx] and [timerCtx] carry the identity of their cancel
    function, [signalCtx] (package os/signal) that of its registration. *)
Inductive Context : Type :=
| Background
| withoutCancelCtx (parent : Context)
| cancelCtx (id : nat) (parent : Context)
| timerCtx (id : nat) (deadline : Z) (parent : Context)
| valueCtx (key : any) (val : option any) (parent : Context)
| signalCtx (id : nat) (signals : list Signal) (parent : Context).

(** The state of one [signal.NotifyContext]: the signals it asked for,
    whether [signal.Notify] still relays them, and whether its [cancel] ran. *)
Record sigState : Type := mkSigState {
  sig_signals : list Signal;
  sig_notifying : bool;
  sig_cancelled : bool
}.

(** What the runtime knows about time, cancel functions and signal
    registrations. [cancels] maps every cancel function handed out by
    [WithCancel]/[WithTimeout] to whether it was called. *)
Record World : Type := mkWorld {
  now : Z;
  cancels : gmap nat bool;
  sigctxs : gmap nat sigState
}.

Definition initial_world : World :=
  {| now := 0; cancels := ∅; sigctxs := ∅ |}.

Definition cancel_called (w : World) (id : nat) : bool :=
  match cancels w !! id with
  | Some b => b
  | None => false
  end.

Definition signal_cancelled (w : World) (id : nat) : bool :=
  match sigctxs w !! id with
  | Some st => sig_cancelled st
  | None => false
  end.

(** [ctx.Deadline()]. *)
Fixpoint Deadline (ctx : Context) : option Z :=
  match ctx with
  | Background => None
  | withoutCancelCtx _ => None
  | cancelCtx _ parent => Deadline parent
  | timerCtx _ deadline _ => Some deadline
  | valueCtx _ _ parent => Deadline parent
  | signalCtx _ _ parent => Deadline parent
  end.

(** [ctx.Value(key)]: the value of the nearest [WithValue] for an equal key,
    nil when there is none. [WithoutCancel] and the cancelling contexts hand
    the question to their parent. *)
Fixpoint Value (ctx : Context) (key : any) : option any :=
  match ctx with
  | Background => None
  | withoutCancelCtx parent => Value parent key
  | cancelCtx _ parent => Value parent key
  | timerCtx _ _ parent => Value parent key
  | valueCtx k v parent => if any_eqb k key then v else Value parent key
  | signalCtx _ _ parent => Value parent key
  end.

(** [context.WithValue(parent, key, val)]. *)
Definition WithValue (parent : Context) (key : any) (val : option any) : Context :=
  valueCtx key val parent.

(** Whether [ctx.Done()] is closed ([ctx.Err() != nil]) in world [w]. A
    context is done once its own cancel function ran, its deadline passed, or
    its parent is done; [Background] and [WithoutCancel] are never done. *)
Fixpoint done (w : World) (ctx : Context) : bool :=
  match ctx with
  | Background => false
  | withoutCancelCtx _ => false
  | cancelCtx id parent => cancel_called w id || done w parent
  | timerCtx id deadline parent =>
      cancel_called w id || (deadline <=? now w) || done w parent
  | valueCtx _ _ parent => done w parent
  | signalCtx id _ parent => signal_cancelled w id || done w parent
  end.

(** The chain of contexts [ctx] was derived from, itself first. Cancellation
    walks it only up to a [WithoutCancel]; values are looked up along all of
    it. *)
Fixpoint ancestors (ctx : Context) : list Context :=
  ctx ::
  match ctx with
  | Background => []
  | withoutCancelCtx parent => ancestors parent
  | cancelCtx _ parent => ancestors parent
  | timerCtx _ _ parent => ancestors parent
  | valueCtx _ _ parent => ancestors parent
  | signalCtx _ _ parent => ancestors parent
  end.

(** Function values returned next to a context. *)
Inductive CancelFunc : Type :=
| cancelFn (id : nat)
| stopFn (id : nat).

(** [context.WithoutCancel(parent)]. *)
Definition WithoutCancel (parent : Context) : Context := withoutCancelCtx parent.

(** [context.WithCancel(parent)]. *)
Definition WithCancel (w : World) (parent : Context) : World * Context * CancelFunc :=
  let id := fresh (dom (cancels w)) in
  ({| now := now w; cancels := <[id := false]> (cancels w); sigctxs := sigctxs w |},
   cancelCtx id parent, cancelFn id).

(** [context.WithDeadline(parent, d)]: when the parent's deadline is already
    earlier the result is a plain [WithCancel(parent)]. *)
Definition WithDeadline (w : World) (parent : Context) (d : Z)
  : World * Context * CancelFunc :=
  match Deadline parent with
  | Some cur => if cur <? d then WithCancel w parent else
      let id := fresh (dom (cancels w)) in
      ({| now := now w; cancels := <[id := false]> (cancels w); sigctxs := sigctxs w |},
       timerCtx id d parent, cancelFn id)
  | None =>
      let id := fresh (dom (cancels w)) in
      ({| now := now w; cancels := <[id := false]> (cancels w); sigctxs := sigctxs w |},
       timerCtx id d parent, cancelFn id)
  end.

(** [context.WithTimeout(parent, timeout)] is
    [WithDeadline(parent, time.Now().Add(timeout))]. *)
Definition WithTimeout (w : World) (parent : Context) (timeout : Z)
  : World * Context * CancelFunc :=
  WithDeadline w parent (now w + timeout).

(** [signal.NotifyContext(parent, signals...)]: a cancellable child of
    [parent], a [signal.Notify] registration for [signals] whose first
    delivery cancels the child, and the [stop] function. *)
Definition NotifyContext (w : World) (parent : Context) (signals : list Signal)
  : World * Context * CancelFunc :=
  let id := fresh (dom (sigctxs w)) in
  ({| now := now w; cancels := cancels w;
      sigctxs := <[id := mkSigState signals true false]> (sigctxs w) |},
   signalCtx id signals parent, stopFn id).

(** What can happen while a program runs: the process receives a signal,
    somebody calls a cancel or stop function, time passes. *)
Inductive Action : Type :=
| Deliver (s : Signal)
| Invoke (f : CancelFunc)
| Elapse (d : nat).

(** [signal.Notify(c, sig...)] relays the listed signals, and all of them
    when none is listed. *)
Definition relays (signals : list Signal) (s : Signal) : bool :=
  match signals with
  | [] => true
  | _ => bool_decide (s ∈ signals)
  end.

(** Delivery of [s] to one registration: if it still relays [s], the
    goroutine started by [NotifyContext] calls [cancel]. *)
Definition deliver_to (s : Signal) (st : sigState) : sigState :=
  if sig_notifying st && relays (sig_signals st) s
  then mkSigState (sig_signals st) (sig_notifying st) true
  else st.

(** [signalCtx.stop]: [c.cancel()] and then [signal.Stop(c.ch)]. *)
Definition stop_sig (st : sigState) : sigState :=
  mkSigState (sig_signals st) false true.

Definition step (w : World) (a : Action) : World :=
  match a with
  | Deliver s =>
      {| now := now w; cancels := cancels w; sigctxs := deliver_to s <$> sigctxs w |}
  | Invoke (cancelFn id) =>
      {| now := now w; cancels := alter (fun _ => true) id (cancels w); sigctxs := sigctxs w |}
  | Invoke (stopFn id) =>
      {| now := now w; cancels := cancels w; sigctxs := alter stop_sig id (sigctxs w) |}
  | Elapse d =>
      {| now := now w + Z.of_nat d; cancels := cancels w; sigctxs := sigctxs w |}
  end.

Definition run_actions (w : World) (acts : list Action) : World :=
  fold_left step acts w.

(** Whether a delivery of [s] is still diverted to registration [id]. *)
Definition intercepts (w : World) (id : nat) (s : Signal) : bool :=
  match sigctxs w !! id with
  | Some st => sig_notifying st && relays (sig_signals st) s
  | None => false
  end.

(** Registration [id] asked for [sigs], and its context is cancelled or not
    as [b] says; while it is not, signals are still relayed to it. *)
Definition tracks (sigs : list Signal) (id : nat) (w : World) (b : bool) : Prop :=
  exists st, sigctxs w !! id = Some st /\ sig_signals st = sigs /\
             sig_cancelled st = b /\ (sig_notifying st = true \/ b = true).

(** Registration [id] was stopped: nothing is relayed to it any more and
    its context is cancelled. *)
Definition stopped (id : nat) (w : World) : Prop :=
  exists st, sigctxs w !! id = Some st /\
             sig_notifying st = false /\ sig_cancelled st = true.

End context.

Export context.

(* ===================================================================== *)
(** ** Package [net/http]: the server the runner drives *)
(* ===================================================================== *)

Module http.

(** An [http.Server] as the runner sees it: its [Addr] field and how its two
    blocking methods end. [ListenAndServe] returns an error (never nil in
    net/http, but nothing here relies on that) or panics, for instance from a
    [BaseContext] hook; [Shutdown] returns what draining under the given
    context and world comes to. *)
Record Server : Type := mkServer {
  Addr : string;
  ListenAndServe : Outcome (option error);
  Shutdown : World -> Context -> option error
}.

Definition ErrServerClosed : error := sentinelError http_ErrServerClosed.

Definition StatusOK : Z := 200.
Definition StatusCreated : Z := 201.
Definition StatusNoContent : Z := 204.
Definition StatusTemporaryRedirect : Z := 307.
Definition StatusBadRequest : Z := 400.
Definition StatusUnauthorized : Z := 401.
Definition StatusForbidden : Z := 403.
Definition StatusNotFound : Z := 404.
Definition StatusConflict : Z := 409.
Definition StatusInternalServerError : Z := 500.

End http.

(* ===================================================================== *)
(** ** Package [runner] *)
(* ===================================================================== *)

Module runner.

(** What a callback does when it is called: it returns, or it calls
    [panic(v)] (with [v] possibly nil). *)
Inductive Behaviour : Type :=
| returns
| panics (v : option any).

Definition onErrorFunc : Type := Context -> error -> Behaviour.
Definition onPanicFunc : Type := Context -> any -> Behaviour.

(** The struct behind [HTTPServerRunner]. Its three fields are a pointer and
    two func values, each of which Go lets be nil. *)
Record httpServerRunner : Type := mkRunner {
  server : option http.Server;
  onError : option onErrorFunc;
  onPanic : option onPanicFunc
}.

(** What a goroutine did that others can observe, in order. *)
Inductive Event : Type :=
| EvListenAndServe
| EvOnError (ctx : Context) (err : error)
| EvOnPanic (ctx : Context) (rvr : any)
| EvServerShutdown (ctx : Context)
| EvCancel (f : CancelFunc).

(** The state of a running goroutine: the events so far and, while a
    deferred call runs during a panic, the value [recover()] would return. *)
Record Frame : Type := mkFrame {
  events : list Event;
  panicking : option any
}.

Definition Go (A : Type) : Type := Frame -> Frame * Outcome A.

#[global] Instance Go_ret : MRet Go := fun A (a : A) (f : Frame) => (f, Returns a).

#[global] Instance Go_bind : MBind Go := fun A B (k : A -> Go B) (m : Go A) (f : Frame) =>
  match m f with
  | (f1, Returns a) => k a f1
  | (f1, Panics v) => (f1, Panics v)
  end.

Definition emit (e : Event) : Go unit :=
  fun f => ({| events := events f ++ [e]; panicking := panicking f |}, Returns tt).

Definition gopanic {A : Type} (v : option any) : Go A :=
  fun f => (f, Panics (panic_value v)).

(** [recover()]: the value of the panic in flight, which it stops, or nil. *)
Definition recover : Go (option any) :=
  fun f => ({| events := events f; panicking := None |}, Returns (panicking f)).

(** [defer deferred(); body]: the deferred call runs when the body is over,
    also when the body panicked. A panic it recovered is over, and the
    function returns normally; one it did not recover, or a new one it raised
    itself, goes on to the caller. *)
Definition with_defer (deferred : Go unit) (body : Go unit) : Go unit :=
  fun f =>
    match body f with
    | (f1, Returns _) =>
        deferred {| events := events f1; panicking := None |}
    | (f1, Panics v) =>
        match deferred {| events := events f1; panicking := Some v |} with
        | (f2, Returns _) =>
            match panicking f2 with
            | None => (f2, Returns tt)
            | Some v' => ({| events := events f2; panicking := None |}, Panics v')
            end
        | (f2, Panics v') => ({| events := events f2; panicking := None |}, Panics v')
        end
    end.

(** Calls of the three func-typed or pointer-typed fields. *)
Definition call_onError (r : httpServerRunner) (ctx : Context) (err : error) : Go unit :=
  match onError r with
  | None => gopanic (Some nil_dereference)
  | Some f =>
      emit (EvOnError ctx err);;
      match f ctx err with
      | returns => mret tt
      | panics v => gopanic v
      end
  end.

Definition call_onPanic (r : httpServerRunner) (ctx : Context) (rvr : any) : Go unit :=
  match onPanic r with
  | None => gopanic (Some nil_dereference)
  | Some f =>
      emit (EvOnPanic ctx rvr);;
      match f ctx rvr with
      | returns => mret tt
      | panics v => gopanic v
      end
  end.

Definition call_ListenAndServe (r : httpServerRunner) : Go (option error) :=
  match server r with
  | None => gopanic (Some nil_dereference)
  | Some srv =>
      emit EvListenAndServe;;
      match http.ListenAndServe srv with
      | Returns e => mret e
      | Panics v => fun f => (f, Panics v)
      end
  end.

(** [NewHTTPServerRunner(server, onError, onPanic)]. *)
Definition NewHTTPServerRunner (server : option http.Server)
    (onError : option onErrorFunc) (onPanic : option onPanicFunc)
  : Outcome httpServerRunner :=
  match server with
  | None => Panics (any_string "server is nil")
  | Some srv =>
      let onError :=
        match onError with
        | None => Some (fun (ctx : Context) (err : error) => returns)
        | Some f => Some f
        end in
      let onPanic :=
        match onPanic with
        | None => Some (fun (ctx : Context) (rvr : any) => returns)
        | Some f => Some f
        end in
      Returns {| server := Some srv; onError := onError; onPanic := onPanic |}
  end.

(** [httpServerRunner.Addr]. *)
Definition Addr (r : httpServerRunner) : Outcome string :=
  match server r with
  | None => Panics nil_dereference
  | Some srv => Returns (http.Addr srv)
  end.

(** The function literal [Run] starts with [go]: the accept loop under its
    recovery guard. [ctx] is the variable the closure captures, which holds
    the completion context by the time the goroutine can run. First the
    deferred function literal, then the statements after the [defer]. *)
Definition recovery_guard (r : httpServerRunner) (ctx : Context) : Go unit :=
  rvr ← recover;
  match rvr with
  | Some v => call_onPanic r ctx v
  | None => mret tt
  end.

Definition accept_body (r : httpServerRunner) (ctx : Context) : Go unit :=
  srvErr ← call_ListenAndServe r;
  match srvErr with
  | Some e =>
      if negb (errors.Is srvErr http_ErrServerClosed)
      then call_onError r ctx e
      else mret tt
  | None => mret tt
  end.

Definition accept_loop (r : httpServerRunner) (ctx : Context) : Go unit :=
  with_defer (recovery_guard r ctx) (accept_body r ctx).

(** A goroutine that was started and runs on its own. *)
Record Goroutine : Type := mkGoroutine {
  g_runner : httpServerRunner;
  g_ctx : Context
}.

Definition new_frame : Frame := {| events := []; panicking := None |}.

(** Running a goroutine to its end. A [Panics] here is a panic nobody
    recovered: the Go runtime prints it and the process exits. *)
Definition run_goroutine (g : Goroutine) : Frame * Outcome unit :=
  accept_loop (g_runner g) (g_ctx g) new_frame.

(** The calls of the two sinks among the events, in order. *)
Definition error_sink_calls (tr : list Event) : list (Context * error) :=
  omap (fun ev => match ev with EvOnError c e => Some (c, e) | _ => None end) tr.

Definition panic_sink_calls (tr : list Event) : list (Context * any) :=
  omap (fun ev => match ev with EvOnPanic c v => Some (c, v) | _ => None end) tr.

(** What [Run] leaves behind: the world with the signal registration, the
    two results, and the goroutine it started without waiting for it. *)
Record RunResult : Type := mkRunResult {
  run_world : World;
  run_ctx : Context;
  run_stop : CancelFunc;
  run_goroutine_started : Goroutine
}.

(** [httpServerRunner.Run]. *)
Definition Run (r : httpServerRunner) (w : World) (ctx : Context) : RunResult :=
  let ctx := WithoutCancel ctx in
  let '(w1, ctx, stop) := NotifyContext w ctx [SIGTERM; os_Interrupt] in
  {| run_world := w1; run_ctx := ctx; run_stop := stop;
     run_goroutine_started := {| g_runner := r; g_ctx := ctx |} |}.

(** What [Shutdown] leaves behind: the events of the call, the world after
    it, and its result. *)
Record ShutdownResult : Type := mkShutdownResult {
  sd_events : list Event;
  sd_world : World;
  sd_result : Outcome (option error)
}.

(** [httpServerRunner.Shutdown]. *)
Definition Shutdown (r : httpServerRunner) (w : World) (timeout : Z) : ShutdownResult :=
  match server r with
  | None => {| sd_events := []; sd_world := w; sd_result := Panics nil_dereference |}
  | Some srv =>
      let ctx := Background in
      if timeout <=? 0 then
        {| sd_events := [EvServerShutdown ctx]; sd_world := w;
           sd_result := Returns (http.Shutdown srv w ctx) |}
      else
        let '(w1, ctx, cancel) := WithTimeout w ctx timeout in
        let res := http.Shutdown srv w1 ctx in
        {| sd_events := [EvServerShutdown ctx; EvCancel cancel];
           sd_world := step w1 (Invoke cancel);
           sd_result := Returns res |}
  end.

End runner.

(* ===================================================================== *)
(** ** Package [encoding/json]: decoding one value *)
(* ===================================================================== *)

Module json.

(** A [float64] that came from a JSON number: [mantissa * 10 ^ exponent],
    with no trailing zero in the mantissa. The rounding and the range of
    [float64] are not modelled. *)
Record float64 : Type := mkFloat64 {
  mantissa : Z;
  exponent : Z
}.

#[global] Instance float64_eq_dec : EqDecision float64.
Proof. solve_decision. Defined.

(** The Go values a decoded request body can be. A nil slice, map, pointer
    or [[]byte] is [None]; the nil interface is [VNil]. A map is the list of
    its entries, in the order in which the keys first came. *)
Inductive GoValue : Type :=
| VBool (b : bool)
| VInt (n : Z)
| VFloat64 (x : float64)
| VString (s : string)
| VSlice (elems : option (list GoValue))
| VMap (entries : option (list (string * GoValue)))
| VStruct (fields : list GoValue)
| VPointer (target : option GoValue)
| VBytes (b : option string)
| VNil.

(** The Go types a request body is decoded into. A struct type lists the
    JSON name and the type of each exported field. [TUnmarshaler] is a named
    type whose pointer implements [json.Unmarshaler]: its zero value and its
    [UnmarshalJSON] method, which gets the text of the JSON value and the
    current Go value and leaves the new value and an error. *)
Inductive GoType : Type :=
| TBool
| TInt
| TFloat64
| TString
| TSlice (elem : GoType)
| TMap (elem : GoType)
| TStruct (fields : list (string * GoType))
| TPointer (elem : GoType)
| TAny
| TUnmarshaler (name : string) (zero : GoValue)
               (UnmarshalJSON : string -> GoValue -> GoValue * option error).

(** [var zero T]. *)
Fixpoint zero (t : GoType) : GoValue :=
  match t with
  | TBool => VBool false
  | TInt => VInt 0
  | TFloat64 => VFloat64 {| mantissa := 0; exponent := 0 |}
  | TString => VString ""
  | TSlice _ => VSlice None
  | TMap _ => VMap None
  | TStruct fields => VStruct (map (fun f => zero f.2) fields)
  | TPointer _ => VPointer None
  | TAny => VNil
  | TUnmarshaler _ z _ => z
  end.

(** [json.RawMessage]: [UnmarshalJSON] keeps the text it is given. *)
Definition RawMessage : GoType :=
  TUnmarshaler "json.RawMessage" (VBytes None)
               (fun data _ => (VBytes (Some data), None)).

(** Whether values of the type are handed to an [UnmarshalJSON] method. *)
Definition is_Unmarshaler (t : GoType) : bool :=
  match t with
  | TUnmarshaler _ _ _ => true
  | _ => false
  end.

(** *** The text of a value *)

(** A parsed JSON value. Elements and members keep their own text, which is
    what an [UnmarshalJSON] method is given. *)
Inductive JSON : Type :=
| JNull
| JBool (b : bool)
| JNumber (lit : string)
| JString (s : string)
| JArray (elems : list (string * JSON))
| JObject (members : list (string * (string * JSON))).

(** The result of reading from a text: a value and the text after it, a
    syntax error, or the end of the text before the value was over. *)
Inductive Parsed (A : Type) : Type :=
| POk (a : A) (rest : string)
| PSyntax (msg : string)
| PMore.
Arguments POk {A} a rest.
Arguments PSyntax {A} msg.
Arguments PMore {A}.

Definition isSpace (c : ascii) : bool :=
  match c with
  | " "%char | "009"%char | "010"%char | "013"%char => true
  | _ => false
  end.

Fixpoint skip_space (s : string) : string :=
  match s with
  | String c rest => if isSpace c then skip_space rest else s
  | EmptyString => s
  end.

(** The double quote. *)
Definition quote : ascii := "034"%char.

Definition is_digit (c : ascii) : bool :=
  let n := nat_of_ascii c in (48 <=? n)%nat && (n <=? 57)%nat.

Definition digit_value (c : ascii) : Z := Z.of_nat (nat_of_ascii c) - 48.

Definition hex_value (c : ascii) : option Z :=
  let n := Z.of_nat (nat_of_ascii c) in
  if (48 <=? n) && (n <=? 57) then Some (n - 48)
  else if (97 <=? n) && (n <=? 102) then Some (n - 87)
  else if (65 <=? n) && (n <=? 70) then Some (n - 55)
  else None.

(** The text of [s] before [rest], when [rest] is what is left of [s]. *)
Definition consumed (s rest : string) : string :=
  substring 0 (String.length s - String.length rest) s.

(** [utf8.AppendRune]. *)
Definition utf8_encode (r : Z) : string :=
  let byte (n : Z) : ascii := ascii_of_nat (Z.to_nat n) in
  if r <? 128 then String (byte r) ""
  else if r <? 2048 then
    String (byte (192 + r / 64)) (String (byte (128 + r mod 64)) "")
  else if r <? 65536 then
    String (byte (224 + r / 4096))
      (String (byte (128 + (r / 64) mod 64)) (String (byte (128 + r mod 64)) ""))
  else
    String (byte (240 + r / 262144))
      (String (byte (128 + (r / 4096) mod 64))
         (String (byte (128 + (r / 64) mod 64)) (String (byte (128 + r mod 64)) ""))).

(** Four hexadecimal digits, as after a backslash and [u]. *)
Definition parse_hex4 (s : string) : Parsed Z :=
  match s with
  | String a (String b (String c (String d rest))) =>
      match hex_value a, hex_value b, hex_value c, hex_value d with
      | Some x, Some y, Some z, Some w => POk (((x * 16 + y) * 16 + z) * 16 + w) rest
      | _, _, _, _ => PSyntax "invalid character in \u hexadecimal character escape"
      end
  | String a (String b (String c "")) =>
      match hex_value a, hex_value b, hex_value c with
      | Some _, Some _, Some _ => PMore
      | _, _, _ => PSyntax "invalid character in \u hexadecimal character escape"
      end
  | String a (String b "") =>
      match hex_value a, hex_value b with
      | Some _, Some _ => PMore
      | _, _ => PSyntax "invalid character in \u hexadecimal character escape"
      end
  | String a "" =>
      match hex_value a with
      | Some _ => PMore
      | _ => PSyntax "invalid character in \u hexadecimal character escape"
      end
  | "" => PMore
  end.

Definition is_surrogate (r : Z) : bool := (55296 <=? r) && (r <? 57344).

(** The rune of a [\u] escape whose digits gave [r], with the text after
    it: a surrogate pair is one rune, a lone surrogate the replacement
    character. *)
Definition escaped_rune (r : Z) (rest : string) : Z * string :=
  if is_surrogate r then
    match rest with
    | String "\" (String "u" rest') =>
        match parse_hex4 rest' with
        | POk r2 rest'' =>
            if (r <? 56320) && (56320 <=? r2) && (r2 <? 57344)
            then ((r - 55296) * 1024 + (r2 - 56320) + 65536, rest'')
            else (65533, rest)
        | _ => (65533, rest)
        end
    | _ => (65533, rest)
    end
  else (r, rest).

(** The rest of a string literal, after the opening quote; [fuel] bounds the
    number of characters. Bytes above 0x7f are kept as they are. *)
Fixpoint parse_string_body (fuel : nat) (s : string) : Parsed string :=
  match fuel with
  | O => PMore
  | S fuel =>
      match s with
      | "" => PMore
      | String c rest =>
          if Ascii.eqb c quote then POk "" rest
          else if Ascii.eqb c "\" then
            match rest with
            | "" => PMore
            | String e rest' =>
                let simple (x : ascii) :=
                  match parse_string_body fuel rest' with
                  | POk str r => POk (String x str) r
                  | PSyntax m => PSyntax m
                  | PMore => PMore
                  end in
                if Ascii.eqb e quote then simple quote
                else if Ascii.eqb e "\" then simple "\"%char
                else if Ascii.eqb e "/" then simple "/"%char
                else if Ascii.eqb e "b" then simple "008"%char
                else if Ascii.eqb e "f" then simple "012"%char
                else if Ascii.eqb e "n" then simple "010"%char
                else if Ascii.eqb e "r" then simple "013"%char
                else if Ascii.eqb e "t" then simple "009"%char
                else if Ascii.eqb e "u" then
                  match parse_hex4 rest' with
                  | POk r rest'' =>
                      let '(rune, rest3) := escaped_rune r rest'' in
                      match parse_string_body fuel rest3 with
                      | POk str r' => POk (utf8_encode rune +:+ str) r'
                      | PSyntax m => PSyntax m
                      | PMore => PMore
                      end
                  | PSyntax m => PSyntax m
                  | PMore => PMore
                  end
                else PSyntax "invalid character in string escape code"
            end
          else if (nat_of_ascii c <? 32)%nat then
            PSyntax "invalid character in string literal"
          else
            match parse_string_body fuel rest with
            | POk str r => POk (String c str) r
            | PSyntax m => PSyntax m
            | PMore => PMore
            end
      end
  end.

(** A run of digits at the start of [s]. *)
Fixpoint span_digits (s : string) : string * string :=
  match s with
  | String c rest =>
      if is_digit c then let '(ds, r) := span_digits rest in (String c ds, r)
      else ("", s)
  | "" => ("", "")
  end.

(** A number at the start of [s]: the scanner's states for the sign, the
    integer part, the fraction and the exponent. A number that the end of the
    text cuts in the middle is [PMore]. *)
Definition parse_number (s : string) : Parsed string :=
  let '(sign, s1) :=
    match s with
    | String "-" r => ("-", r)
    | _ => ("", s)
    end in
  match s1 with
  | "" => PMore
  | String c r1 =>
      if negb (is_digit c) then PSyntax "invalid character in numeric literal"
      else
        let '(int, s2) :=
          if Ascii.eqb c "0" then ("0", r1)
          else let '(ds, r) := span_digits r1 in (String c ds, r) in
        let '(frac, s3, frac_state) :=
          match s2 with
          | String "." r2 =>
              match r2 with
              | "" => ("", r2, Some (@PMore string))
              | String d _ =>
                  if is_digit d then
                    let '(ds, r) := span_digits r2 in (String "." ds, r, None)
                  else ("", r2, Some (PSyntax "invalid character after decimal point in numeric literal"))
              end
          | _ => ("", s2, None)
          end in
        match frac_state with
        | Some bad => bad
        | None =>
            match s3 with
            | String e r3 =>
                if Ascii.eqb e "e" || Ascii.eqb e "E" then
                  let '(esign, r4) :=
                    match r3 with
                    | String "+" r => ("+", r)
                    | String "-" r => ("-", r)
                    | _ => ("", r3)
                    end in
                  match r4 with
                  | "" => PMore
                  | String d _ =>
                      if is_digit d then
                        let '(ds, r) := span_digits r4 in
                        POk (sign +:+ int +:+ frac +:+ String e esign +:+ ds) r
                      else PSyntax "invalid character in exponent of numeric literal"
                  end
                else POk (sign +:+ int +:+ frac) s3
            | "" => POk (sign +:+ int +:+ frac) s3
            end
        end
  end.

(** One of the words [true], [false] and [null], whose first letter was
    seen. *)
Fixpoint parse_word (word : string) (s : string) : Parsed unit :=
  match word with
  | "" => POk tt s
  | String w word' =>
      match s with
      | "" => PMore
      | String c rest =>
          if Ascii.eqb c w then parse_word word' rest
          else PSyntax "invalid character in literal"
      end
  end.

(** A value at the start of [s], which does not start with a space. *)
Fixpoint parse_value (fuel : nat) (s : string) : Parsed JSON :=
  match fuel with
  | O => PSyntax "exceeded max depth"
  | S fuel =>
      match s with
      | "" => PMore
      | String c rest =>
          if Ascii.eqb c "{" then
            match skip_space rest with
            | "" => PMore
            | String "}" rest' => POk (JObject []) rest'
            | s' =>
                match parse_members fuel s' with
                | POk ms r => POk (JObject ms) r
                | PSyntax m => PSyntax m
                | PMore => PMore
                end
            end
          else if Ascii.eqb c "[" then
            match skip_space rest with
            | "" => PMore
            | String "]" rest' => POk (JArray []) rest'
            | s' =>
                match parse_elems fuel s' with
                | POk es r => POk (JArray es) r
                | PSyntax m => PSyntax m
                | PMore => PMore
                end
            end
          else if Ascii.eqb c quote then
            match parse_string_body (String.length rest + 1) rest with
            | POk str r => POk (JString str) r
            | PSyntax m => PSyntax m
            | PMore => PMore
            end
          else if Ascii.eqb c "-" || is_digit c then
            match parse_number s with
            | POk lit r => POk (JNumber lit) r
            | PSyntax m => PSyntax m
            | PMore => PMore
            end
          else if Ascii.eqb c "t" then
            match parse_word "true" s with
            | POk _ r => POk (JBool true) r
            | PSyntax m => PSyntax m
            | PMore => PMore
            end
          else if Ascii.eqb c "f" then
            match parse_word "false" s with
            | POk _ r => POk (JBool false) r
            | PSyntax m => PSyntax m
            | PMore => PMore
            end
          else if Ascii.eqb c "n" then
            match parse_word "null" s with
            | POk _ r => POk JNull r
            | PSyntax m => PSyntax m
            | PMore => PMore
            end
          else PSyntax "invalid character looking for beginning of value"
      end
  end
(** The elements of an array from the first on, up to the closing bracket. *)
with parse_elems (fuel : nat) (s : string) : Parsed (list (string * JSON)) :=
  match fuel with
  | O => PSyntax "exceeded max depth"
  | S fuel =>
      match parse_value fuel s with
      | POk v r =>
          match skip_space r with
          | "" => PMore
          | String "," r' =>
              match parse_elems fuel (skip_space r') with
              | POk es r'' => POk ((consumed s r, v) :: es) r''
              | PSyntax m => PSyntax m
              | PMore => PMore
              end
          | String "]" r' => POk [(consumed s r, v)] r'
          | _ => PSyntax "invalid character after array element"
          end
      | PSyntax m => PSyntax m
      | PMore => PMore
      end
  end
(** The members of an object from the first key on, up to the closing
    brace. *)
with parse_members (fuel : nat) (s : string) : Parsed (list (string * (string * JSON))) :=
  match fuel with
  | O => PSyntax "exceeded max depth"
  | S fuel =>
      match s with
      | "" => PMore
      | String c rest =>
          if negb (Ascii.eqb c quote)
          then PSyntax "invalid character looking for beginning of object key string"
          else
          match parse_string_body (String.length rest + 1) rest with
          | POk key r =>
              match skip_space r with
              | "" => PMore
              | String ":" r1 =>
                  let s1 := skip_space r1 in
                  match parse_value fuel s1 with
                  | POk v r2 =>
                      match skip_space r2 with
                      | "" => PMore
                      | String "," r3 =>
                          match parse_members fuel (skip_space r3) with
                          | POk ms r4 => POk ((key, (consumed s1 r2, v)) :: ms) r4
                          | PSyntax m => PSyntax m
                          | PMore => PMore
                          end
                      | String "}" r3 => POk [(key, (consumed s1 r2, v))] r3
                      | _ => PSyntax "invalid character after object key:value pair"
                      end
                  | PSyntax m => PSyntax m
                  | PMore => PMore
                  end
              | _ => PSyntax "invalid character after object key"
              end
          | PSyntax m => PSyntax m
          | PMore => PMore
          end
      end
  end.


(** *** Storing a value into a Go value *)

(** [strconv.ParseInt(lit, 10, 64)] on the text of a JSON number: digits
    only, after an optional sign, and within 64 bits. *)
Fixpoint digits_value (acc : Z) (s : string) : option Z :=
  match s with
  | "" => Some acc
  | String c rest =>
      if is_digit c then digits_value (acc * 10 + digit_value c) rest else None
  end.

Definition ParseInt (lit : string) : option Z :=
  let '(neg, ds) :=
    match lit with
    | String "-" r => (true, r)
    | _ => (false, lit)
    end in
  match ds with
  | "" => None
  | _ =>
      match digits_value 0 ds with
      | Some n =>
          let n := if neg then - n else n in
          if (- 2 ^ 63 <=? n) && (n <? 2 ^ 63) then Some n else None
      | None => None
      end
  end.

(** Trailing zeros of a mantissa move to the exponent. *)
Fixpoint normalize (fuel : nat) (m e : Z) : float64 :=
  match fuel with
  | O => {| mantissa := m; exponent := e |}
  | S fuel =>
      if m =? 0 then {| mantissa := 0; exponent := 0 |}
      else if m mod 10 =? 0 then normalize fuel (m / 10) (e + 1)
      else {| mantissa := m; exponent := e |}
  end.

(** The number a JSON number text stands for. *)
Definition ParseFloat (lit : string) : float64 :=
  let '(neg, s) :=
    match lit with
    | String "-" r => (true, r)
    | _ => (false, lit)
    end in
  let '(int, s1) := span_digits s in
  let '(frac, s2) :=
    match s1 with
    | String "." r => span_digits r
    | _ => ("", s1)
    end in
  let exp :=
    match s2 with
    | String _ (String "-" r) => - default 0 (digits_value 0 r)
    | String _ (String "+" r) => default 0 (digits_value 0 r)
    | String _ r => default 0 (digits_value 0 r)
    | "" => 0
    end in
  let m := default 0 (digits_value 0 (int +:+ frac)) in
  normalize (String.length lit) (if neg then - m else m) (exp - Z.of_nat (String.length frac)).

(** What the decoder calls a JSON value of the wrong kind in an
    [UnmarshalTypeError]. A number that does not fit the Go type is named
    with its text, see [store]. *)
Definition value_name (j : JSON) : string :=
  match j with
  | JNull => "null"
  | JBool _ => "bool"
  | JNumber _ => "number"
  | JString _ => "string"
  | JArray _ => "array"
  | JObject _ => "object"
  end.

Fixpoint type_name (t : GoType) : string :=
  match t with
  | TBool => "bool"
  | TInt => "int"
  | TFloat64 => "float64"
  | TString => "string"
  | TSlice e => "[]" +:+ type_name e
  | TMap e => "map[string]" +:+ type_name e
  | TStruct _ => "struct"
  | TPointer e => "*" +:+ type_name e
  | TAny => "interface {}"
  | TUnmarshaler name _ _ => name
  end.

(** How far decoding got: no error, a first error that was noted while
    decoding went on ([d.saveError]), or an error that ended it. *)
Inductive Status : Type :=
| Clean
| Saved (err : error)
| Failed (err : error).

Definition saveError (st : Status) (err : error) : Status :=
  match st with
  | Clean => Saved err
  | _ => st
  end.

Definition failed (st : Status) : bool :=
  match st with
  | Failed _ => true
  | _ => false
  end.

Definition status_error (st : Status) : option error :=
  match st with
  | Clean => None
  | Saved err => Some err
  | Failed err => Some err
  end.

(** [d.valueInterface()]: what a JSON value is as an [interface{}]. *)
Fixpoint valueInterface (j : JSON) : GoValue :=
  match j with
  | JNull => VNil
  | JBool b => VBool b
  | JNumber lit => VFloat64 (ParseFloat lit)
  | JString s => VString s
  | JArray elems => VSlice (Some (map (fun e => valueInterface e.2) elems))
  | JObject members =>
      VMap (Some (fold_left
                    (fun acc m =>
                       let v := valueInterface m.2.2 in
                       if bool_decide (m.1 ∈ acc.*1)
                       then map (fun kv => if String.eqb kv.1 m.1 then (m.1, v) else kv) acc
                       else acc ++ [(m.1, v)])
                    members []))
  end.

Fixpoint index_where {A : Type} (p : A -> bool) (l : list A) : option nat :=
  match l with
  | [] => None
  | x :: rest => if p x then Some O else S <$> index_where p rest
  end.

(** The index of the field a key names: the field with exactly that name,
    or else the first field whose folded name is the folded key. [foldName]
    is the function of that name in encoding/json: the name with every small
    ASCII letter as its capital and every other letter as the smallest letter
    of its case-folding orbit in Unicode, so that the Kelvin sign folds to
    [K]. The orbits are a table of the standard library
    ([unicode.SimpleFold]); the function is an argument here. *)
Definition find_field (foldName : string -> string)
    (fields : list (string * GoType)) (key : string) : option nat :=
  match index_where (fun f => String.eqb f.1 key) fields with
  | Some i => Some i
  | None => index_where (fun f => String.eqb (foldName f.1) (foldName key)) fields
  end.

Definition set_entry (k : string) (v : GoValue) (entries : list (string * GoValue))
  : list (string * GoValue) :=
  if bool_decide (k ∈ entries.*1)
  then map (fun kv => if String.eqb kv.1 k then (k, v) else kv) entries
  else entries ++ [(k, v)].

Section decode.
Variable foldName : string -> string.
Variable disallowUnknownFields : bool.

(** [d.value(v)] for a Go value of type [t] that holds [cur]; [raw] is the
    text of the JSON value [j]. The result is the new Go value. A JSON value
    of the wrong kind leaves the Go value as it is and notes an
    [UnmarshalTypeError]; an error of an [UnmarshalJSON] method ends the
    decoding. The recursion follows the JSON value; for a pointer type, the
    same JSON value goes to what the pointer points to. *)
Fixpoint store (j : JSON) (raw : string) {struct j}
  : GoType -> GoValue -> Status -> GoValue * Status :=
  fix through_pointers (t : GoType) (cur : GoValue) (st : Status) {struct t}
    : GoValue * Status :=
  let mismatch := (cur, saveError st (UnmarshalTypeError (value_name j) (type_name t))) in
  match t with
  | TUnmarshaler _ _ UnmarshalJSON =>
      match UnmarshalJSON raw cur with
      | (v, None) => (v, st)
      | (v, Some err) => (v, Failed err)
      end
  | TPointer elem =>
      match j with
      | JNull => (VPointer None, st)
      | _ =>
          let target :=
            match cur with
            | VPointer (Some x) => x
            | _ => zero elem
            end in
          let '(v, st') := through_pointers elem target st in
          (VPointer (Some v), st')
      end
  | TAny =>
      match j with
      | JNull => (VNil, st)
      | _ => (valueInterface j, st)
      end
  | TBool =>
      match j with
      | JNull => (cur, st)
      | JBool b => (VBool b, st)
      | _ => mismatch
      end
  | TInt =>
      match j with
      | JNull => (cur, st)
      | JNumber lit =>
          match ParseInt lit with
          | Some n => (VInt n, st)
          | None =>
              (cur, saveError st (UnmarshalTypeError ("number " +:+ lit) (type_name t)))
          end
      | _ => mismatch
      end
  | TFloat64 =>
      match j with
      | JNull => (cur, st)
      | JNumber lit => (VFloat64 (ParseFloat lit), st)
      | _ => mismatch
      end
  | TString =>
      match j with
      | JNull => (cur, st)
      | JString s => (VString s, st)
      | _ => mismatch
      end
  | TSlice elem =>
      match j with
      | JNull => (VSlice None, st)
      | JArray elems =>
          let old :=
            match cur with
            | VSlice (Some l) => l
            | _ => []
            end in
          let '(vs, st') :=
            (fix each (elems : list (string * JSON)) (i : nat) (st : Status)
               : list GoValue * Status :=
               match elems with
               | [] => ([], st)
               | (raw_e, e) :: rest =>
                   if failed st then ([], st)
                   else
                     let '(v, st1) := store e raw_e elem (default (zero elem) (old !! i)) st in
                     let '(vs, st2) := each rest (S i) st1 in
                     (v :: vs, st2)
               end) elems O st in
          (VSlice (Some vs), st')
      | _ => mismatch
      end
  | TMap elem =>
      match j with
      | JNull => (VMap None, st)
      | JObject members =>
          let old :=
            match cur with
            | VMap (Some l) => l
            | _ => []
            end in
          let '(entries, st') :=
            (fix each (members : list (string * (string * JSON)))
                 (acc : list (string * GoValue)) (st : Status)
               : list (string * GoValue) * Status :=
               match members with
               | [] => (acc, st)
               | (key, (raw_m, m)) :: rest =>
                   if failed st then (acc, st)
                   else
                     let '(v, st1) := store m raw_m elem (zero elem) st in
                     each rest (if failed st1 then acc else set_entry key v acc) st1
               end) members old st in
          (VMap (Some entries), st')
      | _ => mismatch
      end
  | TStruct fields =>
      match j with
      | JNull => (cur, st)
      | JObject members =>
          let old :=
            match cur with
            | VStruct l => l
            | _ => map (fun f => zero f.2) fields
            end in
          let '(vs, st') :=
            (fix each (members : list (string * (string * JSON)))
                 (acc : list GoValue) (st : Status)
               : list GoValue * Status :=
               match members with
               | [] => (acc, st)
               | (key, (raw_m, m)) :: rest =>
                   if failed st then (acc, st)
                   else
                     match find_field foldName fields key with
                     | Some i =>
                         match fields !! i, acc !! i with
                         | Some f, Some c =>
                             let '(v, st1) := store m raw_m f.2 c st in
                             each rest (<[i := v]> acc) st1
                         | _, _ => each rest acc st
                         end
                     | None =>
                         each rest acc
                           (if disallowUnknownFields
                            then saveError st
                                   (errorString ("json: unknown field " +:+
                                                 String quote key +:+ String quote ""))
                            else st)
                     end
               end) members old st in
          (VStruct vs, st')
      | _ => mismatch
      end
  end.

End decode.

(** *** Reading a value from a stream *)

(** What a reader delivers before it stops, and the error it stops with;
    [None] is [io.EOF]. *)
Record Stream : Type := mkStream {
  data : string;
  end_err : option error
}.

Definition is_composite (j : JSON) : bool :=
  match j with
  | JArray _ | JObject _ => true
  | _ => false
  end.

Fixpoint nonSpace (s : string) : bool :=
  match s with
  | "" => false
  | String c rest => if isSpace c then nonSpace rest else true
  end.

(** [dec.readValue()]: the text and the parse of the next value. An object
    or an array is over with its closing bracket; a string, a number or a
    word is over with the byte after it, or with the end of the stream when
    that is [io.EOF]. An error of the reader counts only when the bytes that
    came before it hold no complete value. Of a syntax error the message
    keeps the scanner's context and leaves out the offending character, and
    the offset is that of the first byte that is not a space: no statement
    below depends on either. *)
Definition readValue (r : Stream) : (string * JSON) + error :=
  let s := skip_space (data r) in
  match parse_value (2 * String.length s + 2) s with
  | PSyntax msg =>
      inr (SyntaxError msg (Z.of_nat (String.length (data r) - String.length s)))
  | PMore =>
      match end_err r with
      | Some err => inr err
      | None =>
          if nonSpace (data r) then inr (sentinelError io_ErrUnexpectedEOF)
          else inr (sentinelError io_EOF)
      end
  | POk j rest =>
      match rest, end_err r, is_composite j with
      | "", Some err, false => inr err
      | _, _, _ => inl (consumed s rest, j)
      end
  end.

(** [json.NewDecoder(r)], [DisallowUnknownFields()] or not, and one
    [Decode(&t)] with [t] of type [ty] holding [cur]: the value [t] holds
    afterwards, and the error. [foldName] is the decoder's folding of
    names, see [find_field]. *)
Definition Decode (foldName : string -> string) (disallowUnknownFields : bool)
    (r : Stream) (ty : GoType) (cur : GoValue) : GoValue * option error :=
  match readValue r with
  | inr err => (cur, Some err)
  | inl (raw, j) =>
      let '(v, st) := store foldName disallowUnknownFields j raw ty cur Clean in
      (v, status_error st)
  end.

End json.

(* ===================================================================== *)
(** ** Package [log/slog]: attributes *)
(* ===================================================================== *)

Module slog.

(** A [slog.Value] of the kinds this library builds; [ZeroValue] is the
    zero [Value]. An attribute is a key with a value, and a group value holds
    attributes. *)
Inductive Value : Type :=
| ZeroValue
| StringValue (s : string)
| Int64Value (n : Z)
| groupValue (attrs : list (string * Value)).

Definition Attr : Type := (string * Value)%type.

(** [slog.Attr{}]. *)
Definition empty_Attr : Attr := ("", ZeroValue).

Definition isEmptyGroup (v : Value) : bool :=
  match v with
  | groupValue [] => true
  | _ => false
  end.

(** [slog.GroupValue(as...)]: empty groups among the attributes are left
    out. *)
Definition GroupValue (attrs : list Attr) : Value :=
  groupValue (List.filter (fun a => negb (isEmptyGroup a.2)) attrs).

(** [slog.String], [slog.Int64], [slog.Int] and [slog.GroupAttrs]. *)
Definition String (key value : string) : Attr := (key, StringValue value).
Definition Int64 (key : string) (value : Z) : Attr := (key, Int64Value value).
Definition Int (key : string) (value : Z) : Attr := (key, Int64Value value).
Definition GroupAttrs (key : string) (attrs : list Attr) : Attr := (key, GroupValue attrs).

(** The keys of the attributes of a group attribute, in order. *)
Definition group_keys (a : Attr) : list string :=
  match a.2 with
  | groupValue attrs => attrs.*1
  | _ => []
  end.

(** The value under a key of a group attribute, the first if there are
    several. *)
Definition group_lookup (a : Attr) (key : string) : option Value :=
  match a.2 with
  | groupValue attrs => snd <$> List.find (fun kv => String.eqb kv.1 key) attrs
  | _ => None
  end.

End slog.

(* ===================================================================== *)
(** ** Package [httplib]: logs carried by a context *)
(* ===================================================================== *)

Module httplib.

(** [type contextKey uint8] and its three constants. *)
Definition contextKey : Type := N.
Definition contextKeyRequestLog : contextKey := 0%N.
Definition contextKeyResponseLog : contextKey := 1%N.
Definition contextKeyLatency : contextKey := 2%N.

(** [RequestLog]; a [time.Time] is its distance from the zero time. *)
Record RequestLog : Type := mkRequestLog {
  Timestamp : Z;
  Method : string;
  URL : string;
  ContentLength : Z;
  Proto : string;
  Host : string;
  RemoteAddr : string;
  UserAgent : string;
  RequestURI : string;
  Referer : string
}.

(** [RequestLog{}]. *)
Definition zero_RequestLog : RequestLog :=
  {| Timestamp := 0; Method := ""; URL := ""; ContentLength := 0; Proto := "";
     Host := ""; RemoteAddr := ""; UserAgent := ""; RequestURI := ""; Referer := "" |}.

Record HandlerInfo : Type := mkHandlerInfo {
  FuncName : string;
  File : string;
  Line : Z
}.

(** [ResponseLog]; its field [HandlerInfo] is [Handler] here. *)
Record ResponseLog : Type := mkResponseLog {
  StatusCode : Z;
  ResponseSize : Z;
  Error : option error;
  Handler : HandlerInfo
}.

Definition zero_ResponseLog : ResponseLog :=
  {| StatusCode := 0; ResponseSize := 0; Error := None;
     Handler := {| FuncName := ""; File := ""; Line := 0 |} |}.

(** The variables whose address was taken. A Go pointer always points to a
    live variable, so a read of a cell the heap does not hold does not
    arise; [load_RequestLog] gives the zero value there. *)
Record Heap : Type := mkHeap {
  requestLogs : gmap loc RequestLog;
  responseLogs : gmap loc ResponseLog
}.

Definition empty_heap : Heap := {| requestLogs := ∅; responseLogs := ∅ |}.

Definition load_RequestLog (h : Heap) (p : loc) : RequestLog :=
  default zero_RequestLog (requestLogs h !! p).

(** [*p = v] for a [*RequestLog]. *)
Definition store_RequestLog (h : Heap) (p : loc) (v : RequestLog) : Heap :=
  {| requestLogs := <[p := v]> (requestLogs h); responseLogs := responseLogs h |}.

(** A new variable holding [v], and its address. *)
Definition new_RequestLog (h : Heap) (v : RequestLog) : Heap * loc :=
  let p := fresh (dom (requestLogs h)) in (store_RequestLog h p v, p).

Definition load_ResponseLog (h : Heap) (p : loc) : ResponseLog :=
  default zero_ResponseLog (responseLogs h !! p).

Definition store_ResponseLog (h : Heap) (p : loc) (v : ResponseLog) : Heap :=
  {| requestLogs := requestLogs h; responseLogs := <[p := v]> (responseLogs h) |}.

Definition new_ResponseLog (h : Heap) (v : ResponseLog) : Heap * loc :=
  let p := fresh (dom (responseLogs h)) in (store_ResponseLog h p v, p).

(** [GetRequestLogFromContext]: the type assertion to [*RequestLog] must
    succeed and the pointer must not be nil. *)
Definition GetRequestLogFromContext (h : Heap) (ctx : Context) : RequestLog :=
  match Value ctx (any_contextKey contextKeyRequestLog) with
  | Some (any_RequestLogPtr (Some requestLog)) => load_RequestLog h requestLog
  | _ => zero_RequestLog
  end.

(** [WithRequestLog]: the parameter [requestLog] is a variable of the callee,
    a copy of the argument; the context holds its address. *)
Definition WithRequestLog (h : Heap) (ctx : Context) (requestLog : RequestLog)
  : Heap * Context :=
  let '(h1, p) := new_RequestLog h requestLog in
  (h1, WithValue ctx (any_contextKey contextKeyRequestLog)
                 (Some (any_RequestLogPtr (Some p)))).

(** [GetResponseLogPtrFromContext]. *)
Definition GetResponseLogPtrFromContext (ctx : Context) : option loc :=
  match Value ctx (any_contextKey contextKeyResponseLog) with
  | Some (any_ResponseLogPtr holder) => holder
  | _ => None
  end.

(** [WithResponseLogPtr]. *)
Definition WithResponseLogPtr (ctx : Context) (resPtr : option loc) : Context :=
  WithValue ctx (any_contextKey contextKeyResponseLog) (Some (any_ResponseLogPtr resPtr)).

(** [GetLatencyFromContext]. *)
Definition GetLatencyFromContext (ctx : Context) : Z :=
  match Value ctx (any_contextKey contextKeyLatency) with
  | Some (any_Duration latency) => latency
  | _ => 0
  end.

(** [WithLatency]. *)
Definition WithLatency (ctx : Context) (latency : Z) : Context :=
  WithValue ctx (any_contextKey contextKeyLatency) (Some (any_Duration latency)).

(** *** The request log of a request *)

(** The fields and headers of an [http.Request] that a request log keeps.
    [URL] is what [r.URL.String()] gives, when [r.URL] is not nil. *)
Record RequestHead : Type := mkRequestHead {
  rh_Method : string;
  rh_URL : option string;
  rh_ContentLength : Z;
  rh_Proto : string;
  rh_Host : string;
  rh_RemoteAddr : string;
  rh_Header : gmap string (list string);
  rh_RequestURI : string
}.

(** [header.Get(key)] for a key in canonical form: the first value, or the
    empty string. *)
Definition Header_Get (h : gmap string (list string)) (key : string) : string :=
  match h !! key with
  | Some (v :: _) => v
  | _ => ""
  end.

(** [NewRequestLog(r, timestamp)]. *)
Definition NewRequestLog (r : option RequestHead) (timestamp : Z) : RequestLog :=
  match r with
  | None => zero_RequestLog
  | Some r =>
      let url :=
        match rh_URL r with
        | Some s => s
        | None => ""
        end in
      {| Timestamp := timestamp;
         Method := rh_Method r;
         URL := url;
         ContentLength := rh_ContentLength r;
         Proto := rh_Proto r;
         Host := rh_Host r;
         RemoteAddr := rh_RemoteAddr r;
         UserAgent := Header_Get (rh_Header r) "User-Agent";
         RequestURI := rh_RequestURI r;
         Referer := Header_Get (rh_Header r) "Referer" |}
  end.

(** *** Handler information *)

(** One frame of the call stack, as [runtime.Caller] and
    [runtime.FuncForPC] report it; [fn] is nil for an unknown function. *)
Record StackFrame : Type := mkStackFrame {
  fn : option string;
  file : string;
  line : Z
}.

Definition UnknownHandlerInfo : HandlerInfo :=
  {| FuncName := "unknown"; File := "unknown"; Line := 0 |}.

Definition newHandlerInfoFromPC (fr : StackFrame) : HandlerInfo :=
  match fn fr with
  | None => UnknownHandlerInfo
  | Some name => {| FuncName := name; File := file fr; Line := line fr |}
  end.

(** [NewHandlerInfo(skip)], called with [stack] as the frames of its
    callers, the nearest first: [runtime.Caller(skip + 1)] is the frame
    [skip] of them. *)
Definition NewHandlerInfo (stack : list StackFrame) (skip : nat) : HandlerInfo :=
  match stack !! skip with
  | None => UnknownHandlerInfo
  | Some fr => newHandlerInfoFromPC fr
  end.

(** The frame of a function of the package that is at [line] of
    response.go. *)
Definition frame (name : string) (line : Z) : StackFrame :=
  {| fn := Some ("github.com/Siroshun09/go-httplib." +:+ name);
     file := "response.go"; line := line |}.

(** *** Rendering a response *)

(** [http.Header]. *)
Abbreviation Header := (gmap string (list string)).

(** [header.Set(key, value)] for a key in canonical form. *)
Definition Header_Set (key value : string) (h : Header) : Header :=
  <[key := [value]]> h.

(** An implementation of [http.ResponseWriter] over its state [W].
    [Header()] returns the header map itself, which the caller changes in
    place: [rw_update_Header] is that change. The writer keeps to its state:
    it writes to no variable of its caller (for writers that do, see
    [shared]). *)
Record ResponseWriter (W : Type) : Type := mkResponseWriter {
  rw_Header : W -> Header;
  rw_update_Header : Header -> W -> W;
  rw_WriteHeader : Z -> W -> W;
  rw_Write : list byte -> W -> W * (Z * option error)
}.
Arguments rw_Header {W} _ _.
Arguments rw_update_Header {W} _ _ _.
Arguments rw_WriteHeader {W} _ _ _.
Arguments rw_Write {W} _ _ _.

(** An [io.Writer] over a state [S]. *)
Definition io_Writer (S : Type) : Type := list byte -> S -> S * (Z * option error).

(** An implementation of the interface [ResponseBodyRenderer]. [RenderBody]
    may call the writer it is given as often as it likes and knows nothing
    else about it. The renderer keeps to its arguments: it writes to no
    variable of its caller (for renderers that do, see [shared]). *)
Record ResponseBodyRenderer : Type := mkRenderer {
  RenderHeader : Context -> Header -> Header * option error;
  RenderBody : forall S : Type, Context -> io_Writer S -> S -> S * option error
}.

(** The calls made on the response writer and on the renderer, in order. *)
Inductive Call : Type :=
| CallRenderHeader
| CallWriteHeader (statusCode : Z)
| CallRenderBody
| CallWrite (b : list byte).

(** The response writer [w] of a handler, with the calls seen so far. *)
Record Response (W : Type) : Type := mkResponse {
  writer : W;
  calls : list Call
}.
Arguments mkResponse {W} _ _.
Arguments writer {W} _.
Arguments calls {W} _.

Definition int64 (z : Z) : Z := (z + 2 ^ 63) `mod` 2 ^ 64 - 2 ^ 63.

(** [responseBodyWriter]: the response it writes to and its byte count. *)
Record responseBodyWriter (W : Type) : Type := mkResponseBodyWriter {
  w : Response W;
  responseSize : Z
}.
Arguments mkResponseBodyWriter {W} _ _.
Arguments w {W} _.
Arguments responseSize {W} _.

(** [responseBodyWriter.Write]. *)
Definition responseBodyWriter_Write {W : Type} (rw : ResponseWriter W)
  : io_Writer (responseBodyWriter W) :=
  fun b s =>
    let '(w', (n, err)) := rw_Write rw b (writer (w s)) in
    ({| w := {| writer := w'; calls := calls (w s) ++ [CallWrite b] |};
        responseSize := int64 (responseSize s + n) |},
     (n, err)).

(** What a render function leaves behind. *)
Record Rendered (W : Type) : Type := mkRendered {
  response : Response W;
  heap : Heap;
  result : option error
}.
Arguments mkRendered {W} _ _ _.
Arguments response {W} _.
Arguments heap {W} _.
Arguments result {W} _.

Section render.
Context {W : Type} (rw : ResponseWriter W).

(** [renderResponse]. Like every function of the package here, it takes the
    frames of its callers, the nearest first, and hands them on with its own
    in front: with skip 3 [NewHandlerInfo] finds the caller of the exported
    function. *)
Definition renderResponse (stack : list StackFrame) (h : Heap) (ctx : Context)
    (resp : Response W) (statusCode : Z)
    (bodyRenderer : option ResponseBodyRenderer) (cause : option error)
  : Rendered W :=
  let err : option error := None in
  let '(resp, err) :=
    match bodyRenderer with
    | Some br =>
        let '(hdr, headerErr) := RenderHeader br ctx (rw_Header rw (writer resp)) in
        ({| writer := rw_update_Header rw hdr (writer resp);
            calls := calls resp ++ [CallRenderHeader] |},
         match headerErr with
         | Some _ => headerErr
         | None => err
         end)
    | None => (resp, err)
    end in
  let resp := {| writer := rw_WriteHeader rw statusCode (writer resp);
                 calls := calls resp ++ [CallWriteHeader statusCode] |} in
  let size := 0 in
  let '(resp, err, size) :=
    match bodyRenderer with
    | Some br =>
        let wrapped :=
          {| w := {| writer := writer resp; calls := calls resp ++ [CallRenderBody] |};
             responseSize := 0 |} in
        let '(wrapped, bodyErr) :=
          RenderBody br _ ctx (responseBodyWriter_Write rw) wrapped in
        (w wrapped,
         match bodyErr with
         | Some _ => errors.Join [err; bodyErr]
         | None => err
         end,
         responseSize wrapped)
    | None => (resp, err, size)
    end in
  let resPtr := GetResponseLogPtrFromContext ctx in
  let h :=
    match resPtr with
    | Some p =>
        store_ResponseLog h p
          {| StatusCode := statusCode; ResponseSize := size; Error := cause;
             Handler := NewHandlerInfo (frame "renderResponse" 163 :: stack) 3 |}
    | None => h
    end in
  {| response := resp; heap := h; result := err |}.

(** [renderWithBody] and [renderStatusCode]. *)
Definition renderWithBody (stack : list StackFrame) (h : Heap) (ctx : Context)
    (resp : Response W) (statusCode : Z)
    (bodyRenderer : option ResponseBodyRenderer) (cause : option error)
  : Rendered W :=
  renderResponse (frame "renderWithBody" 132 :: stack)
                 h ctx resp statusCode bodyRenderer cause.

Definition renderStatusCode (stack : list StackFrame) (h : Heap) (ctx : Context)
    (resp : Response W) (statusCode : Z) (cause : option error)
  : Rendered W :=
  let r := renderResponse (frame "renderStatusCode" 128 :: stack)
                          h ctx resp statusCode None cause in
  {| response := response r; heap := heap r; result := None |}.

(** The exported functions. *)
Definition RenderOK (stack : list StackFrame) (h : Heap) (ctx : Context)
    (resp : Response W) : Rendered W :=
  renderStatusCode (frame "RenderOK" 11 :: stack) h ctx resp http.StatusOK None.

Definition RenderOKWithBody (stack : list StackFrame) (h : Heap) (ctx : Context)
    (resp : Response W) (bodyRenderer : option ResponseBodyRenderer) : Rendered W :=
  renderWithBody (frame "RenderOKWithBody" 24 :: stack)
                 h ctx resp http.StatusOK bodyRenderer None.

Definition RenderCreated (stack : list StackFrame) (h : Heap) (ctx : Context)
    (resp : Response W) : Rendered W :=
  renderStatusCode (frame "RenderCreated" 29 :: stack) h ctx resp http.StatusCreated None.

Definition RenderCreatedWithBody (stack : list StackFrame) (h : Heap) (ctx : Context)
    (resp : Response W) (bodyRenderer : option ResponseBodyRenderer) : Rendered W :=
  renderWithBody (frame "RenderCreatedWithBody" 42 :: stack)
                 h ctx resp http.StatusCreated bodyRenderer None.

Definition RenderNoContent (stack : list StackFrame) (h : Heap) (ctx : Context)
    (resp : Response W) : Rendered W :=
  renderStatusCode (frame "RenderNoContent" 47 :: stack)
                   h ctx resp http.StatusNoContent None.

Definition RenderBadRequest (stack : list StackFrame) (h : Heap) (ctx : Context)
    (resp : Response W) (cause : option error) : Rendered W :=
  renderStatusCode (frame "RenderBadRequest" 76 :: stack)
                   h ctx resp http.StatusBadRequest cause.

Definition RenderBadRequestWithBody (stack : list StackFrame) (h : Heap) (ctx : Context)
    (resp : Response W) (bodyRenderer : option ResponseBodyRenderer)
    (cause : option error) : Rendered W :=
  renderWithBody (frame "RenderBadRequestWithBody" 89 :: stack)
                 h ctx resp http.StatusBadRequest bodyRenderer cause.

Definition RenderInternalServerError (stack : list StackFrame) (h : Heap) (ctx : Context)
    (resp : Response W) (cause : option error) : Rendered W :=
  renderStatusCode (frame "RenderInternalServerError" 124 :: stack)
                   h ctx resp http.StatusInternalServerError cause.

Definition RenderNoContentForUnauthorized (stack : list StackFrame) (h : Heap)
    (ctx : Context) (resp : Response W) (cause : option error) : Rendered W :=
  renderStatusCode (frame "RenderNoContentForUnauthorized" 56 :: stack)
                   h ctx resp http.StatusNoContent cause.

Definition RenderUnauthorized (stack : list StackFrame) (h : Heap) (ctx : Context)
    (resp : Response W) (cause : option error) : Rendered W :=
  renderStatusCode (frame "RenderUnauthorized" 96 :: stack)
                   h ctx resp http.StatusUnauthorized cause.

Definition RenderForbidden (stack : list StackFrame) (h : Heap) (ctx : Context)
    (resp : Response W) (cause : option error) : Rendered W :=
  renderStatusCode (frame "RenderForbidden" 103 :: stack)
                   h ctx resp http.StatusForbidden cause.

Definition RenderNotFound (stack : list StackFrame) (h : Heap) (ctx : Context)
    (resp : Response W) (cause : option error) : Rendered W :=
  renderStatusCode (frame "RenderNotFound" 110 :: stack)
                   h ctx resp http.StatusNotFound cause.

Definition RenderConflict (stack : list StackFrame) (h : Heap) (ctx : Context)
    (resp : Response W) (cause : option error) : Rendered W :=
  renderStatusCode (frame "RenderConflict" 117 :: stack)
                   h ctx resp http.StatusConflict cause.

(** [http.Redirect(w, r, url, code)], whose effect on the response writer is
    the standard library's. *)
Variable http_Redirect : option RequestHead -> string -> Z -> Response W -> Response W.

(** [RenderRedirect]. *)
Definition RenderRedirect (stack : list StackFrame) (h : Heap) (ctx : Context)
    (resp : Response W) (r : option RequestHead) (url : string) : Rendered W :=
  let resPtr := GetResponseLogPtrFromContext ctx in
  let h :=
    match resPtr with
    | Some p =>
        store_ResponseLog h p
          {| StatusCode := http.StatusTemporaryRedirect; ResponseSize := 0;
             Error := None;
             Handler := NewHandlerInfo (frame "RenderRedirect" 65 :: stack) 1 |}
    | None => h
    end in
  {| response := http_Redirect r url http.StatusTemporaryRedirect resp;
     heap := h; result := None |}.

End render.

(** The three exported functions that take a body renderer. *)
Inductive WithBody : Type :=
| OKWithBody
| CreatedWithBody
| BadRequestWithBody (cause : option error).

Definition WithBody_status (f : WithBody) : Z :=
  match f with
  | OKWithBody => http.StatusOK
  | CreatedWithBody => http.StatusCreated
  | BadRequestWithBody _ => http.StatusBadRequest
  end.

Definition WithBody_cause (f : WithBody) : option error :=
  match f with
  | BadRequestWithBody cause => cause
  | _ => None
  end.

Definition call_WithBody {W : Type} (rw : ResponseWriter W) (f : WithBody)
    (stack : list StackFrame) (h : Heap) (ctx : Context) (resp : Response W)
    (bodyRenderer : option ResponseBodyRenderer) : Rendered W :=
  match f with
  | OKWithBody => RenderOKWithBody rw stack h ctx resp bodyRenderer
  | CreatedWithBody => RenderCreatedWithBody rw stack h ctx resp bodyRenderer
  | BadRequestWithBody cause => RenderBadRequestWithBody rw stack h ctx resp bodyRenderer cause
  end.

(** The error [renderResponse] returns with a renderer, by the errors of
    the renderer's two methods. *)
Definition rendered_error (headerErr bodyErr : option error) : option error :=
  match bodyErr with
  | Some _ => errors.Join [headerErr; bodyErr]
  | None => headerErr
  end.

(** The ten exported functions that send a status code and no body. *)
Inductive StatusOnly : Type :=
| OnlyOK
| OnlyCreated
| OnlyNoContent
| OnlyNoContentForUnauthorized (cause : option error)
| OnlyBadRequest (cause : option error)
| OnlyUnauthorized (cause : option error)
| OnlyForbidden (cause : option error)
| OnlyNotFound (cause : option error)
| OnlyConflict (cause : option error)
| OnlyInternalServerError (cause : option error).

Definition StatusOnly_status (f : StatusOnly) : Z :=
  match f with
  | OnlyOK => http.StatusOK
  | OnlyCreated => http.StatusCreated
  | OnlyNoContent => http.StatusNoContent
  | OnlyNoContentForUnauthorized _ => http.StatusNoContent
  | OnlyBadRequest _ => http.StatusBadRequest
  | OnlyUnauthorized _ => http.StatusUnauthorized
  | OnlyForbidden _ => http.StatusForbidden
  | OnlyNotFound _ => http.StatusNotFound
  | OnlyConflict _ => http.StatusConflict
  | OnlyInternalServerError _ => http.StatusInternalServerError
  end.

Definition StatusOnly_cause (f : StatusOnly) : option error :=
  match f with
  | OnlyOK | OnlyCreated | OnlyNoContent => None
  | OnlyNoContentForUnauthorized cause
  | OnlyBadRequest cause
  | OnlyUnauthorized cause
  | OnlyForbidden cause
  | OnlyNotFound cause
  | OnlyConflict cause
  | OnlyInternalServerError cause => cause
  end.

Definition call_StatusOnly {W : Type} (rw : ResponseWriter W) (f : StatusOnly)
    (stack : list StackFrame) (h : Heap) (ctx : Context) (resp : Response W)
  : Rendered W :=
  match f with
  | OnlyOK => RenderOK rw stack h ctx resp
  | OnlyCreated => RenderCreated rw stack h ctx resp
  | OnlyNoContent => RenderNoContent rw stack h ctx resp
  | OnlyNoContentForUnauthorized cause =>
      RenderNoContentForUnauthorized rw stack h ctx resp cause
  | OnlyBadRequest cause => RenderBadRequest rw stack h ctx resp cause
  | OnlyUnauthorized cause => RenderUnauthorized rw stack h ctx resp cause
  | OnlyForbidden cause => RenderForbidden rw stack h ctx resp cause
  | OnlyNotFound cause => RenderNotFound rw stack h ctx resp cause
  | OnlyConflict cause => RenderConflict rw stack h ctx resp cause
  | OnlyInternalServerError cause => RenderInternalServerError rw stack h ctx resp cause
  end.

(** A caller of an [io.Writer] that writes one chunk after the other,
    whatever the writes return: the writer afterwards, and what each write
    returned. *)
Fixpoint write_all {S : Type} (write : io_Writer S) (chunks : list (list byte)) (s : S)
  : S * list (Z * option error) :=
  match chunks with
  | [] => (s, [])
  | b :: rest =>
      let '(s1, r) := write b s in
      let '(s2, rs) := write_all write rest s1 in
      (s2, r :: rs)
  end.

(** *** Decoding a request body *)

(** An [io.ReadCloser]: the bytes it delivers, the error it then stops with
    ([None] is [io.EOF]) and the error of [Close]. *)
Record ReadCloser : Type := mkReadCloser {
  content : list byte;
  read_err : option error;
  close_err : option error
}.

(** An [http.Request], of which only the body matters here. *)
Record Request : Type := mkRequest {
  Body : ReadCloser
}.

Definition DefaultMaxRequestBodySize : Z := Z.shiftl 1 20.

(** [http.MaxBytesReader(nil, r, n)], read to its end: up to [n] bytes go
    through with the reader's own end; of a longer body exactly [n] bytes
    go through, followed by [*http.MaxBytesError]. *)
Definition MaxBytesReader (r : ReadCloser) (n : Z) : json.Stream :=
  let n := if n <? 0 then 0 else n in
  if Z.of_nat (length (content r)) <=? n
  then {| json.data := string_of_list_byte (content r); json.end_err := read_err r |}
  else {| json.data := string_of_list_byte (take (Z.to_nat n) (content r));
          json.end_err := Some (MaxBytesError n) |}.

(** [DecodeJSONRequestBody[T]]. The deferred [body.Close()] has no part in
    the result: its error is dropped. [foldName] is the folding of names of
    the decoder that [json.NewDecoder] returns, see [json.find_field]. *)
Definition DecodeJSONRequestBody (foldName : string -> string) (T : json.GoType)
    (r : Request) : json.GoValue * option error :=
  let body := MaxBytesReader (Body r) DefaultMaxRequestBodySize in
  let t := json.zero T in
  match json.Decode foldName true body T t with
  | (_, Some err) => let zero := json.zero T in (zero, Some err)
  | (t, None) => (t, None)
  end.

(** *** Body renderers of the package *)

Definition ContentTypeTextPlain : string := "text/plain".
Definition ContentTypeJSON : string := "application/json".
Definition ContentTypeJSONUTF8 : string := "application/json; charset=utf-8".
Definition ContentTypeOctetStream : string := "application/octet-stream".

(** [rawResponseBodyRenderer] with its two methods. *)
Definition RawResponseWithContentType (b : list byte) (contentType : string)
  : ResponseBodyRenderer :=
  {| RenderHeader := fun _ header =>
       (Header_Set "Content-Length" (pretty (length b))
          (Header_Set "Content-Type" contentType header), None);
     RenderBody := fun S _ write s =>
       let '(s', (_, err)) := write b s in (s', err) |}.

Definition RawResponse (b : list byte) : ResponseBodyRenderer :=
  RawResponseWithContentType b ContentTypeOctetStream.

(** [JSONResponse(v)]; [Marshal] is [json.Marshal] on the values given. *)
Definition JSONResponse {V : Type} (Marshal : V -> list byte * option error) (v : V)
  : option ResponseBodyRenderer * option error :=
  let '(data, err) := Marshal v in
  match err with
  | Some _ => (None, err)
  | None => (Some (RawResponseWithContentType data ContentTypeJSONUTF8), None)
  end.

(** *** Renderers and writers that share the heap *)

(** A Go renderer or response writer can hold pointers to variables of its
    caller, the response log among them, and write through them. The
    renderers and writers above keep to their arguments. Here are the same
    functions for renderers, writers and an [http.Redirect] that are handed
    the heap with every call and leave it as they like. *)
Module shared.

Definition io_Writer (S : Type) : Type :=
  list byte -> S -> Heap -> S * Heap * (Z * option error).

Record ResponseWriter (W : Type) : Type := mkResponseWriter {
  rw_Header : W -> Header;
  rw_update_Header : Header -> W -> W;
  rw_WriteHeader : Z -> W -> Heap -> W * Heap;
  rw_Write : io_Writer W
}.
Arguments rw_Header {W} _ _.
Arguments rw_update_Header {W} _ _ _.
Arguments rw_WriteHeader {W} _ _ _ _.
Arguments rw_Write {W} _ _ _ _.

Record ResponseBodyRenderer : Type := mkRenderer {
  RenderHeader : Context -> Header -> Heap -> Header * Heap * option error;
  RenderBody : forall S : Type,
    Context -> io_Writer S -> S -> Heap -> S * Heap * option error
}.

(** [responseBodyWriter.Write]. *)
Definition responseBodyWriter_Write {W : Type} (rw : ResponseWriter W)
  : io_Writer (responseBodyWriter W) :=
  fun b s h =>
    let '(w', h', (n, err)) := rw_Write rw b (writer (w s)) h in
    ({| w := {| writer := w'; calls := calls (w s) ++ [CallWrite b] |};
        responseSize := int64 (responseSize s + n) |},
     h', (n, err)).

Section render.
Context {W : Type} (rw : ResponseWriter W).

(** [renderResponse]. *)
Definition renderResponse (stack : list StackFrame) (h : Heap) (ctx : Context)
    (resp : Response W) (statusCode : Z)
    (bodyRenderer : option ResponseBodyRenderer) (cause : option error)
  : Rendered W :=
  let err : option error := None in
  let '(resp, h, err) :=
    match bodyRenderer with
    | Some br =>
        let '(hdr, h, headerErr) := RenderHeader br ctx (rw_Header rw (writer resp)) h in
        ({| writer := rw_update_Header rw hdr (writer resp);
            calls := calls resp ++ [CallRenderHeader] |},
         h,
         match headerErr with
         | Some _ => headerErr
         | None => err
         end)
    | None => (resp, h, err)
    end in
  let '(w', h) := rw_WriteHeader rw statusCode (writer resp) h in
  let resp := {| writer := w'; calls := calls resp ++ [CallWriteHeader statusCode] |} in
  let size := 0 in
  let '(resp, h, err, size) :=
    match bodyRenderer with
    | Some br =>
        let wrapped :=
          {| w := {| writer := writer resp; calls := calls resp ++ [CallRenderBody] |};
             responseSize := 0 |} in
        let '(wrapped, h, bodyErr) :=
          RenderBody br _ ctx (responseBodyWriter_Write rw) wrapped h in
        (w wrapped, h,
         match bodyErr with
         | Some _ => errors.Join [err; bodyErr]
         | None => err
         end,
         responseSize wrapped)
    | None => (resp, h, err, size)
    end in
  let resPtr := GetResponseLogPtrFromContext ctx in
  let h :=
    match resPtr with
    | Some p =>
        store_ResponseLog h p
          {| StatusCode := statusCode; ResponseSize := size; Error := cause;
             Handler := NewHandlerInfo (frame "renderResponse" 163 :: stack) 3 |}
    | None => h
    end in
  {| response := resp; heap := h; result := err |}.

(** [renderWithBody] and [renderStatusCode]. *)
Definition renderWithBody (stack : list StackFrame) (h : Heap) (ctx : Context)
    (resp : Response W) (statusCode : Z)
    (bodyRenderer : option ResponseBodyRenderer) (cause : option error)
  : Rendered W :=
  renderResponse (frame "renderWithBody" 132 :: stack)
                 h ctx resp statusCode bodyRenderer cause.

Definition renderStatusCode (stack : list StackFrame) (h : Heap) (ctx : Context)
    (resp : Response W) (statusCode : Z) (cause : option error)
  : Rendered W :=
  let r := renderResponse (frame "renderStatusCode" 128 :: stack)
                          h ctx resp statusCode None cause in
  {| response := response r; heap := heap r; result := None |}.

(** [http.Redirect(w, r, url, code)], which calls the methods of the
    writer. *)
Variable http_Redirect :
  option RequestHead -> string -> Z -> Response W -> Heap -> Response W * Heap.

(** [RenderRedirect]: the response log is written before [http.Redirect] is
    called. *)
Definition RenderRedirect (stack : list StackFrame) (h : Heap) (ctx : Context)
    (resp : Response W) (r : option RequestHead) (url : string) : Rendered W :=
  let resPtr := GetResponseLogPtrFromContext ctx in
  let h :=
    match resPtr with
    | Some p =>
        store_ResponseLog h p
          {| StatusCode := http.StatusTemporaryRedirect; ResponseSize := 0;
             Error := None;
             Handler := NewHandlerInfo (frame "RenderRedirect" 65 :: stack) 1 |}
    | None => h
    end in
  let '(resp, h) := http_Redirect r url http.StatusTemporaryRedirect resp h in
  {| response := resp; heap := h; result := None |}.

End render.

End shared.

(** *** Logs as attributes *)

Section ToAttr.
(** [t.Format(time.RFC3339)]. *)
Variable Format_RFC3339 : Z -> string.

(** [(l *RequestLog).ToAttr]: [l] is nil or points to the given log. *)
Definition RequestLog_ToAttr (l : option RequestLog) : slog.Attr :=
  match l with
  | None => slog.empty_Attr
  | Some l =>
      slog.GroupAttrs "http_request"
        [slog.String "timestamp" (Format_RFC3339 (Timestamp l));
         slog.String "method" (Method l);
         slog.String "url" (URL l);
         slog.String "host" (Host l);
         slog.String "request_uri" (RequestURI l);
         slog.Int64 "content_length" (ContentLength l);
         slog.String "proto" (Proto l);
         slog.String "remote_addr" (RemoteAddr l);
         slog.String "user_agent" (UserAgent l);
         slog.String "referer" (Referer l)]
  end.

(** [(h *HandlerInfo).ToAttr]. *)
Definition HandlerInfo_ToAttr (h : option HandlerInfo) : slog.Attr :=
  match h with
  | None => slog.empty_Attr
  | Some h =>
      slog.GroupAttrs "handler"
        [slog.String "func_name" (FuncName h);
         slog.String "file" (File h);
         slog.Int "line" (Line h)]
  end.

(** [d.Milliseconds()]: integer division, towards zero. *)
Definition Milliseconds (d : Z) : Z := Z.quot d 1000000.

(** [(r *ResponseLog).ToAttr(latency)]. *)
Definition ResponseLog_ToAttr (r : option ResponseLog) (latency : Z) : slog.Attr :=
  match r with
  | None => slog.empty_Attr
  | Some r =>
      let attrs :=
        [slog.Int64 "latency" (Milliseconds latency);
         slog.Int "status_code" (StatusCode r);
         slog.Int64 "response_size" (ResponseSize r)] in
      let attrs :=
        match Error r with
        | Some e => attrs ++ [slog.String "error" (errors.Error e)]
        | None => attrs
        end in
      let attrs :=
        if negb (String.eqb (FuncName (Handler r)) "")
        then attrs ++ [HandlerInfo_ToAttr (Some (Handler r))]
        else attrs in
      slog.GroupAttrs "http_response" attrs
  end.

End ToAttr.

End httplib.

(* ===================================================================== *)
(** ** Package [httplog] *)
(* ===================================================================== *)

Module httplog.
Import httplib.

(** The implementations of [logs.Logger]: the one of this package, which
    has a delegate, and any other, which has a name here. *)
Inductive Logger : Type :=
| otherLogger (name : string)
| logger (delegate : Logger).

(** [NewHTTPAttrLogger(delegate)]. *)
Definition NewHTTPAttrLogger (delegate : option Logger) : Outcome Logger :=
  match delegate with
  | None => Panics (any_string "delegate cannot be nil")
  | Some d => Returns (logger d)
  end.

(** [IsHTTPAttrLogger(h)]. *)
Definition IsHTTPAttrLogger (h : option Logger) : bool :=
  match h with
  | Some (logger _) => true
  | _ => false
  end.

(** The four methods of [logs.Logger]. *)
Inductive Method : Type :=
| Debug
| Info
| Warn
| Error.

(** One call of a method of a logger: [Debug] and [Info] take a message,
    [Warn] and [Error] an error. *)
Record LogCall : Type := mkLogCall {
  lc_method : Method;
  lc_ctx : option Context;
  lc_msg : string + option error;
  lc_attrs : list slog.Attr
}.

Section logger.
Variable Format_RFC3339 : Z -> string.

(** [(l *logger).appendAttrs(ctx, attrs)]; [h] is the heap at the time of
    the call. *)
Definition appendAttrs (h : Heap) (ctx : option Context) (attrs : list slog.Attr)
  : list slog.Attr :=
  match ctx with
  | None => attrs
  | Some ctx =>
      let requestLog := GetRequestLogFromContext h ctx in
      let responseLog := GetResponseLogPtrFromContext ctx in
      let latency := GetLatencyFromContext ctx in
      attrs ++ [RequestLog_ToAttr Format_RFC3339 (Some requestLog);
                ResponseLog_ToAttr (load_ResponseLog h <$> responseLog) latency]
  end.

(** A call of a method of a logger, followed through the delegates of this
    package's loggers: the logger that is not of this package and the call
    it gets. *)
Fixpoint dispatch (l : Logger) (h : Heap) (call : LogCall) : string * LogCall :=
  match l with
  | otherLogger name => (name, call)
  | logger delegate =>
      dispatch delegate h
        {| lc_method := lc_method call; lc_ctx := lc_ctx call; lc_msg := lc_msg call;
           lc_attrs := appendAttrs h (lc_ctx call) (lc_attrs call) |}
  end.

End logger.

End httplog.

(* ===================================================================== *)
(** ** Values used in examples *)
(* ===================================================================== *)

Module fixtures.
Import runner.

(** What the second of two servers on one address gets from the kernel. *)
Definition bind_error : error :=
  OpError "listen tcp 127.0.0.1:8080" "bind: address already in use".

Definition busy_server : http.Server :=
  {| http.Addr := "127.0.0.1:8080";
     http.ListenAndServe := Returns (Some bind_error);
     http.Shutdown := fun _ _ => None |}.

(** A server that is shut down while it serves. *)
Definition closed_server : http.Server :=
  {| http.Addr := "127.0.0.1:8080";
     http.ListenAndServe := Returns (Some http.ErrServerClosed);
     http.Shutdown := fun _ _ => None |}.

(** A server whose connections do not drain in time. *)
Definition slow_server : http.Server :=
  {| http.Addr := "127.0.0.1:8080";
     http.ListenAndServe := Returns (Some http.ErrServerClosed);
     http.Shutdown := fun w ctx =>
       if done w ctx then Some (sentinelError context_DeadlineExceeded)
       else match Deadline ctx with
            | Some _ => Some (sentinelError context_DeadlineExceeded)
            | None => None
            end |}.

(** A server whose [BaseContext] hook makes the accept loop panic. *)
Definition broken_server : http.Server :=
  {| http.Addr := "127.0.0.1:8080";
     http.ListenAndServe := Panics (any_string "BaseContext returned a nil context");
     http.Shutdown := fun _ _ => None |}.

(** [func(ctx context.Context, err error) { panic(err) }], as in the tests. *)
Definition panicking_onError : onErrorFunc :=
  fun _ err => panics (Some (any_error err)).

(** A panic sink that panics itself. *)
Definition panicking_onPanic : onPanicFunc :=
  fun _ _ => panics (Some (any_string "panic sink failed")).

Definition runner_of (srv : http.Server) (onE : option onErrorFunc)
    (onP : option onPanicFunc) : httpServerRunner :=
  match NewHTTPServerRunner (Some srv) onE onP with
  | Returns r => r
  | Panics _ => {| server := None; onError := None; onPanic := None |}
  end.

(** [httptest.ResponseRecorder], as far as the tests look at it. *)
Record ResponseRecorder : Type := mkRecorder {
  Code : Z;
  HeaderMap : gmap string (list string);
  Body : list byte;
  wroteHeader : bool
}.

Definition NewRecorder : ResponseRecorder :=
  {| Code := 200; HeaderMap := ∅; Body := []; wroteHeader := false |}.

Definition recorder_WriteHeader (code : Z) (rec : ResponseRecorder) : ResponseRecorder :=
  if wroteHeader rec then rec
  else {| Code := code; HeaderMap := HeaderMap rec; Body := Body rec; wroteHeader := true |}.

Definition recorder : httplib.ResponseWriter ResponseRecorder :=
  {| httplib.rw_Header := HeaderMap;
     httplib.rw_update_Header := fun hdr rec =>
       {| Code := Code rec; HeaderMap := hdr; Body := Body rec;
          wroteHeader := wroteHeader rec |};
     httplib.rw_WriteHeader := recorder_WriteHeader;
     httplib.rw_Write := fun b rec =>
       let rec := recorder_WriteHeader 200 rec in
       ({| Code := Code rec; HeaderMap := HeaderMap rec; Body := Body rec ++ b;
           wroteHeader := true |},
        (Z.of_nat (length b), None)) |}.

(** The tests' [errorResponseWriter]: a recorder whose [Write] fails. *)
Definition errorResponseWriter (err : error) : httplib.ResponseWriter ResponseRecorder :=
  {| httplib.rw_Header := httplib.rw_Header recorder;
     httplib.rw_update_Header := httplib.rw_update_Header recorder;
     httplib.rw_WriteHeader := httplib.rw_WriteHeader recorder;
     httplib.rw_Write := fun _ rec => (rec, (0, Some err)) |}.

(** A recorder as a writer of [httplib.shared]: it leaves the heap alone. *)
Definition shared_recorder : httplib.shared.ResponseWriter ResponseRecorder :=
  {| httplib.shared.rw_Header := HeaderMap;
     httplib.shared.rw_update_Header := httplib.rw_update_Header recorder;
     httplib.shared.rw_WriteHeader := fun code rec h => (recorder_WriteHeader code rec, h);
     httplib.shared.rw_Write := fun b rec h =>
       let '(rec', res) := httplib.rw_Write recorder b rec in (rec', h, res) |}.

(** A renderer that holds the addresses of a request log and of a response
    log of its caller and writes through both before it writes the body. *)
Definition meddlingRenderer (req rsp : loc) (b : list byte)
  : httplib.shared.ResponseBodyRenderer :=
  {| httplib.shared.RenderHeader := fun _ header h => (header, h, None);
     httplib.shared.RenderBody := fun S _ write s h =>
       let h := httplib.store_RequestLog h req
                  {| httplib.Timestamp := 0; httplib.Method := "changed";
                     httplib.URL := ""; httplib.ContentLength := 0; httplib.Proto := "";
                     httplib.Host := ""; httplib.RemoteAddr := ""; httplib.UserAgent := "";
                     httplib.RequestURI := ""; httplib.Referer := "" |} in
       let h := httplib.store_ResponseLog h rsp
                  {| httplib.StatusCode := 999; httplib.ResponseSize := 999;
                     httplib.Error := Some (errorString "from the renderer");
                     httplib.Handler := httplib.UnknownHandlerInfo |} in
       let '(s', h', (_, err)) := write b s h in (s', h', err) |}.

(** The tests' [errorResponseBodyRenderer]. *)
Definition errorResponseBodyRenderer (headerErr bodyErr : option error)
  : httplib.ResponseBodyRenderer :=
  {| httplib.RenderHeader := fun _ header => (header, headerErr);
     httplib.RenderBody := fun S _ _ s => (s, bodyErr) |}.

Definition new_response : httplib.Response ResponseRecorder :=
  {| httplib.writer := NewRecorder; httplib.calls := [] |}.

(** The handler that calls a render function, as the stack shows it. *)
Definition handler_frame : httplib.StackFrame :=
  {| httplib.fn := Some "main.handler"; httplib.file := "main.go"; httplib.line := 10 |}.

(** JSON texts are written with single quotes here, which [json_text]
    turns into double quotes. *)
Fixpoint json_text (s : string) : string :=
  match s with
  | "" => ""
  | String c rest => String (if Ascii.eqb c "'" then json.quote else c) (json_text rest)
  end.

(** [httptest.NewRequest(http.MethodPost, "/", bytes.NewReader(data))]. *)
Definition NewRequest (data : string) : httplib.Request :=
  {| httplib.Body := {| httplib.content := list_byte_of_string (json_text data);
                        httplib.read_err := None; httplib.close_err := None |} |}.

(** [json.foldName] on names without letters outside ASCII, which is all the
    names of the tests: small letters become capitals. *)
Definition upper (c : ascii) : ascii :=
  let n := nat_of_ascii c in
  if (97 <=? n)%nat && (n <=? 122)%nat then ascii_of_nat (n - 32) else c.

Fixpoint ascii_foldName (s : string) : string :=
  match s with
  | "" => ""
  | String c rest => String (upper c) (ascii_foldName rest)
  end.

(** The struct type of the tests. *)
Definition testObject : json.GoType :=
  json.TStruct [("a", json.TString); ("b", json.TInt); ("c", json.TBool);
                ("list", json.TSlice json.TString); ("map", json.TMap json.TString)].

(** The text of [n] letters [a]. *)
Definition letters (n : nat) : string := string_of_list_byte (replicate n "a"%byte).

(** The body of the tests of the limit: a string literal of [n] letters. *)
Definition letters_request (n : nat) : httplib.Request :=
  {| httplib.Body :=
       {| httplib.content := "034"%byte :: replicate n "a"%byte ++ ["034"%byte];
          httplib.read_err := None; httplib.close_err := None |} |}.

End fixtures.

(* ===================================================================== *)
(** * Properties *)
(* ===================================================================== *)

Import runner.

(** ** The runner: construction *)

Lemma NewHTTPServerRunner_fields srv onE onP r :
  NewHTTPServerRunner (Some srv) onE onP = Returns r ->
  server r = Some srv /\
  onError r = Some (default (fun _ _ => returns) onE) /\
  onPanic r = Some (default (fun _ _ => returns) onP).
Proof.
  unfold NewHTTPServerRunner. intros [= <-]. simpl.
  destruct onE, onP; auto.
Qed.

(** ** Worlds under actions *)

Lemma done_Background w : done w Background = false.
Proof. reflexivity. Qed.

Lemma done_WithoutCancel w parent : done w (WithoutCancel parent) = false.
Proof. reflexivity. Qed.

(** A cancel function nobody calls stays uncalled. *)
Lemma step_cancels_other w a id :
  a <> Invoke (cancelFn id) ->
  cancels (step w a) !! id = cancels w !! id.
Proof.
  intros Ha. destruct a as [s | [j | j] | d]; simpl; try reflexivity.
  rewrite lookup_alter_ne; [reflexivity | congruence].
Qed.

Lemma run_actions_cancels_other acts w id :
  ~ In (Invoke (cancelFn id)) acts ->
  cancels (run_actions w acts) !! id = cancels w !! id.
Proof.
  revert w. induction acts as [| a acts IH]; intros w Hnot; simpl; [reflexivity |].
  rewrite IH.
  - apply step_cancels_other. intros ->. apply Hnot. left. reflexivity.
  - intros Hin. apply Hnot. right. exact Hin.
Qed.

(** The state of the registration of one [Run], as the actions go by. *)
Lemma tracks_step sigs id w b a :
  tracks sigs id w b ->
  tracks sigs id (step w a)
    (b || match a with
          | Deliver s => relays sigs s
          | Invoke (stopFn j) => bool_decide (j = id)
          | _ => false
          end).
Proof.
  intros (st & Hst & Hsigs & Hc & Hn). unfold tracks.
  destruct a as [s | [j | j] | d]; simpl.
  - exists (deliver_to s st). rewrite lookup_fmap, Hst. simpl.
    split; [reflexivity |]. unfold deliver_to. rewrite Hsigs.
    destruct (sig_notifying st) eqn:En, (relays sigs s) eqn:Er; simpl;
      try (destruct Hn as [Hn | Hn]; [discriminate | subst b]);
      rewrite ?Hsigs, ?Hc, ?En, ?orb_true_r, ?orb_false_r;
      repeat split; auto.
  - exists st. rewrite orb_false_r. auto.
  - case_bool_decide as Hj.
    + subst j. exists (stop_sig st). rewrite lookup_alter_eq, Hst. simpl.
      rewrite orb_true_r. auto.
    + exists st. rewrite lookup_alter_ne by congruence.
      rewrite orb_false_r. auto.
  - exists st. rewrite orb_false_r. auto.
Qed.

Lemma tracks_run_actions sigs id acts w b :
  tracks sigs id w b ->
  tracks sigs id (run_actions w acts)
    (b || existsb (fun a => match a with
                            | Deliver s => relays sigs s
                            | Invoke (stopFn j) => bool_decide (j = id)
                            | _ => false
                            end) acts).
Proof.
  revert w b. induction acts as [| a acts IH]; intros w b H; simpl.
  - rewrite orb_false_r. exact H.
  - rewrite orb_assoc. apply IH. apply tracks_step. exact H.
Qed.

(** ** The runner: [Shutdown] *)

Lemma WithTimeout_Background w t :
  WithTimeout w Background t =
    (let id := fresh (dom (cancels w)) in
     ({| now := now w; cancels := <[id := false]> (cancels w); sigctxs := sigctxs w |},
      timerCtx id (now w + t) Background, cancelFn id)).
Proof. reflexivity. Qed.

(** C1. For every timeout [t <= 0], [Shutdown(t)] issues exactly one
    graceful-shutdown call on the underlying server, with the background
    root as its context: that context has no deadline and is never done,
    whatever happens afterwards, so the drain is not cut short; and
    [Shutdown] returns exactly the error of that call. *)
Theorem Shutdown_nonpositive_timeout_waits_indefinitely
    (srv : http.Server) (onE : option onErrorFunc) (onP : option onPanicFunc)
    (r : httpServerRunner) (w : World) (t : Z) :
  NewHTTPServerRunner (Some srv) onE onP = Returns r ->
  t <= 0 ->
  exists ctx : Context,
    sd_events (Shutdown r w t) = [EvServerShutdown ctx] /\
    ctx = Background /\
    Deadline ctx = None /\
    (forall acts, done (run_actions w acts) ctx = false) /\
    sd_result (Shutdown r w t) = Returns (http.Shutdown srv w ctx).
Proof.
  intros Hnew Ht. destruct (NewHTTPServerRunner_fields _ _ _ _ Hnew) as (Hs & _).
  exists Background. unfold Shutdown. rewrite Hs.
  destruct (Z.leb_spec t 0) as [_ | Hgt]; [| lia].
  simpl. repeat split; reflexivity.
Qed.

(** C5. For every timeout [t > 0], [Shutdown(t)] issues the graceful-shutdown
    call with a context whose deadline is [t] from now and whose only
    ancestor is the background root, made by a cancel function that did not
    exist before the call. Hence no cancel function the caller already held
    (that of any context passed into [Run] among them) can end it: it is done
    exactly when its own deadline has passed. [Shutdown] returns the error of
    that call and releases the timer afterwards. *)
Theorem Shutdown_positive_timeout_fresh_deadline
    (srv : http.Server) (onE : option onErrorFunc) (onP : option onPanicFunc)
    (r : httpServerRunner) (w : World) (t : Z) :
  NewHTTPServerRunner (Some srv) onE onP = Returns r ->
  0 < t ->
  exists id : nat,
    let ctx := timerCtx id (now w + t) Background in
    let w1 := {| now := now w; cancels := <[id := false]> (cancels w);
                 sigctxs := sigctxs w |} in
    (id ∉ dom (cancels w)) /\
    sd_events (Shutdown r w t) = [EvServerShutdown ctx; EvCancel (cancelFn id)] /\
    ancestors ctx = [ctx; Background] /\
    Deadline ctx = Some (now w + t) /\
    done w1 ctx = false /\
    (forall acts,
        (forall j, In (Invoke (cancelFn j)) acts -> j ∈ dom (cancels w)) ->
        done (run_actions w1 acts) ctx = (now w + t <=? now (run_actions w1 acts))) /\
    sd_result (Shutdown r w t) = Returns (http.Shutdown srv w1 ctx).
Proof.
  intros Hnew Ht. destruct (NewHTTPServerRunner_fields _ _ _ _ Hnew) as (Hs & _).
  exists (fresh (dom (cancels w))). cbv zeta.
  assert (Hfresh : fresh (dom (cancels w)) ∉ dom (cancels w)) by apply is_fresh.
  unfold Shutdown. rewrite Hs.
  destruct (Z.leb_spec t 0) as [Hle | _]; [lia |].
  rewrite WithTimeout_Background. cbv zeta. simpl.
  repeat split; try reflexivity; try assumption.
  - unfold cancel_called. simpl. rewrite lookup_insert_eq. simpl.
    rewrite orb_false_r. apply Z.leb_gt. lia.
  - intros acts Hacts. unfold cancel_called.
    rewrite run_actions_cancels_other.
    + simpl. rewrite lookup_insert_eq. simpl. rewrite orb_false_r. reflexivity.
    + intros Hin. apply Hfresh. apply Hacts. exact Hin.
Qed.

(** ** The runner: [Run] *)

Lemma Run_unfold r w parent :
  Run r w parent =
    (let id := fresh (dom (sigctxs w)) in
     let ctx := signalCtx id [SIGTERM; os_Interrupt] (WithoutCancel parent) in
     {| run_world := {| now := now w; cancels := cancels w;
                        sigctxs := <[id := mkSigState [SIGTERM; os_Interrupt] true false]>
                                     (sigctxs w) |};
        run_ctx := ctx; run_stop := stopFn id;
        run_goroutine_started := {| g_runner := r; g_ctx := ctx |} |}).
Proof. reflexivity. Qed.

Lemma Run_tracks r w parent :
  tracks [SIGTERM; os_Interrupt] (fresh (dom (sigctxs w))) (run_world (Run r w parent)) false.
Proof.
  rewrite Run_unfold. cbv zeta. simpl.
  exists (mkSigState [SIGTERM; os_Interrupt] true false). simpl.
  rewrite lookup_insert_eq. auto.
Qed.

Lemma tracks_done sigs id w b parent :
  tracks sigs id w b -> done w (signalCtx id sigs (WithoutCancel parent)) = b.
Proof.
  intros (st & Hst & _ & Hc & _). simpl. unfold signal_cancelled.
  rewrite Hst, Hc. apply orb_false_r.
Qed.

(** C7. For every parent context, [Run] first strips cancellation and
    deadline from it and derives the completion context from the result. The
    completion context therefore has no deadline, is not done when [Run]
    returns (even if the parent already is), and after any sequence of
    signals, cancel-function calls and passing time, it is done exactly when
    the sequence holds a call of the returned stop function or a delivery of
    SIGTERM or of the interrupt signal; cancelling the caller's contexts or
    letting their deadlines pass never makes it done. *)
Theorem Run_completion_context_ignores_parent
    (r : httpServerRunner) (w : World) (parent : Context) (acts : list Action) :
  let res := Run r w parent in
  (exists id, run_ctx res = signalCtx id [SIGTERM; os_Interrupt] (WithoutCancel parent)) /\
  Deadline (run_ctx res) = None /\
  done (run_world res) (run_ctx res) = false /\
  (done (run_actions (run_world res) acts) (run_ctx res) = true <->
   In (Invoke (run_stop res)) acts \/
   In (Deliver SIGTERM) acts \/ In (Deliver os_Interrupt) acts).
Proof.
  cbv zeta. pose proof (Run_tracks r w parent) as Htr.
  pose proof (tracks_run_actions _ _ acts _ _ Htr) as Hacts.
  rewrite Run_unfold in *. cbv zeta in *. simpl run_ctx. simpl run_stop. simpl run_world in *.
  set (id := fresh (dom (sigctxs w))) in *.
  split; [eexists; reflexivity |].
  split; [reflexivity |].
  split; [exact (tracks_done _ _ _ _ parent Htr) |].
  rewrite (tracks_done _ _ _ _ parent Hacts). simpl orb.
  rewrite existsb_exists. split.
  - intros (a & Hin & Ha). destruct a as [s | [j | j] | d]; try discriminate.
    + destruct s; try discriminate; auto.
    + apply bool_decide_eq_true in Ha. subst j. auto.
  - intros [H | [H | H]]; eexists; (split; [exact H |]); simpl; try reflexivity.
    apply bool_decide_eq_true. reflexivity.
Qed.

(** Once stopped, a registration stays stopped. *)
Lemma stopped_step id w a : stopped id w -> stopped id (step w a).
Proof.
  intros (st & Hst & Hn & Hc). unfold stopped.
  destruct a as [s | [j | j] | d]; simpl.
  - exists (deliver_to s st). rewrite lookup_fmap, Hst. simpl.
    unfold deliver_to. rewrite Hn. simpl. auto.
  - exists st. auto.
  - destruct (decide (j = id)) as [-> | Hne].
    + exists (stop_sig st). rewrite lookup_alter_eq, Hst. auto.
    + exists st. rewrite lookup_alter_ne by congruence. auto.
  - exists st. auto.
Qed.

Lemma stop_stops id w st :
  sigctxs w !! id = Some st -> stopped id (step w (Invoke (stopFn id))).
Proof.
  intros H. exists (stop_sig st). simpl. rewrite lookup_alter_eq, H. auto.
Qed.

Lemma stopped_intercepts id w s : stopped id w -> intercepts w id s = false.
Proof.
  intros (st & Hst & Hn & _). unfold intercepts. rewrite Hst, Hn. reflexivity.
Qed.

Lemma stopped_done id w sigs parent :
  stopped id w -> done w (signalCtx id sigs parent) = true.
Proof.
  intros (st & Hst & _ & Hc). simpl. unfold signal_cancelled.
  rewrite Hst, Hc. reflexivity.
Qed.

Lemma stopped_run_actions id acts w :
  stopped id w -> stopped id (run_actions w acts).
Proof.
  revert w. induction acts as [| a acts IH]; intros w H; simpl; [exact H |].
  apply IH. apply stopped_step. exact H.
Qed.

(** C2 (as amended). For every context returned by [Run], and whatever
    happened since, invoking the returned stop function ends the interception
    of SIGTERM and of the interrupt signal, which were intercepted until
    then unless it had been invoked before, and it also marks the completion
    context done, whether or not a signal had been received. *)
Theorem Run_stop_releases_signals_and_cancels
    (r : httpServerRunner) (w : World) (parent : Context) (acts : list Action) :
  let res := Run r w parent in
  let before := run_actions (run_world res) acts in
  let after := step before (Invoke (run_stop res)) in
  exists id,
    run_stop res = stopFn id /\
    (forall s, intercepts (run_world res) id s = bool_decide (s ∈ [SIGTERM; os_Interrupt])) /\
    (forall s, intercepts after id s = false) /\
    (forall s more, intercepts (run_actions after more) id s = false) /\
    done after (run_ctx res) = true.
Proof.
  cbv zeta. pose proof (Run_tracks r w parent) as Htr.
  pose proof (tracks_run_actions _ _ acts _ _ Htr) as Hacts.
  rewrite Run_unfold in *. cbv zeta in *. simpl run_ctx. simpl run_stop. simpl run_world in *.
  remember (fresh (dom (sigctxs w))) as id eqn:Hid in *. clear Hid.
  exists id. split; [reflexivity |].
  destruct Hacts as (st & Hst & Hsigs & Hc & Hn).
  pose proof (stop_stops _ _ _ Hst) as Hstop.
  repeat split.
  - intros s. unfold intercepts. simpl. rewrite lookup_insert_eq. reflexivity.
  - intros s. apply stopped_intercepts. exact Hstop.
  - intros s more. apply stopped_intercepts. apply stopped_run_actions. exact Hstop.
  - apply stopped_done. exact Hstop.
Qed.


(** ** The runner: the accept loop and its two sinks *)

Section accept_loop.
Variables (srv : http.Server) (onE : option onErrorFunc) (onP : option onPanicFunc).
Variable r : httpServerRunner.
Hypothesis Hnew : NewHTTPServerRunner (Some srv) onE onP = Returns r.
Variable ctx : Context.

Lemma accept_body_returned e :
  http.ListenAndServe srv = Returns e ->
  accept_body r ctx new_frame =
    match e with
    | Some e' =>
        if Is_sentinel e' http_ErrServerClosed
        then ({| events := [EvListenAndServe]; panicking := None |}, Returns tt)
        else match default (fun _ _ => returns) onE ctx e' with
             | returns =>
                 ({| events := [EvListenAndServe; EvOnError ctx e']; panicking := None |},
                  Returns tt)
             | panics v =>
                 ({| events := [EvListenAndServe; EvOnError ctx e']; panicking := None |},
                  Panics (panic_value v))
             end
    | None => ({| events := [EvListenAndServe]; panicking := None |}, Returns tt)
    end.
Proof.
  intros Hl. destruct (NewHTTPServerRunner_fields _ _ _ _ Hnew) as (Hs & He & _).
  unfold accept_body, call_ListenAndServe, call_onError. rewrite Hs, He.
  unfold mbind, Go_bind, emit, mret, Go_ret, gopanic. simpl. rewrite Hl.
  destruct e as [e' |]; simpl; [| reflexivity].
  destruct (Is_sentinel e' http_ErrServerClosed); simpl; [reflexivity |].
  destruct (default (fun _ _ => returns) onE ctx e'); reflexivity.
Qed.

Lemma accept_body_panicked v :
  http.ListenAndServe srv = Panics v ->
  accept_body r ctx new_frame =
    ({| events := [EvListenAndServe]; panicking := None |}, Panics v).
Proof.
  intros Hl. destruct (NewHTTPServerRunner_fields _ _ _ _ Hnew) as (Hs & _).
  unfold accept_body, call_ListenAndServe. rewrite Hs.
  unfold mbind, Go_bind, emit, mret, Go_ret. simpl. rewrite Hl. reflexivity.
Qed.

(** The guard, entered while a panic with [v] is in flight. *)
Lemma recovery_guard_panicking tr v :
  recovery_guard r ctx {| events := tr; panicking := Some v |} =
    match default (fun _ _ => returns) onP ctx v with
    | returns => ({| events := tr ++ [EvOnPanic ctx v]; panicking := None |}, Returns tt)
    | panics v' =>
        ({| events := tr ++ [EvOnPanic ctx v]; panicking := None |},
         Panics (panic_value v'))
    end.
Proof.
  destruct (NewHTTPServerRunner_fields _ _ _ _ Hnew) as (_ & _ & Hp).
  unfold recovery_guard, recover, call_onPanic. rewrite Hp.
  unfold mbind, Go_bind, emit, mret, Go_ret, gopanic. simpl.
  destruct (default (fun _ _ => returns) onP ctx v); reflexivity.
Qed.

Lemma recovery_guard_idle tr :
  recovery_guard r ctx {| events := tr; panicking := None |} =
    ({| events := tr; panicking := None |}, Returns tt).
Proof. reflexivity. Qed.

End accept_loop.

Lemma accept_loop_error_sink_calls srv onE onP r ctx e :
  NewHTTPServerRunner (Some srv) onE onP = Returns r ->
  http.ListenAndServe srv = Returns e ->
  error_sink_calls (events (run_goroutine {| g_runner := r; g_ctx := ctx |}).1) =
    match e with
    | Some e' => if Is_sentinel e' http_ErrServerClosed then [] else [(ctx, e')]
    | None => []
    end.
Proof.
  intros Hnew Hl. unfold run_goroutine, accept_loop, with_defer. simpl.
  rewrite (accept_body_returned _ _ _ _ Hnew ctx e Hl).
  destruct e as [e' |]; simpl; [| reflexivity].
  destruct (Is_sentinel e' http_ErrServerClosed); simpl; [reflexivity |].
  destruct (default (fun _ _ => returns) onE ctx e'); simpl; [reflexivity |].
  rewrite (recovery_guard_panicking _ _ _ _ Hnew).
  destruct (default (fun _ _ => returns) onP ctx (panic_value v)); reflexivity.
Qed.

Lemma accept_loop_expected_close srv onE onP r ctx e :
  NewHTTPServerRunner (Some srv) onE onP = Returns r ->
  http.ListenAndServe srv = Returns e ->
  errors.Is e http_ErrServerClosed = true ->
  run_goroutine {| g_runner := r; g_ctx := ctx |} =
    ({| events := [EvListenAndServe]; panicking := None |}, Returns tt).
Proof.
  intros Hnew Hl HIs. unfold run_goroutine, accept_loop, with_defer. simpl.
  rewrite (accept_body_returned _ _ _ _ Hnew ctx e Hl).
  destruct e as [e' |]; simpl in *; [| discriminate].
  rewrite HIs. reflexivity.
Qed.

(** C3. For every error [e] with which [ListenAndServe] returns, the error
    sink is called with the completion context and [e], once, exactly when
    [e] is non-nil and [errors.Is(e, http.ErrServerClosed)] is false, and is
    not called otherwise. When the loop ends with the server-closed error the
    goroutine calls neither sink and ends normally. For an error that wraps
    nothing, as [ListenAndServe] returns them, [errors.Is] is identity with
    [http.ErrServerClosed]. *)
Theorem accept_loop_error_sink
    (srv : http.Server) (onE : option onErrorFunc) (onP : option onPanicFunc)
    (r : httpServerRunner) (ctx : Context) (e : option error) :
  NewHTTPServerRunner (Some srv) onE onP = Returns r ->
  http.ListenAndServe srv = Returns e ->
  let res := run_goroutine {| g_runner := r; g_ctx := ctx |} in
  (forall c e', In (c, e') (error_sink_calls (events res.1)) <->
                c = ctx /\ e = Some e' /\ errors.Is e http_ErrServerClosed = false) /\
  (length (error_sink_calls (events res.1)) <= 1)%nat /\
  (errors.Is e http_ErrServerClosed = true ->
     error_sink_calls (events res.1) = [] /\
     panic_sink_calls (events res.1) = [] /\
     res.2 = Returns tt) /\
  (e = Some http.ErrServerClosed -> events res.1 = [EvListenAndServe]) /\
  (forall e', e = Some e' ->
     (forall msg inner, e' <> wrapError msg inner) -> (forall errs, e' <> joinError errs) ->
     (errors.Is e http_ErrServerClosed = true <-> e' = http.ErrServerClosed)).
Proof.
  intros Hnew Hl. cbv zeta.
  rewrite (accept_loop_error_sink_calls _ _ _ _ ctx _ Hnew Hl).
  split; [| split; [| split; [| split]]].
  - intros c e'. destruct e as [e0 |]; simpl.
    + destruct (Is_sentinel e0 http_ErrServerClosed) eqn:HIs; simpl.
      * split; [intros [] | intros (_ & [= ->] & H); congruence].
      * split.
        -- intros [[= <- <-] | []]. auto.
        -- intros (-> & [= ->] & _). left. reflexivity.
    + split; [intros [] | intros (_ & H & _); discriminate].
  - destruct e as [e0 |]; simpl; [destruct (Is_sentinel e0 _) |]; simpl; lia.
  - intros HIs. rewrite (accept_loop_expected_close _ _ _ _ ctx _ Hnew Hl HIs). simpl.
    destruct e as [e0 |]; simpl in *; [rewrite HIs |]; auto.
  - intros ->. rewrite (accept_loop_expected_close _ _ _ _ ctx _ Hnew Hl); reflexivity.
  - intros e' -> Hw Hj. simpl. unfold http.ErrServerClosed.
    destruct e' as [s | | msg inner | errs | | | |]; simpl;
      try (split; [discriminate | intros H; discriminate]).
    + rewrite bool_decide_eq_true. split; [intros -> | intros [= ->]]; reflexivity.
    + exfalso. exact (Hw msg inner eq_refl).
    + exfalso. exact (Hj errs eq_refl).
Qed.

(** C4 (as amended). Every panic raised by the accept loop, or by the error
    sink while it handles a listen failure, is recovered and forwarded to the
    panic sink exactly once, with the completion context. The goroutine then
    ends as the panic sink does: normally when the sink returns, so the panic
    goes no further; a panic the sink raises itself is outside the guard. *)
Theorem accept_loop_panic_sink
    (srv : http.Server) (onE : option onErrorFunc) (onP : option onPanicFunc)
    (r : httpServerRunner) (ctx : Context) (v : any) :
  NewHTTPServerRunner (Some srv) onE onP = Returns r ->
  (http.ListenAndServe srv = Panics v \/
   exists e f v0,
     http.ListenAndServe srv = Returns (Some e) /\
     errors.Is (Some e) http_ErrServerClosed = false /\
     onError r = Some f /\ f ctx e = panics v0 /\ v = panic_value v0) ->
  let res := run_goroutine {| g_runner := r; g_ctx := ctx |} in
  exists sink,
    onPanic r = Some sink /\
    panic_sink_calls (events res.1) = [(ctx, v)] /\
    res.2 = match sink ctx v with
            | returns => Returns tt
            | panics v' => Panics (panic_value v')
            end /\
    (sink ctx v = returns -> res.2 = Returns tt).
Proof.
  intros Hnew Hpanic. cbv zeta.
  destruct (NewHTTPServerRunner_fields _ _ _ _ Hnew) as (_ & He & Hp).
  exists (default (fun _ _ => returns) onP). split; [exact Hp |].
  unfold run_goroutine, accept_loop, with_defer. simpl.
  assert (Hbody : exists tr,
             accept_body r ctx new_frame = ({| events := tr; panicking := None |}, Panics v)
             /\ panic_sink_calls tr = []).
  { destruct Hpanic as [Hl | (e & f & v0 & Hl & HIs & Hf & Hcb & ->)].
    - eexists. split; [exact (accept_body_panicked _ _ _ _ Hnew ctx v Hl) | reflexivity].
    - rewrite (accept_body_returned _ _ _ _ Hnew ctx _ Hl).
      simpl in HIs. rewrite HIs.
      rewrite He in Hf. injection Hf as <-. rewrite Hcb.
      eexists. split; reflexivity. }
  destruct Hbody as (tr & -> & Htr). simpl.
  rewrite (recovery_guard_panicking _ _ _ _ Hnew).
  assert (Hcalls : panic_sink_calls (tr ++ [EvOnPanic ctx v]) = [(ctx, v)]).
  { unfold panic_sink_calls in *. rewrite omap_app, Htr. reflexivity. }
  destruct (default (fun _ _ => returns) onP ctx v); simpl;
    repeat split; auto; discriminate.
Qed.

(** C6. [NewHTTPServerRunner] panics exactly when the server is nil, and
    then with the value "server is nil". With a server it returns a runner
    over that server whose two callbacks are both set: the one given, or a
    function that does nothing when nil was given; so calling either field
    never dereferences nil. *)
Theorem NewHTTPServerRunner_panics_iff_server_nil
    (server : option http.Server) (onE : option onErrorFunc) (onP : option onPanicFunc) :
  ((exists v, NewHTTPServerRunner server onE onP = Panics v) <-> server = None) /\
  NewHTTPServerRunner None onE onP = Panics (any_string "server is nil") /\
  (forall srv, exists r fE fP,
      NewHTTPServerRunner (Some srv) onE onP = Returns r /\
      runner.server r = Some srv /\
      onError r = Some fE /\
      onPanic r = Some fP /\
      (forall f, onE = Some f -> fE = f) /\
      (onE = None -> forall ctx e, fE ctx e = returns) /\
      (forall f, onP = Some f -> fP = f) /\
      (onP = None -> forall ctx v, fP ctx v = returns) /\
      (forall ctx e, events (call_onError r ctx e new_frame).1 = [EvOnError ctx e]) /\
      (forall ctx v, events (call_onPanic r ctx v new_frame).1 = [EvOnPanic ctx v])).
Proof.
  split; [| split].
  - destruct server; simpl; split.
    + intros (v & H). discriminate.
    + discriminate.
    + reflexivity.
    + intros _. eexists. reflexivity.
  - reflexivity.
  - intros srv.
    exists {| runner.server := Some srv;
              onError := Some (default (fun _ _ => returns) onE);
              onPanic := Some (default (fun _ _ => returns) onP) |},
           (default (fun _ _ => returns) onE), (default (fun _ _ => returns) onP).
    split; [destruct onE, onP; reflexivity |].
    simpl. repeat split.
    + intros f ->. reflexivity.
    + intros ->. reflexivity.
    + intros f ->. reflexivity.
    + intros ->. reflexivity.
    + intros c e. unfold call_onError. simpl.
      unfold mbind, Go_bind, emit, mret, Go_ret, gopanic. simpl.
      destruct (default (fun _ _ => returns) onE c e); reflexivity.
    + intros c v. unfold call_onPanic. simpl.
      unfold mbind, Go_bind, emit, mret, Go_ret, gopanic. simpl.
      destruct (default (fun _ _ => returns) onP c v); reflexivity.
Qed.

(** ** The runner on concrete servers *)

Import fixtures.

(** The tests' second server: the bind failure reaches the error sink, and
    with [panic(err)] as error sink it reaches the panic sink. *)
Example busy_server_reports_bind_error :
  let res := run_goroutine {| g_runner := runner_of busy_server None None;
                              g_ctx := Background |} in
  error_sink_calls (events res.1) = [(Background, bind_error)] /\
  panic_sink_calls (events res.1) = [] /\ res.2 = Returns tt.
Proof. vm_compute. auto. Qed.

Example busy_server_panicking_error_sink :
  let res := run_goroutine {| g_runner := runner_of busy_server (Some panicking_onError) None;
                              g_ctx := Background |} in
  panic_sink_calls (events res.1) = [(Background, any_error bind_error)] /\
  res.2 = Returns tt.
Proof. vm_compute. auto. Qed.

Example slow_server_deadline :
  sd_result (Shutdown (runner_of slow_server None None) initial_world 50) =
    Returns (Some (sentinelError context_DeadlineExceeded)) /\
  sd_result (Shutdown (runner_of slow_server None None) initial_world 0) = Returns None.
Proof. vm_compute. auto. Qed.

Lemma Shutdown_nonpositive_timeout_witness :
  (NewHTTPServerRunner (Some slow_server) None None =
     Returns (runner_of slow_server None None) /\ -1 <= 0) /\
  exists ctx : Context,
    sd_events (Shutdown (runner_of slow_server None None) initial_world (-1)) =
      [EvServerShutdown ctx] /\
    ctx = Background /\
    Deadline ctx = None /\
    (forall acts, done (run_actions initial_world acts) ctx = false) /\
    sd_result (Shutdown (runner_of slow_server None None) initial_world (-1)) =
      Returns (http.Shutdown slow_server initial_world ctx).
Proof.
  split; [split; [reflexivity | lia] |].
  apply (Shutdown_nonpositive_timeout_waits_indefinitely slow_server None None);
    [reflexivity | lia].
Defined.

Lemma Shutdown_positive_timeout_witness :
  (NewHTTPServerRunner (Some slow_server) None None =
     Returns (runner_of slow_server None None) /\ 0 < 50) /\
  exists id : nat,
    let ctx := timerCtx id (now initial_world + 50) Background in
    let w1 := {| now := now initial_world;
                 cancels := <[id := false]> (cancels initial_world);
                 sigctxs := sigctxs initial_world |} in
    (id ∉ dom (cancels initial_world)) /\
    sd_events (Shutdown (runner_of slow_server None None) initial_world 50) =
      [EvServerShutdown ctx; EvCancel (cancelFn id)] /\
    ancestors ctx = [ctx; Background] /\
    Deadline ctx = Some (now initial_world + 50) /\
    done w1 ctx = false /\
    (forall acts,
        (forall j, In (Invoke (cancelFn j)) acts -> j ∈ dom (cancels initial_world)) ->
        done (run_actions w1 acts) ctx =
          (now initial_world + 50 <=? now (run_actions w1 acts))) /\
    sd_result (Shutdown (runner_of slow_server None None) initial_world 50) =
      Returns (http.Shutdown slow_server w1 ctx).
Proof.
  split; [split; [reflexivity | lia] |].
  apply (Shutdown_positive_timeout_fresh_deadline slow_server None None);
    [reflexivity | lia].
Defined.

(** C2, the claim as stated fails: no signal is delivered, the completion
    context is not done, and the call of the stop function makes it done. *)
Lemma Run_stop_marks_done_without_signal :
  done (run_world (Run (runner_of closed_server None None) initial_world Background))
       (run_ctx (Run (runner_of closed_server None None) initial_world Background)) = false /\
  done (step (run_world (Run (runner_of closed_server None None) initial_world Background))
             (Invoke (run_stop (Run (runner_of closed_server None None)
                                    initial_world Background))))
       (run_ctx (Run (runner_of closed_server None None) initial_world Background)) = true.
Proof. vm_compute. auto. Qed.

Lemma accept_loop_error_sink_witness :
  (NewHTTPServerRunner (Some busy_server) None None = Returns (runner_of busy_server None None) /\
   http.ListenAndServe busy_server = Returns (Some bind_error)) /\
  let res := run_goroutine {| g_runner := runner_of busy_server None None;
                              g_ctx := Background |} in
  (forall c e', In (c, e') (error_sink_calls (events res.1)) <->
                c = Background /\ Some bind_error = Some e' /\
                errors.Is (Some bind_error) http_ErrServerClosed = false) /\
  (length (error_sink_calls (events res.1)) <= 1)%nat /\
  (errors.Is (Some bind_error) http_ErrServerClosed = true ->
     error_sink_calls (events res.1) = [] /\
     panic_sink_calls (events res.1) = [] /\
     res.2 = Returns tt) /\
  (Some bind_error = Some http.ErrServerClosed -> events res.1 = [EvListenAndServe]) /\
  (forall e', Some bind_error = Some e' ->
     (forall msg inner, e' <> wrapError msg inner) -> (forall errs, e' <> joinError errs) ->
     (errors.Is (Some bind_error) http_ErrServerClosed = true <-> e' = http.ErrServerClosed)).
Proof.
  split; [split; reflexivity |].
  apply (accept_loop_error_sink busy_server None None); reflexivity.
Defined.

Lemma accept_loop_panic_sink_witness :
  (NewHTTPServerRunner (Some busy_server) (Some panicking_onError) None =
     Returns (runner_of busy_server (Some panicking_onError) None) /\
   http.ListenAndServe busy_server = Returns (Some bind_error) /\
   panicking_onError Background bind_error = panics (Some (any_error bind_error))) /\
  let res := run_goroutine {| g_runner := runner_of busy_server (Some panicking_onError) None;
                              g_ctx := Background |} in
  exists sink,
    onPanic (runner_of busy_server (Some panicking_onError) None) = Some sink /\
    panic_sink_calls (events res.1) = [(Background, any_error bind_error)] /\
    res.2 = match sink Background (any_error bind_error) with
            | returns => Returns tt
            | panics v' => Panics (panic_value v')
            end /\
    (sink Background (any_error bind_error) = returns -> res.2 = Returns tt).
Proof.
  split; [repeat split |].
  apply (accept_loop_panic_sink busy_server (Some panicking_onError) None).
  - reflexivity.
  - right. exists bind_error, panicking_onError, (Some (any_error bind_error)).
    repeat split.
Defined.

(** C4, the claim as stated fails: the accept loop panics, the panic is
    recovered and handed to the panic sink, the panic sink panics, and that
    panic leaves the goroutine: the process crashes. *)
Lemma accept_loop_panicking_sink_crashes :
  panic_sink_calls
    (events (run_goroutine
       {| g_runner := runner_of broken_server None (Some panicking_onPanic);
          g_ctx := Background |}).1) =
    [(Background, any_string "BaseContext returned a nil context")] /\
  (run_goroutine
     {| g_runner := runner_of broken_server None (Some panicking_onPanic);
        g_ctx := Background |}).2 = Panics (any_string "panic sink failed").
Proof. vm_compute. auto. Qed.

(* ===================================================================== *)
(** ** [httplib]: the request log in a context *)
(* ===================================================================== *)

Import httplib.

Lemma Value_WithRequestLog h ctx l :
  Value (WithRequestLog h ctx l).2 (any_contextKey contextKeyRequestLog) =
    Some (any_RequestLogPtr (Some (fresh (dom (requestLogs h))))).
Proof. reflexivity. Qed.

Lemma GetRequestLogFromContext_WithRequestLog h ctx l :
  GetRequestLogFromContext (WithRequestLog h ctx l).1 (WithRequestLog h ctx l).2 = l.
Proof.
  unfold GetRequestLogFromContext. rewrite Value_WithRequestLog.
  unfold WithRequestLog, new_RequestLog, load_RequestLog, store_RequestLog. simpl.
  rewrite lookup_insert_eq. reflexivity.
Qed.

(** C10. For every context and every request log [l], reading the request
    log from the context made by [WithRequestLog] gives [l]; a later
    assignment to any variable that existed before the call (the caller's
    own among them) does not change what is read, since the context holds
    the address of a copy. On a context without a stored request log, with a
    value of another type under the key, or with a nil pointer, the zero
    request log is read. *)
Theorem RequestLog_roundtrip_and_zero_default
    (h : Heap) (ctx : Context) (l : RequestLog) :
  GetRequestLogFromContext (WithRequestLog h ctx l).1 (WithRequestLog h ctx l).2 = l /\
  (forall a l', a ∈ dom (requestLogs h) ->
      GetRequestLogFromContext (store_RequestLog (WithRequestLog h ctx l).1 a l')
                               (WithRequestLog h ctx l).2 = l) /\
  (Value ctx (any_contextKey contextKeyRequestLog) = None ->
      GetRequestLogFromContext h ctx = zero_RequestLog) /\
  (forall v, Value ctx (any_contextKey contextKeyRequestLog) = Some v ->
      (forall p, v <> any_RequestLogPtr p) ->
      GetRequestLogFromContext h ctx = zero_RequestLog) /\
  (Value ctx (any_contextKey contextKeyRequestLog) = Some (any_RequestLogPtr None) ->
      GetRequestLogFromContext h ctx = zero_RequestLog).
Proof.
  split; [apply GetRequestLogFromContext_WithRequestLog |].
  split; [| split; [| split]].
  - intros a l' Ha. unfold GetRequestLogFromContext. rewrite Value_WithRequestLog.
    unfold WithRequestLog, new_RequestLog, load_RequestLog, store_RequestLog. simpl.
    assert (Hne : a <> fresh (dom (requestLogs h))).
    { intros ->. exact (is_fresh (dom (requestLogs h)) Ha). }
    rewrite lookup_insert_ne by exact Hne. rewrite lookup_insert_eq. reflexivity.
  - intros Hv. unfold GetRequestLogFromContext. rewrite Hv. reflexivity.
  - intros v Hv Hty. unfold GetRequestLogFromContext. rewrite Hv.
    destruct v as [| | | | | p | | |]; try reflexivity.
    exfalso. exact (Hty p eq_refl).
  - intros Hv. unfold GetRequestLogFromContext. rewrite Hv. reflexivity.
Qed.

(** The cases of the package's own test table. *)
Example TestContext_RequestLog :
  let rl := {| Timestamp := 0; Method := "GET"; URL := ""; ContentLength := 0;
               Proto := ""; Host := "example.com"; RemoteAddr := ""; UserAgent := "";
               RequestURI := ""; Referer := "" |} in
  let caller := new_RequestLog empty_heap rl in
  let stored := WithRequestLog caller.1 Background (load_RequestLog caller.1 caller.2) in
  let mutated := store_RequestLog stored.1 caller.2
                   {| Timestamp := 0; Method := "POST"; URL := ""; ContentLength := 0;
                      Proto := ""; Host := "example.com"; RemoteAddr := "";
                      UserAgent := ""; RequestURI := ""; Referer := "" |} in
  GetRequestLogFromContext empty_heap Background = zero_RequestLog /\
  GetRequestLogFromContext mutated stored.2 = rl /\
  Method (load_RequestLog mutated caller.2) = "POST" /\
  GetRequestLogFromContext empty_heap (WithResponseLogPtr Background (Some 0%nat)) =
    zero_RequestLog /\
  GetRequestLogFromContext empty_heap
    (WithValue Background (any_contextKey contextKeyRequestLog)
               (Some (any_string "wrong value"))) = zero_RequestLog.
Proof. vm_compute. auto. Qed.

(* ===================================================================== *)
(** ** [httplib]: rendering with a body *)
(* ===================================================================== *)

Lemma Join_header_body (headerErr bodyErr : option error) :
  errors.Join [headerErr; bodyErr] =
    match headerErr, bodyErr with
    | Some h, Some b => Some (joinError [h; b])
    | Some h, None => Some (joinError [h])
    | None, Some b => Some (joinError [b])
    | None, None => None
    end.
Proof. destruct headerErr, bodyErr; reflexivity. Qed.

Lemma rendered_error_message headerErr bodyErr :
  errors.message (rendered_error headerErr bodyErr) =
  errors.message (errors.Join [headerErr; bodyErr]).
Proof. destruct headerErr, bodyErr; reflexivity. Qed.

Lemma rendered_error_nil headerErr bodyErr :
  rendered_error headerErr bodyErr = None <-> headerErr = None /\ bodyErr = None.
Proof.
  destruct headerErr, bodyErr; simpl; split; try discriminate; auto;
    intros [H1 H2]; discriminate.
Qed.

Lemma renderResponse_with_body {W : Type} (rw : ResponseWriter W)
    stack h ctx (resp : Response W) statusCode (br : ResponseBodyRenderer) cause :
  let header := RenderHeader br ctx (rw_Header rw (writer resp)) in
  let before_body :=
    {| w := {| writer := rw_WriteHeader rw statusCode
                           (rw_update_Header rw header.1 (writer resp));
               calls := calls resp ++
                        [CallRenderHeader; CallWriteHeader statusCode; CallRenderBody] |};
       responseSize := 0 |} in
  let body := RenderBody br _ ctx (responseBodyWriter_Write rw) before_body in
  response (renderResponse rw stack h ctx resp statusCode (Some br) cause) = w body.1 /\
  result (renderResponse rw stack h ctx resp statusCode (Some br) cause) =
    rendered_error header.2 body.2.
Proof.
  cbv zeta. unfold renderResponse.
  destruct (RenderHeader br ctx (rw_Header rw (writer resp))) as [hdr headerErr].
  cbn [fst snd writer calls].
  rewrite <- !app_assoc. cbn [app].
  destruct (RenderBody br _ ctx (responseBodyWriter_Write rw) _) as [wrapped bodyErr].
  cbn [fst snd response result].
  split; [reflexivity |].
  destruct headerErr, bodyErr; reflexivity.
Qed.

(** C8 (as amended). For each of [RenderOKWithBody],
    [RenderCreatedWithBody] and [RenderBadRequestWithBody], called with a
    non-nil body renderer: [RenderHeader] is called on the writer's header,
    then [WriteHeader] is called with the function's status code, then
    [RenderBody] is called on the writer in that state, whatever
    [RenderHeader] returned; the response is what [RenderBody] leaves. The
    returned error is [errors.Join(headerErr, bodyErr)] when [RenderBody]
    failed and the [RenderHeader] error itself, not joined, when only
    [RenderHeader] failed; in every case it has the message of
    [errors.Join(headerErr, bodyErr)], and it is nil exactly when both
    renderers succeeded. *)
Theorem render_with_body_calls_both_and_joins_errors
    {W : Type} (rw : ResponseWriter W) (f : WithBody)
    (stack : list StackFrame) (h : Heap) (ctx : Context) (resp : Response W)
    (br : ResponseBodyRenderer) :
  let out := call_WithBody rw f stack h ctx resp (Some br) in
  let statusCode := WithBody_status f in
  let header := RenderHeader br ctx (rw_Header rw (writer resp)) in
  let before_body :=
    {| w := {| writer := rw_WriteHeader rw statusCode
                           (rw_update_Header rw header.1 (writer resp));
               calls := calls resp ++
                        [CallRenderHeader; CallWriteHeader statusCode; CallRenderBody] |};
       responseSize := 0 |} in
  let body := RenderBody br _ ctx (responseBodyWriter_Write rw) before_body in
  let headerErr := header.2 in
  let bodyErr := body.2 in
  response out = w body.1 /\
  result out = match bodyErr with
               | Some _ => errors.Join [headerErr; bodyErr]
               | None => headerErr
               end /\
  errors.message (result out) = errors.message (errors.Join [headerErr; bodyErr]) /\
  (result out = None <-> headerErr = None /\ bodyErr = None).
Proof.
  cbv zeta.
  assert (Hcall : call_WithBody rw f stack h ctx resp (Some br) =
    renderResponse rw
      (frame "renderWithBody" 132 ::
       frame match f with
             | OKWithBody => "RenderOKWithBody"
             | CreatedWithBody => "RenderCreatedWithBody"
             | BadRequestWithBody _ => "RenderBadRequestWithBody"
             end
             match f with
             | OKWithBody => 24
             | CreatedWithBody => 42
             | BadRequestWithBody _ => 89
             end :: stack)
      h ctx resp (WithBody_status f) (Some br) (WithBody_cause f)).
  { destruct f; reflexivity. }
  rewrite Hcall. clear Hcall.
  generalize (frame "renderWithBody" 132 ::
              frame match f with
                    | OKWithBody => "RenderOKWithBody"
                    | CreatedWithBody => "RenderCreatedWithBody"
                    | BadRequestWithBody _ => "RenderBadRequestWithBody"
                    end
                    match f with
                    | OKWithBody => 24
                    | CreatedWithBody => 42
                    | BadRequestWithBody _ => 89
                    end :: stack).
  intros stk.
  destruct (renderResponse_with_body rw stk h ctx resp (WithBody_status f) br (WithBody_cause f))
    as [Hresp Hres].
  rewrite Hresp, Hres.
  split; [reflexivity |]. split; [reflexivity |].
  split; [apply rendered_error_message | apply rendered_error_nil].
Qed.

(** The package's tests of rendering with a body. *)
Example Test_RenderSuccessWithBody :
  let test := list_byte_of_string "test" in
  let ctx := WithResponseLogPtr Background (Some 0%nat) in
  let h := (new_ResponseLog empty_heap zero_ResponseLog).1 in
  let out := RenderOKWithBody recorder [handler_frame] h ctx new_response
               (Some (RawResponse test)) in
  result out = None /\
  Code (writer (response out)) = 200 /\
  fixtures.Body (writer (response out)) = test /\
  HeaderMap (writer (response out)) !! "Content-Length" = Some ["4"] /\
  calls (response out) =
    [CallRenderHeader; CallWriteHeader 200; CallRenderBody; CallWrite test] /\
  load_ResponseLog (heap out) 0%nat =
    {| StatusCode := 200; ResponseSize := 4; Error := None;
       Handler := {| FuncName := "main.handler"; File := "main.go"; Line := 10 |} |}.
Proof. vm_compute. repeat split. Qed.

Example Test_RenderSuccessWithBody_Error :
  let headerErr := errorString "header error" in
  let bodyErr := errorString "body error" in
  let run f he be :=
    call_WithBody recorder f [handler_frame] empty_heap Background new_response
                  (Some (errorResponseBodyRenderer he be)) in
  result (run OKWithBody (Some headerErr) None) = Some headerErr /\
  result (run OKWithBody None (Some bodyErr)) = Some (joinError [bodyErr]) /\
  result (run CreatedWithBody (Some headerErr) (Some bodyErr)) =
    Some (joinError [headerErr; bodyErr]) /\
  errors.message (result (run CreatedWithBody None (Some bodyErr))) = Some "body error" /\
  errors.message (result (run (BadRequestWithBody None) (Some headerErr) (Some bodyErr))) =
    Some ("header error" +:+ String "010" "body error") /\
  Code (writer (response (run (BadRequestWithBody None) (Some headerErr) (Some bodyErr)))) = 400 /\
  calls (response (run OKWithBody (Some headerErr) None)) =
    [CallRenderHeader; CallWriteHeader 200; CallRenderBody].
Proof. vm_compute. repeat split. Qed.

Example Test_RenderWithBody_ErrorFromResponseWriter :
  let err := errorString "response writer error" in
  let out := RenderOKWithBody (errorResponseWriter err) [handler_frame]
               (new_ResponseLog empty_heap zero_ResponseLog).1
               (WithResponseLogPtr Background (Some 0%nat)) new_response
               (Some (RawResponse (list_byte_of_string "test"))) in
  errors.message (result out) = Some "response writer error" /\
  StatusCode (load_ResponseLog (heap out) 0%nat) = 200 /\
  ResponseSize (load_ResponseLog (heap out) 0%nat) = 0.
Proof. vm_compute. repeat split. Qed.

(** C8, the claim as stated fails: when [RenderHeader] fails and
    [RenderBody] does not, the error returned is the error of [RenderHeader]
    itself, which is not what [errors.Join] makes of the two: that is a new
    error that wraps it. *)
Lemma render_header_error_alone_is_not_joined :
  let headerErr := errorString "header error" in
  let out := RenderOKWithBody recorder [handler_frame] empty_heap Background new_response
               (Some (errorResponseBodyRenderer (Some headerErr) None)) in
  result out = Some headerErr /\
  errors.Join [Some headerErr; None] = Some (joinError [headerErr]) /\
  result out <> errors.Join [Some headerErr; None] /\
  calls (response out) = [CallRenderHeader; CallWriteHeader 200; CallRenderBody].
Proof. vm_compute. repeat split. discriminate. Qed.

(* ===================================================================== *)
(** ** [httplib]: decoding a request body *)
(* ===================================================================== *)

Import json.

Lemma readValue_null :
  readValue {| data := "null"; end_err := None |} = inl ("null", JNull).
Proof. reflexivity. Qed.

(** The literal [null] leaves the zero value of every type that has no
    [UnmarshalJSON] method of its own as it is. *)
Lemma store_null_zero foldName unknown T st :
  is_Unmarshaler T = false ->
  store foldName unknown JNull "null" T (zero T) st = (zero T, st).
Proof. destruct T; simpl; intros H; try reflexivity; discriminate. Qed.

Lemma MaxBytesReader_within (r : ReadCloser) :
  Z.of_nat (length (content r)) <= DefaultMaxRequestBodySize ->
  MaxBytesReader r DefaultMaxRequestBodySize =
    {| data := string_of_list_byte (content r); end_err := read_err r |}.
Proof.
  intros H. unfold MaxBytesReader. change (DefaultMaxRequestBodySize <? 0) with false.
  cbv iota. destruct (Z.leb_spec (Z.of_nat (length (content r))) DefaultMaxRequestBodySize);
    [reflexivity | lia].
Qed.

Lemma MaxBytesReader_beyond (r : ReadCloser) :
  DefaultMaxRequestBodySize < Z.of_nat (length (content r)) ->
  MaxBytesReader r DefaultMaxRequestBodySize =
    {| data := string_of_list_byte (take (Z.to_nat DefaultMaxRequestBodySize) (content r));
       end_err := Some (MaxBytesError DefaultMaxRequestBodySize) |}.
Proof.
  intros H. unfold MaxBytesReader. change (DefaultMaxRequestBodySize <? 0) with false.
  cbv iota. destruct (Z.leb_spec (Z.of_nat (length (content r))) DefaultMaxRequestBodySize);
    [lia | reflexivity].
Qed.

(** A body beyond the limit whose first [1 << 20] bytes hold no complete
    value fails with [*http.MaxBytesError], and the zero value is returned. *)
Lemma DecodeJSONRequestBody_too_large (foldName : string -> string) (T : GoType)
    (r : Request) :
  DefaultMaxRequestBodySize < Z.of_nat (length (content (Body r))) ->
  (let s := skip_space (string_of_list_byte
                          (take (Z.to_nat DefaultMaxRequestBodySize) (content (Body r)))) in
   parse_value (2 * String.length s + 2) s = PMore) ->
  DecodeJSONRequestBody foldName T r = (zero T, Some (MaxBytesError DefaultMaxRequestBodySize)).
Proof.
  intros Hlen Hmore. unfold DecodeJSONRequestBody.
  rewrite (MaxBytesReader_beyond _ Hlen). unfold Decode, readValue.
  cbv zeta in Hmore. cbn [data end_err]. rewrite Hmore. reflexivity.
Qed.

(** *** Bodies at the size limit *)

Lemma letters_S n : letters (S n) = String "a" (letters n).
Proof. reflexivity. Qed.

Lemma letters_length n : String.length (letters n) = n.
Proof. induction n as [| n IH]; [reflexivity |]. rewrite letters_S. simpl. rewrite IH. reflexivity. Qed.

Lemma string_of_list_byte_app l1 l2 :
  string_of_list_byte (l1 ++ l2) = (string_of_list_byte l1 +:+ string_of_list_byte l2)%string.
Proof.
  unfold string_of_list_byte. induction l1 as [| b l1 IH]; simpl; [reflexivity |].
  rewrite IH. reflexivity.
Qed.

Lemma append_length s1 s2 :
  String.length (s1 +:+ s2) = (String.length s1 + String.length s2)%nat.
Proof. induction s1 as [| c s1 IH]; simpl; [reflexivity |]. rewrite IH. reflexivity. Qed.

(** A string literal of letters is read up to its closing quote. *)
Lemma parse_string_body_letters n fuel tail :
  (n < fuel)%nat ->
  parse_string_body fuel (letters n +:+ String quote tail) = POk (letters n) tail.
Proof.
  revert fuel. induction n as [| n IH]; intros fuel Hlt.
  - destruct fuel as [| fuel]; [lia |]. reflexivity.
  - destruct fuel as [| fuel]; [lia |].
    rewrite letters_S.
    change (String "a" (letters n) +:+ String quote tail)
      with (String "a" (letters n +:+ String quote tail)).
    cbn [parse_string_body].
    change (Ascii.eqb "a" quote) with false. change (Ascii.eqb "a" "\") with false.
    change (nat_of_ascii "a" <? 32)%nat with false. cbv iota.
    rewrite IH by lia. reflexivity.
Qed.

(** A string literal that its text cuts short asks for more. *)
Lemma parse_string_body_cut n fuel : parse_string_body fuel (letters n) = PMore.
Proof.
  revert fuel. induction n as [| n IH]; intros fuel.
  - destruct fuel; reflexivity.
  - destruct fuel as [| fuel]; [reflexivity |].
    rewrite letters_S. cbn [parse_string_body].
    change (Ascii.eqb "a" quote) with false. change (Ascii.eqb "a" "\") with false.
    change (nat_of_ascii "a" <? 32)%nat with false. cbv iota.
    rewrite IH. reflexivity.
Qed.

(** X24. The limit on the body is inclusive, as the package's test of it
    has it: a body that is one string literal is decoded to that string when
    it has up to [1 << 20] bytes, quotes included, and fails with
    [*http.MaxBytesError] and the empty string from the first byte more. *)
Lemma TestDecodeJSONRequestBody_LargeRequest (foldName : string -> string) (n : nat) :
  (Z.of_nat n + 2 <= DefaultMaxRequestBodySize ->
   DecodeJSONRequestBody foldName TString (letters_request n) = (VString (letters n), None)) /\
  (DefaultMaxRequestBodySize < Z.of_nat n + 2 ->
   DecodeJSONRequestBody foldName TString (letters_request n) =
     (VString "", Some (MaxBytesError DefaultMaxRequestBodySize))).
Proof.
  assert (Hlen : length (content (Body (letters_request n))) = S (S n)).
  { simpl. rewrite length_app, length_replicate. simpl. lia. }
  split; intros Hn.
  - unfold DecodeJSONRequestBody.
    rewrite MaxBytesReader_within by (rewrite Hlen; lia).
    assert (Hdata : string_of_list_byte (content (Body (letters_request n))) =
                    String quote (letters n +:+ String quote "")).
    { cbn [letters_request Body content].
      change (string_of_list_byte ("034"%byte :: ?l)) with (String quote (string_of_list_byte l)).
      rewrite string_of_list_byte_app. reflexivity. }
    rewrite Hdata. cbn [read_err Body letters_request].
    unfold Decode, readValue. cbn [data end_err].
    change (skip_space (String quote ?s)) with (String quote s).
    replace (2 * String.length (String quote (letters n +:+ String quote "")) + 2)%nat
      with (S (2 * String.length (String quote (letters n +:+ String quote "")) + 1))%nat by lia.
    cbn [parse_value].
    change (Ascii.eqb quote "{") with false. change (Ascii.eqb quote "[") with false.
    change (Ascii.eqb quote quote) with true. cbv iota.
    rewrite parse_string_body_letters
      by (rewrite append_length, letters_length; simpl; lia).
    reflexivity.
  - apply DecodeJSONRequestBody_too_large; [rewrite Hlen; lia |].
    cbv zeta. cbn [letters_request Body content].
    destruct (Z.to_nat DefaultMaxRequestBodySize) as [| L] eqn:HL.
    { exfalso. apply (f_equal Z.of_nat) in HL. rewrite Z2Nat.id in HL by discriminate.
      discriminate. }
    assert (HLn : (L <= n)%nat).
    { apply (f_equal Z.of_nat) in HL. rewrite Z2Nat.id in HL by discriminate. lia. }
    cbn [take]. rewrite take_app_le by (rewrite length_replicate; exact HLn).
    rewrite take_replicate. rewrite Nat.min_l by exact HLn.
    change (string_of_list_byte ("034"%byte :: ?l)) with (String quote (string_of_list_byte l)).
    fold (letters L).
    change (skip_space (String quote ?s)) with (String quote s).
    replace (2 * String.length (String quote (letters L)) + 2)%nat
      with (S (2 * String.length (String quote (letters L)) + 1))%nat by lia.
    cbn [parse_value].
    change (Ascii.eqb quote "{") with false. change (Ascii.eqb quote "[") with false.
    change (Ascii.eqb quote quote) with true. cbv iota.
    rewrite parse_string_body_cut. reflexivity.
Qed.

(** C9 (as amended). For every type and every request, when
    [DecodeJSONRequestBody] returns an error the value it returns is the zero
    value of the type, whatever the decoder had stored by then. For every
    type without an [UnmarshalJSON] method of its own, decoding the body
    [null] returns the zero value and no error. The limit on the body is
    [1 << 20] bytes. *)
Theorem DecodeJSONRequestBody_zero_on_error_and_null
    (foldName : string -> string) (T : GoType) (r : Request) :
  (forall err, (DecodeJSONRequestBody foldName T r).2 = Some err ->
               (DecodeJSONRequestBody foldName T r).1 = zero T) /\
  (is_Unmarshaler T = false ->
   content (Body r) = list_byte_of_string "null" ->
   read_err (Body r) = None ->
   DecodeJSONRequestBody foldName T r = (zero T, None)) /\
  DefaultMaxRequestBodySize = 1048576.
Proof.
  split; [| split].
  - intros err. unfold DecodeJSONRequestBody.
    destruct (Decode foldName true _ T (zero T)) as [t [e |]]; simpl; [reflexivity | discriminate].
  - intros HT Hc He. unfold DecodeJSONRequestBody.
    rewrite MaxBytesReader_within by (rewrite Hc; vm_compute; discriminate).
    rewrite Hc, He. rewrite string_of_list_byte_of_string.
    unfold Decode. rewrite readValue_null. rewrite (store_null_zero foldName true T Clean HT).
    reflexivity.
  - reflexivity.
Qed.

(** C9, the claim as stated fails: for [json.RawMessage] the body [null]
    decodes without error to the four bytes of [null], and the zero value of
    the type is the nil slice. *)
Lemma DecodeJSONRequestBody_null_RawMessage :
  DecodeJSONRequestBody ascii_foldName RawMessage (NewRequest "null") = (VBytes (Some "null"), None) /\
  zero RawMessage = VBytes None.
Proof. vm_compute. auto. Qed.

(** What the decoder had stored is dropped on an error. *)
Example Decode_leaves_partial_value :
  Decode ascii_foldName true {| data := json_text "[1,'a',3]"; end_err := None |} (TSlice TInt)
         (zero (TSlice TInt)) =
    (VSlice (Some [VInt 1; VInt 0; VInt 3]), Some (UnmarshalTypeError "string" "int")) /\
  DecodeJSONRequestBody ascii_foldName (TSlice TInt) (NewRequest "[1,'a',3]") =
    (VSlice None, Some (UnmarshalTypeError "string" "int")).
Proof. vm_compute. auto. Qed.

(** The package's test tables. *)
Example TestDecodeJSONRequestBody_String :
  let decode data := DecodeJSONRequestBody ascii_foldName TString (NewRequest data) in
  decode "'a'" = (VString "a", None) /\
  (decode "a").1 = VString "" /\ (decode "a").2 <> None /\
  decode "''" = (VString "", None) /\
  decode "" = (VString "", Some (sentinelError io_EOF)) /\
  decode "null" = (VString "", None) /\
  (decode "1").1 = VString "" /\ (decode "1").2 <> None /\
  (decode "true").1 = VString "" /\ (decode "true").2 <> None /\
  (decode "['a','b','c']").1 = VString "" /\ (decode "['a','b','c']").2 <> None /\
  (decode "{'a': 'a'}").1 = VString "" /\ (decode "{'a': 'a'}").2 <> None.
Proof. vm_compute. repeat split; discriminate. Qed.

Example TestDecodeJSONRequestBody_Int :
  let decode data := DecodeJSONRequestBody ascii_foldName TInt (NewRequest data) in
  decode "1" = (VInt 1, None) /\
  (decode "a").1 = VInt 0 /\ (decode "a").2 <> None /\
  (decode "").1 = VInt 0 /\ (decode "").2 <> None /\
  decode "null" = (VInt 0, None) /\
  (decode "'1'").1 = VInt 0 /\ (decode "'1'").2 <> None /\
  (decode "true").1 = VInt 0 /\ (decode "true").2 <> None /\
  (decode "[1,2,3]").1 = VInt 0 /\ (decode "[1,2,3]").2 <> None /\
  (decode "{'a':1}").1 = VInt 0 /\ (decode "{'a':1}").2 <> None.
Proof. vm_compute. repeat split; discriminate. Qed.

Example TestDecodeJSONRequestBody_Float64 :
  let decode data := DecodeJSONRequestBody ascii_foldName TFloat64 (NewRequest data) in
  let zero64 := VFloat64 {| mantissa := 0; exponent := 0 |} in
  decode "1.5" = (VFloat64 {| mantissa := 15; exponent := -1 |}, None) /\
  decode "2" = (VFloat64 {| mantissa := 2; exponent := 0 |}, None) /\
  (decode "a").1 = zero64 /\ (decode "a").2 <> None /\
  (decode "").1 = zero64 /\ (decode "").2 <> None /\
  decode "null" = (zero64, None) /\
  (decode "'1.5'").1 = zero64 /\ (decode "'1.5'").2 <> None /\
  (decode "false").1 = zero64 /\ (decode "false").2 <> None /\
  (decode "[1.1,2.2]").1 = zero64 /\ (decode "[1.1,2.2]").2 <> None /\
  (decode "{'a':1.5}").1 = zero64 /\ (decode "{'a':1.5}").2 <> None.
Proof. vm_compute. repeat split; discriminate. Qed.

Example TestDecodeJSONRequestBody_Bool :
  let decode data := DecodeJSONRequestBody ascii_foldName TBool (NewRequest data) in
  decode "true" = (VBool true, None) /\
  decode "tru" = (VBool false, Some (sentinelError io_ErrUnexpectedEOF)) /\
  (decode "").1 = VBool false /\ (decode "").2 <> None /\
  decode "null" = (VBool false, None) /\
  (decode "'true'").1 = VBool false /\ (decode "'true'").2 <> None /\
  (decode "1").1 = VBool false /\ (decode "1").2 <> None /\
  (decode "[true,false]").1 = VBool false /\ (decode "[true,false]").2 <> None /\
  (decode "{'a':true}").1 = VBool false /\ (decode "{'a':true}").2 <> None.
Proof. vm_compute. repeat split; discriminate. Qed.

Example TestDecodeJSONRequestBody_Array :
  let decode data := DecodeJSONRequestBody ascii_foldName (TSlice TString) (NewRequest data) in
  decode "['a','b','c']" = (VSlice (Some [VString "a"; VString "b"; VString "c"]), None) /\
  (decode "['a','b',]").1 = VSlice None /\ (decode "['a','b',]").2 <> None /\
  decode "[]" = (VSlice (Some []), None) /\
  (decode "").1 = VSlice None /\ (decode "").2 <> None /\
  decode "null" = (VSlice None, None) /\
  (decode "'a'").1 = VSlice None /\ (decode "'a'").2 <> None /\
  (decode "1").1 = VSlice None /\ (decode "1").2 <> None /\
  (decode "true").1 = VSlice None /\ (decode "true").2 <> None /\
  (decode "{}").1 = VSlice None /\ (decode "{}").2 <> None.
Proof. vm_compute. repeat split; discriminate. Qed.

Example TestDecodeJSONRequestBody_Object :
  let decode data := DecodeJSONRequestBody ascii_foldName testObject (NewRequest data) in
  let empty := VStruct [VString ""; VInt 0; VBool false; VSlice None; VMap None] in
  decode "{'a':'a','b':1,'c':true,'list':['a','b','c'],'map':{'a':'b','c':'d'}}" =
    (VStruct [VString "a"; VInt 1; VBool true;
              VSlice (Some [VString "a"; VString "b"; VString "c"]);
              VMap (Some [("a", VString "b"); ("c", VString "d")])], None) /\
  (decode "{'a':'a'").1 = empty /\ (decode "{'a':'a'").2 <> None /\
  decode "{}" = (empty, None) /\
  (decode "").1 = empty /\ (decode "").2 <> None /\
  decode "null" = (empty, None) /\
  (decode "'a'").1 = empty /\ (decode "'a'").2 <> None /\
  (decode "1").1 = empty /\ (decode "1").2 <> None /\
  (decode "true").1 = empty /\ (decode "true").2 <> None /\
  (decode "['a','b','c']").1 = empty /\ (decode "['a','b','c']").2 <> None /\
  decode ("{'a':'a','b':1,'c':true,'list':['a','b','c'],'map':{'a':'b','c':'d'}," +:+
          "'unknown':'unknown'}") =
    (empty, Some (errorString (json_text "json: unknown field 'unknown'"))).
Proof. vm_compute. repeat split; discriminate. Qed.

Example TestDecodeJSONRequestBody_Any :
  let decode data := DecodeJSONRequestBody ascii_foldName TAny (NewRequest data) in
  let num n := VFloat64 {| mantissa := n; exponent := 0 |} in
  decode "'a'" = (VString "a", None) /\
  decode "1" = (num 1, None) /\
  decode "1.5" = (VFloat64 {| mantissa := 15; exponent := -1 |}, None) /\
  decode "true" = (VBool true, None) /\
  decode "[1,2,3]" = (VSlice (Some [num 1; num 2; num 3]), None) /\
  decode "{'a':1, 'b':'c'}" = (VMap (Some [("a", num 1); ("b", VString "c")]), None) /\
  decode "null" = (VNil, None).
Proof. vm_compute. repeat split. Qed.

Example TestDecodeJSONRequestBody_CloseError :
  DecodeJSONRequestBody ascii_foldName TString
    {| Body := {| content := list_byte_of_string (json_text "'test'");
                  read_err := None; close_err := Some (errorString "error") |} |} =
    (VString "test", None) /\
  DecodeJSONRequestBody ascii_foldName TString
    {| Body := {| content := []; read_err := Some (errorString "read error");
                  close_err := Some (errorString "close error") |} |} =
    (VString "", Some (errorString "read error")).
Proof. vm_compute. repeat split. Qed.

(* ===================================================================== *)
(** * Further properties *)
(* ===================================================================== *)

(** ** [httplib]: the three values a context carries *)

Lemma Value_WithValue_other ctx k v k' :
  any_eqb k k' = false -> Value (WithValue ctx k v) k' = Value ctx k'.
Proof. intros H. simpl. rewrite H. reflexivity. Qed.

Lemma foreign_key_differs k n :
  (forall m, k <> any_contextKey m) -> any_eqb k (any_contextKey n) = false.
Proof.
  intros H. destruct k; try reflexivity. exfalso. exact (H k eq_refl).
Qed.

(** X1. The response log pointer and the latency read from a context are
    the ones stored last: a nil pointer stored after a pointer is read as
    nil. On every context that holds nothing under the key, or a value of
    another type, the pointer read is nil and the latency read is zero; the
    background context and the completion context that [Run] makes of it are
    such contexts. *)
Theorem ResponseLogPtr_and_Latency_roundtrip
    (ctx : Context) (p q : option loc) (d d' : Z) :
  GetResponseLogPtrFromContext (WithResponseLogPtr ctx p) = p /\
  GetResponseLogPtrFromContext (WithResponseLogPtr (WithResponseLogPtr ctx q) p) = p /\
  GetResponseLogPtrFromContext (WithResponseLogPtr (WithResponseLogPtr ctx q) None) = None /\
  GetLatencyFromContext (WithLatency ctx d) = d /\
  GetLatencyFromContext (WithLatency (WithLatency ctx d') d) = d /\
  (Value ctx (any_contextKey contextKeyResponseLog) = None ->
     GetResponseLogPtrFromContext ctx = None) /\
  (forall v, Value ctx (any_contextKey contextKeyResponseLog) = Some v ->
     (forall holder, v <> any_ResponseLogPtr holder) ->
     GetResponseLogPtrFromContext ctx = None) /\
  (Value ctx (any_contextKey contextKeyLatency) = None ->
     GetLatencyFromContext ctx = 0) /\
  (forall v, Value ctx (any_contextKey contextKeyLatency) = Some v ->
     (forall latency, v <> any_Duration latency) ->
     GetLatencyFromContext ctx = 0) /\
  GetResponseLogPtrFromContext Background = None /\
  GetLatencyFromContext Background = 0 /\
  (forall r w,
     GetResponseLogPtrFromContext (run_ctx (Run r w Background)) = None /\
     GetLatencyFromContext (run_ctx (Run r w Background)) = 0).
Proof.
  unfold GetResponseLogPtrFromContext, GetLatencyFromContext, WithResponseLogPtr,
    WithLatency.
  split; [simpl; reflexivity |]. split; [simpl; reflexivity |].
  split; [simpl; reflexivity |]. split; [simpl; reflexivity |].
  split; [simpl; reflexivity |].
  split; [intros ->; reflexivity |].
  split.
  { intros v -> Hty. destruct v as [| | | | | | holder | |]; try reflexivity.
    exfalso. exact (Hty holder eq_refl). }
  split; [intros ->; reflexivity |].
  split.
  { intros v -> Hty. destruct v as [| | | latency | | | | |]; try reflexivity.
    exfalso. exact (Hty latency eq_refl). }
  repeat split; reflexivity.
Qed.

(** X2. The request log, the response log pointer and the latency do not
    disturb each other: storing one of them leaves what is read for the other
    two as it was, on every context. Nor does a value stored under a key of
    another type, such as an [int] or a [string] with the content of one of
    the package's keys, change what any of the three reads. *)
Theorem context_values_do_not_collide
    (h : Heap) (ctx : Context) (l : RequestLog) (p : option loc) (d : Z)
    (k : any) (v : option any) :
  let stored := WithRequestLog h ctx l in
  GetResponseLogPtrFromContext stored.2 = GetResponseLogPtrFromContext ctx /\
  GetLatencyFromContext stored.2 = GetLatencyFromContext ctx /\
  GetRequestLogFromContext h (WithResponseLogPtr ctx p) = GetRequestLogFromContext h ctx /\
  GetLatencyFromContext (WithResponseLogPtr ctx p) = GetLatencyFromContext ctx /\
  GetRequestLogFromContext h (WithLatency ctx d) = GetRequestLogFromContext h ctx /\
  GetResponseLogPtrFromContext (WithLatency ctx d) = GetResponseLogPtrFromContext ctx /\
  ((forall n, k <> any_contextKey n) ->
     GetRequestLogFromContext h (WithValue ctx k v) = GetRequestLogFromContext h ctx /\
     GetResponseLogPtrFromContext (WithValue ctx k v) = GetResponseLogPtrFromContext ctx /\
     GetLatencyFromContext (WithValue ctx k v) = GetLatencyFromContext ctx).
Proof.
  cbv zeta.
  unfold GetRequestLogFromContext, GetResponseLogPtrFromContext, GetLatencyFromContext.
  repeat split; try reflexivity;
    rewrite Value_WithValue_other by (apply foreign_key_differs; assumption);
    reflexivity.
Qed.

(** X3. Every call of [WithRequestLog] gives the context a variable of its
    own: after a second call on the context of a first, the new context
    reads the second log and the first context still reads the first, in
    the heap as it is after both calls. *)
Theorem WithRequestLog_newest_wins_and_older_context_keeps_its_log
    (h : Heap) (ctx : Context) (a b : RequestLog) :
  let first := WithRequestLog h ctx a in
  let second := WithRequestLog first.1 first.2 b in
  GetRequestLogFromContext second.1 second.2 = b /\
  GetRequestLogFromContext second.1 first.2 = a.
Proof.
  cbv zeta. split; [apply GetRequestLogFromContext_WithRequestLog |].
  unfold GetRequestLogFromContext. rewrite Value_WithRequestLog.
  unfold WithRequestLog, new_RequestLog, load_RequestLog, store_RequestLog.
  cbn [fst snd requestLogs].
  set (p := fresh (dom (requestLogs h))).
  set (m := <[p := a]> (requestLogs h)).
  assert (Hp : p ∈ dom m) by (unfold m; set_solver).
  assert (Hne : fresh (dom m) <> p).
  { intros Heq. apply (is_fresh (dom m)). rewrite Heq. exact Hp. }
  rewrite lookup_insert_ne by exact Hne.
  unfold m. rewrite lookup_insert_eq. reflexivity.
Qed.

(** X4. The completion context of [Run], which is the context both sinks
    are called with, carries every value of the parent context: the request
    log, the response log pointer and the latency read from it are the
    parent's. *)
Theorem Run_completion_context_keeps_values
    (r : httpServerRunner) (w : World) (parent : Context) (h : Heap) (key : any) :
  let res := Run r w parent in
  g_ctx (run_goroutine_started res) = run_ctx res /\
  Value (run_ctx res) key = Value parent key /\
  GetRequestLogFromContext h (run_ctx res) = GetRequestLogFromContext h parent /\
  GetResponseLogPtrFromContext (run_ctx res) = GetResponseLogPtrFromContext parent /\
  GetLatencyFromContext (run_ctx res) = GetLatencyFromContext parent.
Proof. cbv zeta. rewrite Run_unfold. repeat split; reflexivity. Qed.

(* ===================================================================== *)
(** ** [httplib]: what the render functions write *)
(* ===================================================================== *)

Lemma call_StatusOnly_unfold {W : Type} (rw : ResponseWriter W) (f : StatusOnly)
    stack h ctx (resp : Response W) :
  exists fr,
    call_StatusOnly rw f stack h ctx resp =
      renderStatusCode rw (fr :: stack) h ctx resp (StatusOnly_status f) (StatusOnly_cause f).
Proof.
  destruct f;
    [exists (frame "RenderOK" 11) | exists (frame "RenderCreated" 29)
    | exists (frame "RenderNoContent" 47)
    | exists (frame "RenderNoContentForUnauthorized" 56)
    | exists (frame "RenderBadRequest" 76) | exists (frame "RenderUnauthorized" 96)
    | exists (frame "RenderForbidden" 103) | exists (frame "RenderNotFound" 110)
    | exists (frame "RenderConflict" 117)
    | exists (frame "RenderInternalServerError" 124)];
    reflexivity.
Qed.

Lemma call_WithBody_unfold {W : Type} (rw : ResponseWriter W) (f : WithBody)
    stack h ctx (resp : Response W) br :
  exists fr,
    call_WithBody rw f stack h ctx resp br =
      renderWithBody rw (fr :: stack) h ctx resp (WithBody_status f) br (WithBody_cause f).
Proof.
  destruct f;
    [exists (frame "RenderOKWithBody" 24) | exists (frame "RenderCreatedWithBody" 42)
    | exists (frame "RenderBadRequestWithBody" 89)];
    reflexivity.
Qed.

Lemma renderResponse_no_body {W : Type} (rw : ResponseWriter W)
    stack h ctx (resp : Response W) statusCode cause :
  renderResponse rw stack h ctx resp statusCode None cause =
    {| response := {| writer := rw_WriteHeader rw statusCode (writer resp);
                      calls := calls resp ++ [CallWriteHeader statusCode] |};
       heap := match GetResponseLogPtrFromContext ctx with
               | Some p =>
                   store_ResponseLog h p
                     {| StatusCode := statusCode; ResponseSize := 0; Error := cause;
                        Handler := NewHandlerInfo (frame "renderResponse" 163 :: stack) 3 |}
               | None => h
               end;
       result := None |}.
Proof. reflexivity. Qed.

Lemma renderResponse_heap {W : Type} (rw : ResponseWriter W)
    stack h ctx (resp : Response W) statusCode (br : ResponseBodyRenderer) cause :
  let header := RenderHeader br ctx (rw_Header rw (writer resp)) in
  let before_body :=
    {| w := {| writer := rw_WriteHeader rw statusCode
                           (rw_update_Header rw header.1 (writer resp));
               calls := calls resp ++
                        [CallRenderHeader; CallWriteHeader statusCode; CallRenderBody] |};
       responseSize := 0 |} in
  let body := RenderBody br _ ctx (responseBodyWriter_Write rw) before_body in
  heap (renderResponse rw stack h ctx resp statusCode (Some br) cause) =
    match GetResponseLogPtrFromContext ctx with
    | Some p =>
        store_ResponseLog h p
          {| StatusCode := statusCode; ResponseSize := responseSize body.1; Error := cause;
             Handler := NewHandlerInfo (frame "renderResponse" 163 :: stack) 3 |}
    | None => h
    end.
Proof.
  cbv zeta. unfold renderResponse.
  destruct (RenderHeader br ctx (rw_Header rw (writer resp))) as [hdr headerErr].
  cbn [fst snd writer calls].
  rewrite <- !app_assoc. cbn [app].
  destruct (RenderBody br _ ctx (responseBodyWriter_Write rw) _) as [wrapped bodyErr].
  cbn [fst snd heap]. reflexivity.
Qed.

Lemma load_store_ResponseLog h p v : load_ResponseLog (store_ResponseLog h p v) p = v.
Proof.
  unfold load_ResponseLog, store_ResponseLog. simpl. rewrite lookup_insert_eq. reflexivity.
Qed.

Lemma load_store_ResponseLog_other h p q v :
  q <> p -> load_ResponseLog (store_ResponseLog h p v) q = load_ResponseLog h q.
Proof.
  intros Hne. unfold load_ResponseLog, store_ResponseLog. simpl.
  rewrite lookup_insert_ne by congruence. reflexivity.
Qed.

(** X5. Each of the ten functions that send a status code without a body
    makes exactly one call on the response writer, [WriteHeader] with the
    function's status code, and none of [Write]; the header map is not
    touched. When the context holds a response log pointer, the variable it
    points to afterwards holds the status code, a size of zero, the cause
    given (nil for the functions that take none) and the handler information
    of the function's caller, or the unknown handler when the stack ends
    there. *)
Theorem status_only_render_writes_header_and_log
    {W : Type} (rw : ResponseWriter W) (f : StatusOnly)
    (stack : list StackFrame) (h : Heap) (ctx : Context) (resp : Response W) :
  let out := call_StatusOnly rw f stack h ctx resp in
  response out =
    {| writer := rw_WriteHeader rw (StatusOnly_status f) (writer resp);
       calls := calls resp ++ [CallWriteHeader (StatusOnly_status f)] |} /\
  result out = None /\
  (forall p, GetResponseLogPtrFromContext ctx = Some p ->
     load_ResponseLog (heap out) p =
       {| StatusCode := StatusOnly_status f; ResponseSize := 0;
          Error := StatusOnly_cause f; Handler := NewHandlerInfo stack 0 |} /\
     Handler (load_ResponseLog (heap out) p) =
       match stack with
       | [] => UnknownHandlerInfo
       | caller :: _ => newHandlerInfoFromPC caller
       end).
Proof.
  cbv zeta. destruct (call_StatusOnly_unfold rw f stack h ctx resp) as (fr & ->).
  unfold renderStatusCode. rewrite renderResponse_no_body. cbn [response heap result].
  split; [reflexivity |]. split; [reflexivity |].
  intros p ->. rewrite load_store_ResponseLog. split; [reflexivity |].
  destruct stack; reflexivity.
Qed.

(** X6. Each of the three functions that send a body, called with a nil
    body renderer, does what the function without a body does: one call of
    [WriteHeader], no other call, a nil error, and a response log with a size
    of zero. *)
Theorem render_with_nil_body_renderer
    {W : Type} (rw : ResponseWriter W) (f : WithBody)
    (stack : list StackFrame) (h : Heap) (ctx : Context) (resp : Response W) :
  let out := call_WithBody rw f stack h ctx resp None in
  response out =
    {| writer := rw_WriteHeader rw (WithBody_status f) (writer resp);
       calls := calls resp ++ [CallWriteHeader (WithBody_status f)] |} /\
  result out = None /\
  heap out = heap (call_StatusOnly rw
                     match f with
                     | OKWithBody => OnlyOK
                     | CreatedWithBody => OnlyCreated
                     | BadRequestWithBody cause => OnlyBadRequest cause
                     end stack h ctx resp) /\
  (forall p, GetResponseLogPtrFromContext ctx = Some p ->
     load_ResponseLog (heap out) p =
       {| StatusCode := WithBody_status f; ResponseSize := 0;
          Error := WithBody_cause f; Handler := NewHandlerInfo stack 0 |}).
Proof.
  cbv zeta. destruct f; unfold call_WithBody, call_StatusOnly;
    repeat split; try reflexivity;
    intros p Hp; unfold RenderOKWithBody, RenderCreatedWithBody, RenderBadRequestWithBody,
      renderWithBody; rewrite renderResponse_no_body; cbn [heap]; rewrite Hp;
    rewrite load_store_ResponseLog; reflexivity.
Qed.

(** X7. Each of the three functions that send a body, called with a body
    renderer while the context holds a response log pointer, leaves in the
    variable it points to: the function's status code; as size the count of
    the wrapped writer when [RenderBody] is over, whether or not the renderer
    failed; as error the cause given and never an error of the renderer; and
    the handler information of the function's caller. *)
Theorem render_with_body_writes_log
    {W : Type} (rw : ResponseWriter W) (f : WithBody)
    (stack : list StackFrame) (h : Heap) (ctx : Context) (resp : Response W)
    (br : ResponseBodyRenderer) (p : loc) :
  GetResponseLogPtrFromContext ctx = Some p ->
  let out := call_WithBody rw f stack h ctx resp (Some br) in
  let header := RenderHeader br ctx (rw_Header rw (writer resp)) in
  let before_body :=
    {| w := {| writer := rw_WriteHeader rw (WithBody_status f)
                           (rw_update_Header rw header.1 (writer resp));
               calls := calls resp ++
                        [CallRenderHeader; CallWriteHeader (WithBody_status f);
                         CallRenderBody] |};
       responseSize := 0 |} in
  let body := RenderBody br _ ctx (responseBodyWriter_Write rw) before_body in
  load_ResponseLog (heap out) p =
    {| StatusCode := WithBody_status f; ResponseSize := responseSize body.1;
       Error := WithBody_cause f; Handler := NewHandlerInfo stack 0 |} /\
  Error (load_ResponseLog (heap out) p) = WithBody_cause f /\
  Handler (load_ResponseLog (heap out) p) =
    match stack with
    | [] => UnknownHandlerInfo
    | caller :: _ => newHandlerInfoFromPC caller
    end.
Proof.
  intros Hp. cbv zeta.
  destruct (call_WithBody_unfold rw f stack h ctx resp (Some br)) as (fr & ->).
  unfold renderWithBody. rewrite renderResponse_heap. rewrite Hp.
  rewrite load_store_ResponseLog. cbn [Error Handler].
  split; [reflexivity |]. split; [reflexivity |]. destruct stack; reflexivity.
Qed.

Lemma store_ResponseLog_frame h p v :
  requestLogs (store_ResponseLog h p v) = requestLogs h /\
  forall q, q <> p ->
    responseLogs (store_ResponseLog h p v) !! q = responseLogs h !! q.
Proof.
  split; [reflexivity |]. intros q Hne. simpl.
  rewrite lookup_insert_ne by congruence. reflexivity.
Qed.

(** X8. A render function writes to one variable only, the response log
    the context points to, and does so last: the heap after
    [renderStatusCode] or [renderWithBody], through which the thirteen
    functions other than [RenderRedirect] go, is the heap as the response
    writer and the renderer left it, with that one response log overwritten.
    What a renderer wrote through a pointer of its own to any other variable
    is still there, what it wrote to the response log is not; with a context
    that holds no response log pointer, or a nil one, the heap is exactly as
    they left it. When neither of them writes to the heap, no variable but
    that response log has changed. [RenderRedirect] writes the response log
    first and then calls [http.Redirect], which has the last word. *)
Theorem render_writes_only_the_response_log_of_the_context
    {W : Type} (rw : shared.ResponseWriter W)
    (stack : list StackFrame) (h : Heap) (ctx : Context) (resp : Response W)
    (statusCode : Z) (br : shared.ResponseBodyRenderer) (cause : option error)
    (http_Redirect :
       option RequestHead -> string -> Z -> Response W -> Heap -> Response W * Heap)
    (r : option RequestHead) (url : string) :
  let header := shared.RenderHeader br ctx (shared.rw_Header rw (writer resp)) h in
  let started :=
    shared.rw_WriteHeader rw statusCode
      (shared.rw_update_Header rw header.1.1 (writer resp)) header.1.2 in
  let body :=
    shared.RenderBody br _ ctx (shared.responseBodyWriter_Write rw)
      {| w := {| writer := started.1;
                 calls := calls resp ++
                          [CallRenderHeader; CallWriteHeader statusCode; CallRenderBody] |};
         responseSize := 0 |} started.2 in
  let overwrites (after left : Heap) (size : Z) :=
    (forall p, GetResponseLogPtrFromContext ctx = Some p ->
       after = store_ResponseLog left p
                 {| StatusCode := statusCode; ResponseSize := size; Error := cause;
                    Handler := NewHandlerInfo stack 1 |}) /\
    (GetResponseLogPtrFromContext ctx = None -> after = left) /\
    requestLogs after = requestLogs left /\
    (forall q, GetResponseLogPtrFromContext ctx <> Some q ->
       responseLogs after !! q = responseLogs left !! q) in
  overwrites (heap (shared.renderStatusCode rw stack h ctx resp statusCode cause))
             (shared.rw_WriteHeader rw statusCode (writer resp) h).2 0 /\
  overwrites (heap (shared.renderWithBody rw stack h ctx resp statusCode (Some br) cause))
             body.1.2 (responseSize body.1.1) /\
  ((forall c w0 h0, (shared.rw_WriteHeader rw c w0 h0).2 = h0) ->
   (forall hdr h0, (shared.RenderHeader br ctx hdr h0).1.2 = h0) ->
   (forall s h0,
      (shared.RenderBody br _ ctx (shared.responseBodyWriter_Write rw) s h0).1.2 = h0) ->
   (shared.rw_WriteHeader rw statusCode (writer resp) h).2 = h /\ body.1.2 = h) /\
  heap (shared.RenderRedirect http_Redirect stack h ctx resp r url) =
    (http_Redirect r url 307 resp
       match GetResponseLogPtrFromContext ctx with
       | Some p =>
           store_ResponseLog h p
             {| StatusCode := 307; ResponseSize := 0; Error := None;
                Handler := NewHandlerInfo stack 0 |}
       | None => h
       end).2.
Proof.
  cbv zeta.
  assert (Hstore : forall (left : Heap) size handler,
    let after :=
      match GetResponseLogPtrFromContext ctx with
      | Some p =>
          store_ResponseLog left p
            {| StatusCode := statusCode; ResponseSize := size; Error := cause;
               Handler := handler |}
      | None => left
      end in
    (forall p, GetResponseLogPtrFromContext ctx = Some p ->
       after = store_ResponseLog left p
                 {| StatusCode := statusCode; ResponseSize := size; Error := cause;
                    Handler := handler |}) /\
    (GetResponseLogPtrFromContext ctx = None -> after = left) /\
    requestLogs after = requestLogs left /\
    (forall q, GetResponseLogPtrFromContext ctx <> Some q ->
       responseLogs after !! q = responseLogs left !! q)).
  { intros left size handler. cbv zeta.
    destruct (GetResponseLogPtrFromContext ctx) as [p |].
    - split; [intros q [= <-]; reflexivity |].
      split; [discriminate |].
      match goal with
      | |- context [store_ResponseLog left p ?v] =>
          destruct (store_ResponseLog_frame left p v) as [Hreq Hother]
      end.
      split; [exact Hreq |]. intros q Hq. apply Hother. congruence.
    - split; [discriminate |]. repeat split; reflexivity. }
  split; [| split; [| split]].
  - unfold shared.renderStatusCode, shared.renderResponse. cbn [heap].
    destruct (shared.rw_WriteHeader rw statusCode (writer resp) h) as [w' h1].
    cbn [heap snd].
    exact (Hstore h1 0 (NewHandlerInfo stack 1)).
  - unfold shared.renderWithBody, shared.renderResponse.
    destruct (shared.RenderHeader br ctx (shared.rw_Header rw (writer resp)) h)
      as [[hdr h1] headerErr].
    cbn [fst snd writer calls].
    destruct (shared.rw_WriteHeader rw statusCode
                (shared.rw_update_Header rw hdr (writer resp)) h1) as [w' h2].
    cbn [fst snd writer calls]. rewrite <- !app_assoc. cbn [app].
    destruct (shared.RenderBody br _ ctx (shared.responseBodyWriter_Write rw) _ h2)
      as [[wrapped h3] bodyErr].
    cbn [fst snd heap].
    exact (Hstore h3 (responseSize wrapped) (NewHandlerInfo stack 1)).
  - intros Hw Hh Hb. split; [apply Hw |]. rewrite Hb, Hw, Hh. reflexivity.
  - unfold shared.RenderRedirect.
    match goal with
    | |- heap (let '(_, _) := ?x in _) = _ => destruct x as [resp' h'] eqn:Hx
    end.
    cbn [heap].
    change (NewHandlerInfo (frame "RenderRedirect" 65 :: stack) 1)
      with (NewHandlerInfo stack 0) in Hx.
    change http.StatusTemporaryRedirect with 307 in Hx.
    rewrite Hx. reflexivity.
Qed.

(** A renderer that writes through pointers of its own: what it wrote to a
    request log stays, what it wrote to the response log of the context is
    overwritten by the render function. *)
Example render_after_a_renderer_that_writes :
  let h := (new_ResponseLog (new_RequestLog empty_heap zero_RequestLog).1
              zero_ResponseLog).1 in
  let out := shared.renderWithBody shared_recorder
               [frame "RenderOKWithBody" 24; handler_frame] h
               (WithResponseLogPtr Background (Some 0%nat)) new_response 200
               (Some (meddlingRenderer 0%nat 0%nat (list_byte_of_string "x"))) None in
  Method (load_RequestLog h 0%nat) = "" /\
  Method (load_RequestLog (heap out) 0%nat) = "changed" /\
  load_ResponseLog (heap out) 0%nat =
    {| StatusCode := 200; ResponseSize := 1; httplib.Error := None;
       Handler := {| FuncName := "main.handler"; File := "main.go"; Line := 10 |} |} /\
  fixtures.Body (writer (response out)) = list_byte_of_string "x".
Proof. vm_compute. repeat split. Qed.

(** X9. [RenderRedirect] hands the writer, the request and the URL to
    [http.Redirect] with status 307 and does nothing else to the response.
    When the context holds a response log pointer, the variable it points to
    is overwritten as a whole: status 307, a size of zero, no error (an error
    recorded there before is gone) and the handler information of the caller
    of [RenderRedirect], which is the one a function without a body records
    when called from the same place. *)
Theorem RenderRedirect_writes_log
    {W : Type} (rw : ResponseWriter W)
    (http_Redirect : option RequestHead -> string -> Z -> Response W -> Response W)
    (stack : list StackFrame) (h : Heap) (ctx : Context) (resp : Response W)
    (r : option RequestHead) (url : string) :
  let out := RenderRedirect http_Redirect stack h ctx resp r url in
  response out = http_Redirect r url 307 resp /\
  result out = None /\
  (forall p, GetResponseLogPtrFromContext ctx = Some p ->
     load_ResponseLog (heap out) p =
       {| StatusCode := 307; ResponseSize := 0; Error := None;
          Handler := match stack with
                     | [] => UnknownHandlerInfo
                     | caller :: _ => newHandlerInfoFromPC caller
                     end |} /\
     Handler (load_ResponseLog (heap out) p) =
       Handler (load_ResponseLog (heap (RenderOK rw stack h ctx resp)) p)).
Proof.
  cbv zeta. unfold RenderRedirect. cbn [response result heap].
  split; [reflexivity |]. split; [reflexivity |].
  intros p Hp. rewrite Hp.
  unfold RenderOK, renderStatusCode. rewrite renderResponse_no_body. cbn [heap].
  rewrite Hp, !load_store_ResponseLog. cbn [Handler].
  split; [| reflexivity]. destruct stack; reflexivity.
Qed.

(* ===================================================================== *)
(** ** [httplib]: the counting writer *)
(* ===================================================================== *)

Lemma int64_int64_add a n : int64 (int64 a + n) = int64 (a + n).
Proof.
  unfold int64. f_equal.
  replace (((a + 2 ^ 63) `mod` 2 ^ 64 - 2 ^ 63 + n + 2 ^ 63))
    with ((a + 2 ^ 63) `mod` 2 ^ 64 + n) by lia.
  rewrite Zplus_mod_idemp_l. f_equal. lia.
Qed.

Lemma int64_small z : - 2 ^ 63 <= z < 2 ^ 63 -> int64 z = z.
Proof. intros H. unfold int64. rewrite Z.mod_small; lia. Qed.

Lemma write_all_cons {S : Type} (write : io_Writer S) b rest s :
  write_all write (b :: rest) s =
    ((write_all write rest (write b s).1).1,
     (write b s).2 :: (write_all write rest (write b s).1).2).
Proof.
  simpl. destruct (write b s) as [s1 r]. simpl.
  destruct (write_all write rest s1) as [s2 rs]. reflexivity.
Qed.

Lemma int64_range z : - 2 ^ 63 <= int64 z < 2 ^ 63.
Proof.
  unfold int64. pose proof (Z.mod_pos_bound (z + 2 ^ 63) (2 ^ 64)). lia.
Qed.

(** X10. The counting writer that [RenderBody] is given is transparent:
    whatever sequence of chunks a renderer writes, the response writer
    behind it gets the same [Write] calls with the same chunks in the same
    order and ends in the same state as if it had been written to directly,
    and every write returns to the renderer what the response writer
    returned, errors included. The count afterwards is the count before plus
    the byte counts the response writer reported (not the lengths of the
    chunks), as a 64-bit integer. *)
Theorem responseBodyWriter_is_transparent_and_counts
    {W : Type} (rw : ResponseWriter W) (chunks : list (list byte))
    (s : responseBodyWriter W) :
  - 2 ^ 63 <= responseSize s < 2 ^ 63 ->
  let direct := write_all (rw_Write rw) chunks (writer (w s)) in
  let wrapped := write_all (responseBodyWriter_Write rw) chunks s in
  writer (w wrapped.1) = direct.1 /\
  wrapped.2 = direct.2 /\
  calls (w wrapped.1) = calls (w s) ++ map CallWrite chunks /\
  responseSize wrapped.1 = int64 (responseSize s + foldr Z.add 0 direct.2.*1).
Proof.
  cbv zeta. revert s. induction chunks as [| b rest IH]; intros s Hrange.
  - simpl. rewrite app_nil_r, Z.add_0_r.
    repeat split; try reflexivity. symmetry. apply int64_small. exact Hrange.
  - rewrite !write_all_cons.
    assert (Hstep : responseBodyWriter_Write rw b s =
              ({| w := {| writer := (rw_Write rw b (writer (w s))).1;
                          calls := calls (w s) ++ [CallWrite b] |};
                  responseSize := int64 (responseSize s + (rw_Write rw b (writer (w s))).2.1) |},
               (rw_Write rw b (writer (w s))).2)).
    { unfold responseBodyWriter_Write.
      destruct (rw_Write rw b (writer (w s))) as [w' [n err]]. reflexivity. }
    rewrite Hstep. cbn [fst snd].
    match goal with
    | |- context [write_all (responseBodyWriter_Write rw) rest ?s1] =>
        destruct (IH s1) as (IHw & IHr & IHc & IHs); [apply int64_range |]
    end.
    cbn [w writer calls responseSize] in *.
    rewrite IHw, IHr, IHc, IHs, <- app_assoc.
    repeat split; try reflexivity.
    rewrite int64_int64_add. cbn [fmap list_fmap foldr]. f_equal.
    lia.
Qed.

(* ===================================================================== *)
(** ** [httplib]: rendering with a body, continued *)
(* ===================================================================== *)

(** X11. The error a function with a body returns can be examined with
    [errors.Is]: for every target among the package-level error variables,
    it matches exactly when the error of [RenderHeader] or the error of
    [RenderBody] matches. *)
Theorem render_with_body_error_is
    {W : Type} (rw : ResponseWriter W) (f : WithBody)
    (stack : list StackFrame) (h : Heap) (ctx : Context) (resp : Response W)
    (br : ResponseBodyRenderer) (target : sentinel) :
  let out := call_WithBody rw f stack h ctx resp (Some br) in
  let header := RenderHeader br ctx (rw_Header rw (writer resp)) in
  let before_body :=
    {| w := {| writer := rw_WriteHeader rw (WithBody_status f)
                           (rw_update_Header rw header.1 (writer resp));
               calls := calls resp ++
                        [CallRenderHeader; CallWriteHeader (WithBody_status f);
                         CallRenderBody] |};
       responseSize := 0 |} in
  let body := RenderBody br _ ctx (responseBodyWriter_Write rw) before_body in
  errors.Is (result out) target = errors.Is header.2 target || errors.Is body.2 target.
Proof.
  cbv zeta.
  destruct (call_WithBody_unfold rw f stack h ctx resp (Some br)) as (fr & ->).
  unfold renderWithBody.
  destruct (renderResponse_with_body rw (frame "renderWithBody" 132 :: fr :: stack)
              h ctx resp (WithBody_status f) br (WithBody_cause f)) as [_ ->].
  destruct (RenderHeader br ctx (rw_Header rw (writer resp))).2 as [he |],
    (RenderBody br _ ctx (responseBodyWriter_Write rw) _).2 as [be |]; simpl;
    rewrite ?orb_false_r; reflexivity.
Qed.

(** X12. Rendering the renderer of [RawResponseWithContentType(b, ct)] (and
    so of [RawResponse(b)] and of a successful [JSONResponse]) with one of
    the three functions with a body: the header map gets [Content-Type] and
    [Content-Length], [WriteHeader] is called with the status code, and
    [Write] is called exactly once, with [b], in that order. The function
    returns nil when that [Write] returned nil and otherwise an error with
    the message of the [Write] error. The response log gets as size the byte
    count that [Write] reported. *)
Theorem RawResponse_writes_once
    {W : Type} (rw : ResponseWriter W) (f : WithBody)
    (stack : list StackFrame) (h : Heap) (ctx : Context) (resp : Response W)
    (b : list byte) (contentType : string) :
  let out := call_WithBody rw f stack h ctx resp
               (Some (RawResponseWithContentType b contentType)) in
  let header :=
    Header_Set "Content-Length" (pretty (length b))
      (Header_Set "Content-Type" contentType (rw_Header rw (writer resp))) in
  let written :=
    rw_Write rw b (rw_WriteHeader rw (WithBody_status f)
                     (rw_update_Header rw header (writer resp))) in
  response out =
    {| writer := written.1;
       calls := calls resp ++ [CallRenderHeader; CallWriteHeader (WithBody_status f);
                               CallRenderBody; CallWrite b] |} /\
  result out = errors.Join [written.2.2] /\
  errors.message (result out) = errors.message written.2.2 /\
  (forall p, GetResponseLogPtrFromContext ctx = Some p ->
     load_ResponseLog (heap out) p =
       {| StatusCode := WithBody_status f; ResponseSize := int64 written.2.1;
          Error := WithBody_cause f; Handler := NewHandlerInfo stack 0 |}).
Proof.
  cbv zeta.
  destruct (call_WithBody_unfold rw f stack h ctx resp
              (Some (RawResponseWithContentType b contentType))) as (fr & ->).
  unfold renderWithBody.
  pose proof (renderResponse_with_body rw (frame "renderWithBody" 132 :: fr :: stack)
                h ctx resp (WithBody_status f)
                (RawResponseWithContentType b contentType) (WithBody_cause f)) as Hr.
  pose proof (renderResponse_heap rw (frame "renderWithBody" 132 :: fr :: stack)
                h ctx resp (WithBody_status f)
                (RawResponseWithContentType b contentType) (WithBody_cause f)) as Hh.
  cbv zeta in Hr, Hh. destruct Hr as [Hresp Hres].
  rewrite Hresp, Hres, Hh. clear Hresp Hres Hh.
  cbn [RawResponseWithContentType RenderHeader RenderBody fst snd].
  unfold responseBodyWriter_Write. cbn [w writer calls responseSize].
  destruct (rw_Write rw b _) as [w' [n err]]. cbn [fst snd w responseSize].
  rewrite <- app_assoc. cbn [app].
  split; [reflexivity |].
  split; [destruct err; reflexivity |].
  split; [destruct err; reflexivity |].
  intros p ->. rewrite load_store_ResponseLog. reflexivity.
Qed.

(** X13. [RenderHeader] of the package's renderer never fails; it replaces
    whatever the header map held under [Content-Type] and [Content-Length]
    by the content type of the renderer and the decimal length of its bytes
    and leaves every other key alone. [JSONResponse] returns either a
    renderer or an error, never both and never neither: with the error of
    [json.Marshal] no renderer, and otherwise the renderer of the marshalled
    bytes with the JSON content type and a nil error. *)
Theorem raw_renderer_header_and_JSONResponse
    (b : list byte) (contentType : string) (ctx : Context) (hdr : Header) (key : string)
    (V : Type) (Marshal : V -> list byte * option error) (v : V) :
  let out := RenderHeader (RawResponseWithContentType b contentType) ctx hdr in
  out.2 = None /\
  out.1 !! "Content-Type" = Some [contentType] /\
  out.1 !! "Content-Length" = Some [pretty (length b)] /\
  (key <> "Content-Type" -> key <> "Content-Length" -> out.1 !! key = hdr !! key) /\
  (RenderHeader (RawResponse b) ctx hdr).1 !! "Content-Type" =
    Some ["application/octet-stream"] /\
  JSONResponse Marshal v =
    match (Marshal v).2 with
    | Some err => (None, Some err)
    | None =>
        (Some (RawResponseWithContentType (Marshal v).1 "application/json; charset=utf-8"),
         None)
    end.
Proof.
  cbv zeta. cbn [RawResponse RawResponseWithContentType RenderHeader fst snd].
  unfold Header_Set.
  split; [reflexivity |].
  split; [rewrite lookup_insert_ne by discriminate; apply lookup_insert_eq |].
  split; [apply lookup_insert_eq |].
  split; [intros H1 H2; rewrite !lookup_insert_ne by congruence; reflexivity |].
  split; [rewrite lookup_insert_ne by discriminate; apply lookup_insert_eq |].
  unfold JSONResponse. destruct (Marshal v) as [data [err |]]; reflexivity.
Qed.

(* ===================================================================== *)
(** ** [httplib]: logs as attributes *)
(* ===================================================================== *)

(** X14. The attribute of a response log is the empty attribute for a nil
    pointer and otherwise a group with the key [http_response] that holds, in
    this order: [latency], the latency in whole milliseconds, cut off towards
    zero; [status_code]; [response_size]; [error] with the message of the
    error, exactly when the log has an error; and the group [handler],
    exactly when the function name of the handler information is not
    empty. *)
Theorem ResponseLog_ToAttr_group (r : ResponseLog) (latency : Z) :
  let a := ResponseLog_ToAttr (Some r) latency in
  ResponseLog_ToAttr None latency = slog.empty_Attr /\
  a.1 = "http_response" /\
  slog.group_keys a =
    ["latency"; "status_code"; "response_size"] ++
    match Error r with
    | Some _ => ["error"]
    | None => []
    end ++
    (if String.eqb (FuncName (Handler r)) "" then [] else ["handler"]) /\
  slog.group_lookup a "latency" = Some (slog.Int64Value (Milliseconds latency)) /\
  Z.abs (Milliseconds latency) * 1000000 <= Z.abs latency
    < (Z.abs (Milliseconds latency) + 1) * 1000000 /\
  slog.group_lookup a "status_code" = Some (slog.Int64Value (StatusCode r)) /\
  slog.group_lookup a "response_size" = Some (slog.Int64Value (ResponseSize r)) /\
  slog.group_lookup a "error" = (fun e => slog.StringValue (errors.Error e)) <$> Error r /\
  slog.group_lookup a "handler" =
    if String.eqb (FuncName (Handler r)) "" then None
    else Some (slog.groupValue
                 [("func_name", slog.StringValue (FuncName (Handler r)));
                  ("file", slog.StringValue (File (Handler r)));
                  ("line", slog.Int64Value (Line (Handler r)))]).
Proof.
  cbv zeta. unfold ResponseLog_ToAttr.
  split; [reflexivity |].
  assert (Hms : Z.abs (Milliseconds latency) * 1000000 <= Z.abs latency
                < (Z.abs (Milliseconds latency) + 1) * 1000000).
  { unfold Milliseconds.
    pose proof (Z.quot_rem latency 1000000 ltac:(lia)) as Hqr.
    pose proof (Z.rem_bound_abs latency 1000000 ltac:(lia)) as Hb.
    pose proof (Z.rem_sign_mul latency 1000000 ltac:(lia)) as Hs.
    pose proof (Z.quot_abs latency 1000000 ltac:(lia)) as Hq.
    pose proof (Z.rem_abs latency 1000000 ltac:(lia)) as Hr.
    pose proof (Z.quot_rem (Z.abs latency) 1000000 ltac:(lia)) as Hqr'.
    change (Z.abs 1000000) with 1000000 in *.
    rewrite Hq, Hr in Hqr'.
    pose proof (Z.abs_nonneg (latency `rem` 1000000)). lia. }
  destruct (Error r) as [e |], (String.eqb (FuncName (Handler r)) "") eqn:Hf;
    simpl; repeat split; try reflexivity; try apply Hms.
Qed.

(** X15. The attribute of a request log made by [NewRequestLog] is always
    the group [http_request] with the same ten keys in the same order. With a
    request, the request's method, host, request URI, content length,
    protocol and remote address are in it, the URL is the text of [r.URL]
    or empty for a nil URL, and the user agent and the referer are the first
    values of their headers or empty without one; the timestamp is the one
    given. With a nil request every text is empty, the content length is
    zero and the timestamp is the zero time, not the timestamp given. *)
Theorem NewRequestLog_ToAttr_group
    (Format_RFC3339 : Z -> string) (r : option RequestHead) (timestamp : Z) :
  let a := RequestLog_ToAttr Format_RFC3339 (Some (NewRequestLog r timestamp)) in
  let text (f : RequestHead -> string) :=
    Some (slog.StringValue match r with Some r => f r | None => "" end) in
  a.1 = "http_request" /\
  slog.group_keys a =
    ["timestamp"; "method"; "url"; "host"; "request_uri"; "content_length"; "proto";
     "remote_addr"; "user_agent"; "referer"] /\
  slog.group_lookup a "timestamp" =
    Some (slog.StringValue (Format_RFC3339 (if r is Some _ then timestamp else 0))) /\
  slog.group_lookup a "method" = text rh_Method /\
  slog.group_lookup a "url" = text (fun r => default "" (rh_URL r)) /\
  slog.group_lookup a "host" = text rh_Host /\
  slog.group_lookup a "request_uri" = text rh_RequestURI /\
  slog.group_lookup a "content_length" =
    Some (slog.Int64Value match r with Some r => rh_ContentLength r | None => 0 end) /\
  slog.group_lookup a "proto" = text rh_Proto /\
  slog.group_lookup a "remote_addr" = text rh_RemoteAddr /\
  slog.group_lookup a "user_agent" =
    text (fun r => default "" (rh_Header r !! "User-Agent" ≫= head)) /\
  slog.group_lookup a "referer" =
    text (fun r => default "" (rh_Header r !! "Referer" ≫= head)).
Proof.
  cbv zeta. destruct r as [r |]; cbn [NewRequestLog].
  - unfold RequestLog_ToAttr, Header_Get. simpl.
    destruct (rh_URL r); simpl;
      destruct (rh_Header r !! "User-Agent") as [[| ua ?] |];
      destruct (rh_Header r !! "Referer") as [[| rf ?] |]; simpl;
      repeat split; reflexivity.
  - repeat split; reflexivity.
Qed.

Lemma appendAttrs_Some fmt h ctx attrs :
  httplog.appendAttrs fmt h (Some ctx) attrs =
    attrs ++ [RequestLog_ToAttr fmt (Some (GetRequestLogFromContext h ctx));
              ResponseLog_ToAttr (load_ResponseLog h <$> GetResponseLogPtrFromContext ctx)
                                 (GetLatencyFromContext ctx)].
Proof. reflexivity. Qed.

(** X16. [appendAttrs] returns the attributes it was given when the context
    is nil. With a context it returns them followed by exactly two more: the
    group [http_request], which is there with its ten keys also when the
    context holds no request log, and the attribute of the response log,
    which is the empty attribute exactly when the context holds no response
    log pointer, or a nil one, and the group [http_response] otherwise. *)
Theorem appendAttrs_appends_request_and_response
    (Format_RFC3339 : Z -> string) (h : Heap) (ctx : Context) (attrs : list slog.Attr) :
  httplog.appendAttrs Format_RFC3339 h None attrs = attrs /\
  exists req resp,
    httplog.appendAttrs Format_RFC3339 h (Some ctx) attrs = attrs ++ [req; resp] /\
    req.1 = "http_request" /\
    length (slog.group_keys req) = 10%nat /\
    (resp = slog.empty_Attr <-> GetResponseLogPtrFromContext ctx = None) /\
    (resp.1 = "http_response" <-> GetResponseLogPtrFromContext ctx <> None) /\
    (forall p, GetResponseLogPtrFromContext ctx = Some p ->
       resp = ResponseLog_ToAttr (Some (load_ResponseLog h p)) (GetLatencyFromContext ctx)).
Proof.
  split; [reflexivity |]. rewrite appendAttrs_Some.
  eexists _, _. split; [reflexivity |].
  split; [reflexivity |]. split; [reflexivity |].
  destruct (GetResponseLogPtrFromContext ctx) as [p |]; simpl.
  - repeat split; try discriminate; try congruence.
    intros q [= <-]. reflexivity.
  - repeat split; try discriminate; try congruence.
Qed.

Lemma dispatch_wrapped fmt n name h call :
  httplog.dispatch fmt (Nat.iter n httplog.logger (httplog.otherLogger name)) h call =
    (name,
     {| httplog.lc_method := httplog.lc_method call;
        httplog.lc_ctx := httplog.lc_ctx call;
        httplog.lc_msg := httplog.lc_msg call;
        httplog.lc_attrs :=
          Nat.iter n (httplog.appendAttrs fmt h (httplog.lc_ctx call))
                   (httplog.lc_attrs call) |}).
Proof.
  revert call. induction n as [| n IH]; intros call.
  - destruct call; reflexivity.
  - rewrite !Nat.iter_succ. cbn [httplog.dispatch]. rewrite IH.
    cbn [httplog.lc_method httplog.lc_ctx httplog.lc_msg httplog.lc_attrs].
    rewrite Nat.iter_swap. reflexivity.
Qed.

(** X17. [NewHTTPAttrLogger] panics exactly for a nil delegate, and what it
    returns is recognised by [IsHTTPAttrLogger], which a nil logger and a
    logger of another package are not. A call of any of the four methods of
    the returned logger reaches the delegate as a call of the same method
    with the same context and the same message or error, and with the
    attributes of [appendAttrs]. Wrapping is not idempotent: through [n]
    wrappers around a logger of another package, a call with a context
    arrives with [2 * n] attributes more than it was made with, and a call
    with a nil context arrives unchanged. *)
Theorem NewHTTPAttrLogger_forwards_with_attrs
    (Format_RFC3339 : Z -> string) (delegate : option httplog.Logger) (h : Heap)
    (call : httplog.LogCall) (n : nat) (name : string) :
  ((exists v, httplog.NewHTTPAttrLogger delegate = Panics v) <-> delegate = None) /\
  httplog.NewHTTPAttrLogger None = Panics (any_string "delegate cannot be nil") /\
  httplog.IsHTTPAttrLogger None = false /\
  httplog.IsHTTPAttrLogger (Some (httplog.otherLogger name)) = false /\
  (forall d, delegate = Some d ->
     exists l, httplog.NewHTTPAttrLogger delegate = Returns l /\
       httplog.IsHTTPAttrLogger (Some l) = true /\
       httplog.dispatch Format_RFC3339 l h call =
         httplog.dispatch Format_RFC3339 d h
           {| httplog.lc_method := httplog.lc_method call;
              httplog.lc_ctx := httplog.lc_ctx call;
              httplog.lc_msg := httplog.lc_msg call;
              httplog.lc_attrs :=
                httplog.appendAttrs Format_RFC3339 h (httplog.lc_ctx call)
                                    (httplog.lc_attrs call) |}) /\
  let arrived :=
    httplog.dispatch Format_RFC3339 (Nat.iter n httplog.logger (httplog.otherLogger name))
                     h call in
  arrived.1 = name /\
  httplog.lc_method arrived.2 = httplog.lc_method call /\
  httplog.lc_ctx arrived.2 = httplog.lc_ctx call /\
  httplog.lc_msg arrived.2 = httplog.lc_msg call /\
  take (length (httplog.lc_attrs call)) (httplog.lc_attrs arrived.2) =
    httplog.lc_attrs call /\
  length (httplog.lc_attrs arrived.2) =
    (length (httplog.lc_attrs call) +
     if httplog.lc_ctx call is Some _ then 2 * n else 0)%nat.
Proof.
  split.
  { destruct delegate; simpl; split; try discriminate; eauto.
    intros (v & Hv). discriminate. }
  split; [reflexivity |]. split; [reflexivity |]. split; [reflexivity |].
  split.
  { intros d ->. eexists. repeat split; reflexivity. }
  cbv zeta. rewrite dispatch_wrapped.
  cbn [fst snd httplog.lc_method httplog.lc_ctx httplog.lc_msg httplog.lc_attrs].
  repeat split.
  - induction n as [| n IH]; [apply firstn_all | rewrite Nat.iter_succ].
    destruct (httplog.lc_ctx call) as [ctx |].
    + rewrite appendAttrs_Some. rewrite take_app_le; [exact IH |].
      rewrite <- IH at 1. rewrite length_take. lia.
    + exact IH.
  - induction n as [| n IH];
      [simpl; destruct (httplog.lc_ctx call); lia | rewrite Nat.iter_succ].
    destruct (httplog.lc_ctx call) as [ctx |].
    + rewrite appendAttrs_Some, length_app, IH. simpl. lia.
    + exact IH.
Qed.

Lemma ResponseLog_ToAttr_lookup (r : ResponseLog) (latency : Z) :
  let a := ResponseLog_ToAttr (Some r) latency in
  slog.group_lookup a "latency" = Some (slog.Int64Value (Milliseconds latency)) /\
  slog.group_lookup a "status_code" = Some (slog.Int64Value (StatusCode r)) /\
  slog.group_lookup a "response_size" = Some (slog.Int64Value (ResponseSize r)) /\
  slog.group_lookup a "error" = (fun e => slog.StringValue (errors.Error e)) <$> Error r.
Proof.
  cbv zeta. unfold ResponseLog_ToAttr.
  destruct (Error r) as [e |], (String.eqb (FuncName (Handler r)) "");
    simpl; repeat split; reflexivity.
Qed.

Lemma GetRequestLogFromContext_requestLogs h h' ctx :
  requestLogs h' = requestLogs h ->
  GetRequestLogFromContext h' ctx = GetRequestLogFromContext h ctx.
Proof.
  intros Heq. unfold GetRequestLogFromContext, load_RequestLog. rewrite Heq. reflexivity.
Qed.

(** X18. What is logged after rendering is what was rendered. When a
    handler whose context holds a response log pointer calls one of the
    functions without a body, or one with a body and any renderer, and then
    logs through a logger of [NewHTTPAttrLogger] with that context, the two
    attributes added are the request log as it was before the call and the
    group [http_response] with the status code of the function, the size (zero
    without a body, the count of the counting writer with one), the message of
    the cause given to the function (no [error] when it was nil, whatever the
    renderer returned) and the latency of the context in milliseconds. *)
Theorem logged_response_is_what_was_rendered
    {W : Type} (rw : ResponseWriter W) (Format_RFC3339 : Z -> string)
    (stack : list StackFrame) (h : Heap) (ctx : Context) (resp : Response W)
    (f : StatusOnly) (g : WithBody) (br : ResponseBodyRenderer) (p : loc)
    (attrs : list slog.Attr) :
  GetResponseLogPtrFromContext ctx = Some p ->
  let logged_after (after : Heap) (statusCode size : Z) (cause : option error) :=
    exists resp',
      httplog.appendAttrs Format_RFC3339 after (Some ctx) attrs =
        attrs ++ [RequestLog_ToAttr Format_RFC3339 (Some (GetRequestLogFromContext h ctx));
                  resp'] /\
      resp'.1 = "http_response" /\
      slog.group_lookup resp' "status_code" = Some (slog.Int64Value statusCode) /\
      slog.group_lookup resp' "response_size" = Some (slog.Int64Value size) /\
      slog.group_lookup resp' "error" =
        (fun e => slog.StringValue (errors.Error e)) <$> cause /\
      slog.group_lookup resp' "latency" =
        Some (slog.Int64Value (Milliseconds (GetLatencyFromContext ctx))) in
  let header := RenderHeader br ctx (rw_Header rw (writer resp)) in
  let before_body :=
    {| w := {| writer := rw_WriteHeader rw (WithBody_status g)
                           (rw_update_Header rw header.1 (writer resp));
               calls := calls resp ++
                        [CallRenderHeader; CallWriteHeader (WithBody_status g);
                         CallRenderBody] |};
       responseSize := 0 |} in
  let body := RenderBody br _ ctx (responseBodyWriter_Write rw) before_body in
  logged_after (heap (call_StatusOnly rw f stack h ctx resp))
               (StatusOnly_status f) 0 (StatusOnly_cause f) /\
  logged_after (heap (call_WithBody rw g stack h ctx resp (Some br)))
               (WithBody_status g) (responseSize body.1) (WithBody_cause g).
Proof.
  intros Hp. cbv zeta.
  assert (Hlog : forall v,
    exists resp',
      httplog.appendAttrs Format_RFC3339 (store_ResponseLog h p v) (Some ctx) attrs =
        attrs ++ [RequestLog_ToAttr Format_RFC3339 (Some (GetRequestLogFromContext h ctx));
                  resp'] /\
      resp'.1 = "http_response" /\
      slog.group_lookup resp' "status_code" = Some (slog.Int64Value (StatusCode v)) /\
      slog.group_lookup resp' "response_size" = Some (slog.Int64Value (ResponseSize v)) /\
      slog.group_lookup resp' "error" =
        (fun e => slog.StringValue (errors.Error e)) <$> Error v /\
      slog.group_lookup resp' "latency" =
        Some (slog.Int64Value (Milliseconds (GetLatencyFromContext ctx)))).
  { intros v. rewrite appendAttrs_Some, Hp. cbn [fmap option_fmap option_map].
    rewrite load_store_ResponseLog.
    rewrite (GetRequestLogFromContext_requestLogs h) by reflexivity.
    destruct (ResponseLog_ToAttr_lookup v (GetLatencyFromContext ctx))
      as (Hl & Hs & Hz & He).
    eexists. split; [reflexivity |]. split; [reflexivity |]. auto. }
  split.
  - destruct (call_StatusOnly_unfold rw f stack h ctx resp) as (fr & ->).
    unfold renderStatusCode. rewrite renderResponse_no_body. cbn [heap]. rewrite Hp.
    apply Hlog.
  - destruct (call_WithBody_unfold rw g stack h ctx resp (Some br)) as (fr & ->).
    unfold renderWithBody. rewrite renderResponse_heap, Hp.
    match goal with
    | |- context [store_ResponseLog h p ?v] => exact (Hlog v)
    end.
Qed.

(* ===================================================================== *)
(** ** The runner: the goroutine as a whole *)
(* ===================================================================== *)

(** X19. Whatever the server and the two sinks do, the goroutine that [Run]
    starts calls [ListenAndServe] once, first, then the error sink at most
    once and then the panic sink at most once, both with the completion
    context, and nothing else: it never shuts the server down and never calls
    a cancel or stop function. It ends normally unless the panic sink was
    called and panicked itself, and then with the value of that panic; with
    the panic sink that [NewHTTPServerRunner] puts in for nil it always ends
    normally. *)
Theorem goroutine_calls_and_end
    (srv : http.Server) (onE : option onErrorFunc) (onP : option onPanicFunc)
    (r : httpServerRunner) (ctx : Context) :
  NewHTTPServerRunner (Some srv) onE onP = Returns r ->
  let res := run_goroutine {| g_runner := r; g_ctx := ctx |} in
  exists (es : list error) (ps : list any),
    events res.1 = [EvListenAndServe] ++ map (EvOnError ctx) es ++ map (EvOnPanic ctx) ps /\
    (length es <= 1)%nat /\ (length ps <= 1)%nat /\
    (res.2 = Returns tt \/
     exists v v' sink,
       ps = [v] /\ onP = Some sink /\ sink ctx v = panics v' /\
       res.2 = Panics (panic_value v')) /\
    (onP = None -> res.2 = Returns tt).
Proof.
  intros Hnew. cbv zeta. unfold run_goroutine, accept_loop, with_defer. simpl.
  assert (Hguard : forall tr v,
    exists out,
      recovery_guard r ctx {| events := tr; panicking := Some v |} =
        ({| events := tr ++ [EvOnPanic ctx v]; panicking := None |}, out) /\
      (out = Returns tt \/
       exists v' sink, onP = Some sink /\ sink ctx v = panics v' /\
                       out = Panics (panic_value v')) /\
      (onP = None -> out = Returns tt)).
  { intros tr v. rewrite (recovery_guard_panicking _ _ _ _ Hnew).
    destruct onP as [sink |].
    - change (default (fun _ _ => returns) (Some sink)) with sink.
      destruct (sink ctx v) as [| v'] eqn:Hsink; eexists; (split; [reflexivity |]);
        (split; [| discriminate]); [left; reflexivity |].
      right. exists v', sink. auto.
    - change (default (fun (_ : Context) (_ : any) => returns) None ctx v) with returns.
      eexists. split; [reflexivity |]. auto. }
  destruct (http.ListenAndServe srv) as [e | v] eqn:Hl.
  - rewrite (accept_body_returned _ _ _ _ Hnew ctx e Hl).
    destruct e as [e' |]; [destruct (Is_sentinel e' http_ErrServerClosed);
                           [| destruct (default (fun _ _ => returns) onE ctx e') as [| v0]] |].
    + exists [], []. simpl. repeat split; auto.
    + exists [e'], []. simpl. repeat split; auto.
    + cbn [events].
      destruct (Hguard [EvListenAndServe; EvOnError ctx e'] (panic_value v0))
        as (out & -> & Hout & Hnone).
      exists [e'], [panic_value v0].
      split; [destruct out; reflexivity |]. split; [simpl; lia |]. split; [simpl; lia |].
      split.
      * destruct Hout as [-> | (v' & sink & Hs & Hp & ->)]; [left; reflexivity |].
        right. exists (panic_value v0), v', sink. auto.
      * intros H. rewrite (Hnone H). reflexivity.
    + exists [], []. simpl. repeat split; auto.
  - rewrite (accept_body_panicked _ _ _ _ Hnew ctx v Hl). cbn [events].
    destruct (Hguard [EvListenAndServe] v) as (out & -> & Hout & Hnone).
    exists [], [v].
    split; [destruct out; reflexivity |]. split; [simpl; lia |]. split; [simpl; lia |].
    split.
    + destruct Hout as [-> | (v' & sink & Hs & Hp & ->)]; [left; reflexivity |].
      right. exists v, v', sink. auto.
    + intros H. rewrite (Hnone H). reflexivity.
Qed.

(* ===================================================================== *)
(** ** The runner: [Run] twice, and [Shutdown] after [Run] *)
(* ===================================================================== *)

Lemma intercepts_registered w id sigs s :
  sigctxs w !! id = Some (mkSigState sigs true false) ->
  intercepts w id s = relays sigs s.
Proof. intros H. unfold intercepts. rewrite H. reflexivity. Qed.

(** X20. Two calls of [Run], on the same runner or on two, give two
    completion contexts with stop functions of their own. Neither context is
    done after the second call. Calling the stop function of the first marks
    the first context done and leaves the second as it was, not done and
    with SIGTERM and the interrupt signal still intercepted for it; a
    delivery of SIGTERM or of the interrupt signal marks both done. *)
Theorem Run_twice_is_independent
    (ra rb : httpServerRunner) (w : World) (parent1 parent2 : Context) (s : Signal) :
  let first := Run ra w parent1 in
  let second := Run rb (run_world first) parent2 in
  let w2 := run_world second in
  let stopped1 := step w2 (Invoke (run_stop first)) in
  exists id1 id2,
    run_stop first = stopFn id1 /\ run_stop second = stopFn id2 /\ id1 <> id2 /\
    done w2 (run_ctx first) = false /\
    done w2 (run_ctx second) = false /\
    done stopped1 (run_ctx first) = true /\
    done stopped1 (run_ctx second) = false /\
    intercepts stopped1 id1 s = false /\
    intercepts stopped1 id2 s = bool_decide (s ∈ [SIGTERM; os_Interrupt]) /\
    (s ∈ [SIGTERM; os_Interrupt] ->
       done (step w2 (Deliver s)) (run_ctx first) = true /\
       done (step w2 (Deliver s)) (run_ctx second) = true).
Proof.
  cbv zeta. rewrite !Run_unfold. cbv zeta.
  cbn [run_world run_ctx run_stop sigctxs now cancels].
  set (id1 := fresh (dom (sigctxs w))).
  set (m1 := <[id1 := mkSigState [SIGTERM; os_Interrupt] true false]> (sigctxs w)).
  set (id2 := fresh (dom m1)).
  assert (Hne : id1 <> id2).
  { intros Heq. apply (is_fresh (dom m1)). fold id2. rewrite <- Heq.
    unfold m1. set_solver. }
  exists id1, id2. split; [reflexivity |]. split; [reflexivity |]. split; [exact Hne |].
  assert (H1 : <[id2 := mkSigState [SIGTERM; os_Interrupt] true false]> m1 !! id1 =
               Some (mkSigState [SIGTERM; os_Interrupt] true false)).
  { rewrite lookup_insert_ne by congruence. unfold m1. apply lookup_insert_eq. }
  assert (H2 : <[id2 := mkSigState [SIGTERM; os_Interrupt] true false]> m1 !! id2 =
               Some (mkSigState [SIGTERM; os_Interrupt] true false))
    by apply lookup_insert_eq.
  unfold done, signal_cancelled, intercepts, WithoutCancel.
  cbn [step sigctxs].
  rewrite !lookup_alter_eq, !lookup_alter_ne by congruence.
  rewrite !lookup_fmap, H1, H2. simpl.
  repeat split; try reflexivity;
    unfold deliver_to; simpl; rewrite bool_decide_eq_true_2 by assumption; reflexivity.
Qed.

(** X21. On a runner made by [NewHTTPServerRunner], neither [Addr] nor
    [Shutdown] panics: [Addr] returns the [Addr] field of the server, and
    [Shutdown] returns the error of the server's [Shutdown]. [Shutdown]
    leaves the clock, every signal registration and every cancel function
    that existed before as they were, so the completion context of an earlier
    [Run] is done after it exactly if it was before, and its signals are
    intercepted as before: only the stop function or a signal ends that. With
    a timeout that is not positive [Shutdown] changes nothing at all; with a
    positive one, the cancel function of its own deadline context has been
    called when it returns. *)
Theorem Shutdown_leaves_Run_alone
    (srv : http.Server) (onE : option onErrorFunc) (onP : option onPanicFunc)
    (r : httpServerRunner) (w : World) (t : Z)
    (id : nat) (sigs : list Signal) (parent : Context) (s : Signal) :
  NewHTTPServerRunner (Some srv) onE onP = Returns r ->
  let sd := Shutdown r w t in
  runner.Addr r = Returns (http.Addr srv) /\
  (exists ctx, sd_result sd = Returns (http.Shutdown srv
                                        (if t <=? 0 then w
                                         else (WithTimeout w Background t).1.1) ctx)) /\
  now (sd_world sd) = now w /\
  sigctxs (sd_world sd) = sigctxs w /\
  (forall j, j ∈ dom (cancels w) -> cancels (sd_world sd) !! j = cancels w !! j) /\
  done (sd_world sd) (signalCtx id sigs (WithoutCancel parent)) =
    done w (signalCtx id sigs (WithoutCancel parent)) /\
  intercepts (sd_world sd) id s = intercepts w id s /\
  (t <= 0 -> sd_world sd = w) /\
  (0 < t -> forall ctx cancel,
     sd_events sd = [EvServerShutdown ctx; EvCancel cancel] ->
     done (sd_world sd) ctx = true).
Proof.
  intros Hnew. cbv zeta.
  destruct (NewHTTPServerRunner_fields _ _ _ _ Hnew) as (Hs & _).
  unfold runner.Addr, Shutdown. rewrite Hs.
  split; [reflexivity |].
  destruct (Z.leb_spec t 0) as [Hle | Hgt].
  - cbn [sd_result sd_world sd_events].
    split; [eexists; reflexivity |].
    repeat split; try reflexivity. intros Hlt. lia.
  - rewrite WithTimeout_Background. cbv zeta.
    cbn [sd_result sd_world sd_events fst snd step now sigctxs cancels].
    assert (Hfresh : fresh (dom (cancels w)) ∉ dom (cancels w)) by apply is_fresh.
    split; [eexists; reflexivity |].
    split; [reflexivity |]. split; [reflexivity |].
    split.
    { intros j Hj. rewrite lookup_alter_ne, lookup_insert_ne; [reflexivity | |];
        intros Heq; subst j; exact (Hfresh Hj). }
    split; [reflexivity |]. split; [reflexivity |].
    split; [intros Hle; lia |].
    intros _ ctx cancel [= <- <-]. simpl. unfold cancel_called. simpl.
    rewrite lookup_alter_eq, lookup_insert_eq. reflexivity.
Qed.

(* ===================================================================== *)
(** ** [httplib]: decoding a request body, continued *)
(* ===================================================================== *)

Lemma nonSpace_skip_space s : nonSpace s = false -> skip_space s = "".
Proof.
  induction s as [| c s IH]; simpl; [reflexivity |].
  destruct (isSpace c); [exact IH | discriminate].
Qed.

Lemma nonSpace_take n (l : list byte) :
  nonSpace (string_of_list_byte l) = false ->
  nonSpace (string_of_list_byte (take n l)) = false.
Proof.
  revert n. induction l as [| b l IH]; intros n H; destruct n; try reflexivity.
  change (string_of_list_byte (b :: l))
    with (String (ascii_of_byte b) (string_of_list_byte l)) in H.
  change (string_of_list_byte (take (S n) (b :: l)))
    with (String (ascii_of_byte b) (string_of_list_byte (take n l))).
  simpl in *. destruct (isSpace (ascii_of_byte b)); [apply IH; exact H | discriminate].
Qed.

Lemma Decode_blank foldName unknown (data : string) (e : option error) T cur :
  nonSpace data = false ->
  Decode foldName unknown {| json.data := data; end_err := e |} T cur =
    (cur, Some (default (sentinelError io_EOF) e)).
Proof.
  intros H. unfold Decode, readValue. cbn [json.data end_err].
  rewrite (nonSpace_skip_space _ H), H. destruct e; reflexivity.
Qed.

(** X22. A body that is empty or holds nothing but spaces, tabs and line
    ends is never decoded to a value: for every type the result is the zero
    value with [io.EOF], or with the error the body's reader stopped with;
    when such a body is longer than [1 << 20] bytes the error is
    [*http.MaxBytesError]. *)
Theorem DecodeJSONRequestBody_blank_body
    (foldName : string -> string) (T : GoType) (r : Request) :
  nonSpace (string_of_list_byte (content (Body r))) = false ->
  DecodeJSONRequestBody foldName T r =
    (zero T,
     Some (if Z.of_nat (length (content (Body r))) <=? DefaultMaxRequestBodySize
           then default (sentinelError io_EOF) (read_err (Body r))
           else MaxBytesError DefaultMaxRequestBodySize)).
Proof.
  intros H. unfold DecodeJSONRequestBody.
  destruct (Z.leb_spec (Z.of_nat (length (content (Body r)))) DefaultMaxRequestBodySize)
    as [Hle | Hgt].
  - rewrite MaxBytesReader_within by exact Hle. rewrite Decode_blank by exact H.
    reflexivity.
  - rewrite MaxBytesReader_beyond by exact Hgt.
    rewrite Decode_blank by (apply nonSpace_take; exact H). reflexivity.
Qed.

(** *** Unknown fields *)

(** Induction on a JSON value, with the property at hand for every element
    of an array and every member of an object. *)
Lemma JSON_nested_ind (P : JSON -> Prop) :
  P JNull ->
  (forall b, P (JBool b)) ->
  (forall lit, P (JNumber lit)) ->
  (forall s, P (JString s)) ->
  (forall elems, Forall (fun e => P e.2) elems -> P (JArray elems)) ->
  (forall members, Forall (fun m => P m.2.2) members -> P (JObject members)) ->
  forall j, P j.
Proof.
  intros PNull PBool PNumber PString PArray PObject.
  fix IH 1.
  intros [| b | lit | s | elems | members];
    [exact PNull | apply PBool | apply PNumber | apply PString | |].
  - apply PArray. revert elems. fix IHl 1.
    intros [| [raw e] rest]; constructor; [apply IH | apply IHl].
  - apply PObject. revert members. fix IHl 1.
    intros [| [key [raw m]] rest]; constructor; [apply IH | apply IHl].
Qed.

Lemma saveError_noted st err : saveError st err <> Clean.
Proof. destruct st; discriminate. Qed.

Lemma store_pointer foldName unknown j raw elem cur st :
  j <> JNull ->
  store foldName unknown j raw (TPointer elem) cur st =
    (let '(v, st') := store foldName unknown j raw elem
                        match cur with
                        | VPointer (Some x) => x
                        | _ => zero elem
                        end st in
     (VPointer (Some v), st')).
Proof. intros H. destruct j; try reflexivity. congruence. Qed.

Ltac pointer_case IHt Hst :=
  rewrite store_pointer by discriminate;
  match goal with
  | |- (let '(v, st') := store ?f ?u ?j ?raw ?elem ?target ?st in _).2 <> Clean =>
      specialize (IHt target st Hst);
      destruct (store f u j raw elem target st) as [? ?]; exact IHt
  end.

(** An error that was noted is never forgotten: decoding goes on, but the
    status does not become clean again. *)
Lemma store_keeps_error foldName unknown j :
  forall raw t cur st, st <> Clean -> (store foldName unknown j raw t cur st).2 <> Clean.
Proof.
  induction j as [| b | lit | s | elems IH | members IH] using JSON_nested_ind;
    intros raw t; induction t as [| | | | elem IHt | elem IHt | fields | elem IHt | | name z U];
    intros cur st Hst.
  all: try (pointer_case IHt Hst).
  all: simpl.
  all: try exact Hst.
  all: try apply saveError_noted.
  all: try (destruct (U raw cur) as [v [err |]]; simpl; [discriminate | exact Hst]).
  - destruct (ParseInt lit); [exact Hst | apply saveError_noted].
  - clear IHt. generalize 0%nat. revert st Hst.
    induction IH as [| [raw_e e] rest He Hrest IHrest]; intros st Hst i; [exact Hst |].
    destruct (failed st); [exact Hst |].
    match goal with
    | |- context [store foldName unknown e raw_e elem ?c st] =>
        specialize (He raw_e elem c st Hst); cbn [snd] in He;
        destruct (store foldName unknown e raw_e elem c st) as [v st1]
    end.
    specialize (IHrest st1 He (S i)).
    match goal with
    | H : (let '(_, _) := ?x in _).2 <> Clean
      |- (let '(_, _) := (let '(_, _) := ?y in _) in _).2 <> Clean =>
        change y with x; destruct x as [vs st2]; exact H
    end.
  - clear IHt.
    generalize (match cur with VMap (Some l) => l | _ => [] end). revert st Hst.
    induction IH as [| [key [raw_m m]] rest Hm Hrest IHrest]; intros st Hst acc;
      [exact Hst |].
    destruct (failed st); [exact Hst |].
    specialize (Hm raw_m elem (zero elem) st Hst). cbn [snd] in Hm.
    destruct (store foldName unknown m raw_m elem (zero elem) st) as [v st1].
    exact (IHrest st1 Hm _).
  - generalize (match cur with VStruct l => l | _ => map (fun f => zero f.2) fields end).
    revert st Hst.
    induction IH as [| [key [raw_m m]] rest Hm Hrest IHrest]; intros st Hst acc;
      [exact Hst |].
    destruct (failed st); [exact Hst |].
    destruct (find_field foldName fields key) as [i |].
    + destruct (fields !! i) as [f |]; [| exact (IHrest st Hst acc)].
      destruct (acc !! i) as [c |]; [| exact (IHrest st Hst acc)].
      specialize (Hm raw_m f.2 c st Hst). cbn [snd] in Hm.
      destruct (store foldName unknown m raw_m f.2 c st) as [v st1].
      exact (IHrest st1 Hm _).
    + apply IHrest. destruct unknown; [apply saveError_noted | exact Hst].
Qed.

Lemma store_unknown_field foldName fields members raw cur st key :
  key ∈ members.*1 -> find_field foldName fields key = None ->
  (store foldName true (JObject members) raw (TStruct fields) cur st).2 <> Clean.
Proof.
  intros Hin Hnone. simpl.
  generalize (match cur with VStruct l => l | _ => map (fun f => zero f.2) fields end).
  revert st. induction members as [| [k [raw_m m]] rest IH]; intros st acc.
  { apply elem_of_nil in Hin. destruct Hin. }
  assert (Hrest : forall st' acc',
    st' <> Clean ->
    (let '(vs, st'') :=
       (fix each (members : list (string * (string * JSON)))
            (acc : list GoValue) (st : Status) : list GoValue * Status :=
          match members with
          | [] => (acc, st)
          | (key, (raw_m, m)) :: rest =>
              if failed st then (acc, st)
              else
                match find_field foldName fields key with
                | Some i =>
                    match fields !! i, acc !! i with
                    | Some f, Some c =>
                        let '(v, st1) := store foldName true m raw_m f.2 c st in
                        each rest (<[i := v]> acc) st1
                    | _, _ => each rest acc st
                    end
                | None =>
                    each rest acc
                      (saveError st
                         (errorString ("json: unknown field " +:+
                                       String quote key +:+ String quote "")))
                end
          end) rest acc' st' in
     (VStruct vs, st'')).2 <> Clean).
  { intros st' acc' Hst'.
    pose proof (store_keeps_error foldName true (JObject rest) raw (TStruct fields)
                  (VStruct acc') st' Hst') as H.
    exact H. }
  destruct (failed st) eqn:Hf; [destruct st; discriminate |].
  cbn [fmap list_fmap fst] in Hin. apply elem_of_cons in Hin.
  destruct (find_field foldName fields k) as [i |] eqn:Hk.
  - destruct Hin as [-> | Hin]; [congruence |].
    destruct (fields !! i) as [f |]; [| exact (IH Hin st acc)].
    destruct (acc !! i) as [c |]; [| exact (IH Hin st acc)].
    destruct (store foldName true m raw_m f.2 c st) as [v st1].
    exact (IH Hin st1 _).
  - apply Hrest. apply saveError_noted.
Qed.

(** X23. Unknown fields are rejected. When the body holds a JSON object
    and the type decoded into is a struct, a key of the object that names no
    field of the struct, neither exactly nor after the decoder's folding of
    key and field name, makes [DecodeJSONRequestBody] return an error and the
    zero value of the struct, wherever in the object the key is and whatever
    the other members hold. This holds for every folding, that of
    encoding/json with its Unicode orbits among them: there the Kelvin sign
    names a field [k], and such a key is not unknown. *)
Theorem DecodeJSONRequestBody_rejects_unknown_fields
    (foldName : string -> string) (fields : list (string * GoType)) (r : Request)
    (raw : string) (members : list (string * (string * JSON))) (key : string) :
  readValue (MaxBytesReader (Body r) DefaultMaxRequestBodySize) =
    inl (raw, JObject members) ->
  key ∈ members.*1 ->
  find_field foldName fields key = None ->
  exists err, DecodeJSONRequestBody foldName (TStruct fields) r = (zero (TStruct fields), Some err).
Proof.
  intros Hread Hin Hnone. unfold DecodeJSONRequestBody, Decode. rewrite Hread.
  pose proof (store_unknown_field foldName fields members raw (zero (TStruct fields)) Clean
                key
                Hin Hnone) as Hst.
  destruct (store foldName true (JObject members) raw (TStruct fields) (zero (TStruct fields)) Clean)
    as [v st].
  destruct st as [| err | err]; [contradiction | |]; exists err; reflexivity.
Qed.

(* ===================================================================== *)
(** ** The further properties on concrete values *)
(* ===================================================================== *)

(** A bad request rendered with a renderer whose body fails: the log holds
    the cause, not the renderer's error. *)
Lemma render_with_body_writes_log_witness :
  load_ResponseLog
    (heap (call_WithBody recorder (BadRequestWithBody (Some (errorString "bad input")))
             [handler_frame] (new_ResponseLog empty_heap zero_ResponseLog).1
             (WithResponseLogPtr Background (Some 0%nat)) new_response
             (Some (errorResponseBodyRenderer None (Some (errorString "body error"))))))
    0%nat =
    {| StatusCode := 400; ResponseSize := 0; httplib.Error := Some (errorString "bad input");
       Handler := {| FuncName := "main.handler"; File := "main.go"; Line := 10 |} |}.
Proof.
  destruct (render_with_body_writes_log recorder
              (BadRequestWithBody (Some (errorString "bad input")))
              [handler_frame] (new_ResponseLog empty_heap zero_ResponseLog).1
              (WithResponseLogPtr Background (Some 0%nat)) new_response
              (errorResponseBodyRenderer None (Some (errorString "body error")))
              0%nat eq_refl) as [H _].
  exact H.
Defined.

(** Two chunks written through the counting writer to a recorder. *)
Lemma responseBodyWriter_is_transparent_and_counts_witness :
  let chunks := [list_byte_of_string "te"; list_byte_of_string "st"] in
  let s := {| w := new_response; responseSize := 0 |} in
  fixtures.Body (writer (w (write_all (responseBodyWriter_Write recorder) chunks s).1)) =
    list_byte_of_string "test" /\
  responseSize (write_all (responseBodyWriter_Write recorder) chunks s).1 = 4.
Proof.
  cbv zeta.
  destruct (responseBodyWriter_is_transparent_and_counts recorder
              [list_byte_of_string "te"; list_byte_of_string "st"]
              {| w := new_response; responseSize := 0 |}
              ltac:(simpl; lia)) as (Hw & _ & _ & Hs).
  split; [rewrite Hw; reflexivity | rewrite Hs; reflexivity].
Defined.

(** A handler answers that nothing was found and logs. *)
Lemma logged_response_is_what_was_rendered_witness :
  exists resp',
    httplog.appendAttrs (fun _ => "2026-01-01T00:00:00Z")
      (heap (call_StatusOnly recorder (OnlyNotFound (Some (errorString "no such user")))
               [handler_frame] (new_ResponseLog empty_heap zero_ResponseLog).1
               (WithLatency (WithResponseLogPtr Background (Some 0%nat)) 1999999)
               new_response))
      (Some (WithLatency (WithResponseLogPtr Background (Some 0%nat)) 1999999)) [] =
      [RequestLog_ToAttr (fun _ => "2026-01-01T00:00:00Z") (Some zero_RequestLog); resp'] /\
    slog.group_lookup resp' "status_code" = Some (slog.Int64Value 404) /\
    slog.group_lookup resp' "error" = Some (slog.StringValue "no such user") /\
    slog.group_lookup resp' "latency" = Some (slog.Int64Value 1).
Proof.
  destruct (logged_response_is_what_was_rendered recorder (fun _ => "2026-01-01T00:00:00Z")
              [handler_frame] (new_ResponseLog empty_heap zero_ResponseLog).1
              (WithLatency (WithResponseLogPtr Background (Some 0%nat)) 1999999)
              new_response (OnlyNotFound (Some (errorString "no such user")))
              OKWithBody (RawResponse []) 0%nat [] eq_refl)
    as [(resp' & H1 & _ & H2 & _ & H3 & H4) _].
  exists resp'. split; [exact H1 |]. split; [exact H2 |]. split; [exact H3 | exact H4].
Defined.

(** The second of two servers on one address, with an error sink that
    panics and no panic sink given. *)
Lemma goroutine_calls_and_end_witness :
  let res := run_goroutine
               {| g_runner := runner_of busy_server (Some panicking_onError) None;
                  g_ctx := Background |} in
  (exists es ps,
     events res.1 =
       [EvListenAndServe] ++ map (EvOnError Background) es ++ map (EvOnPanic Background) ps) /\
  res.2 = Returns tt.
Proof.
  cbv zeta.
  destruct (goroutine_calls_and_end busy_server (Some panicking_onError) None
              (runner_of busy_server (Some panicking_onError) None) Background eq_refl)
    as (es & ps & He & _ & _ & _ & Hn).
  split; [exists es, ps; exact He | exact (Hn eq_refl)].
Defined.

(** [Shutdown] with a timeout after [Run]. *)
Lemma Shutdown_leaves_Run_alone_witness :
  let r := runner_of closed_server None None in
  let started := Run r initial_world Background in
  sigctxs (sd_world (Shutdown r (run_world started) 5)) = sigctxs (run_world started) /\
  done (sd_world (Shutdown r (run_world started) 5)) (run_ctx started) = false.
Proof.
  cbv zeta.
  destruct (Shutdown_leaves_Run_alone closed_server None None
              (runner_of closed_server None None)
              (run_world (Run (runner_of closed_server None None) initial_world Background))
              5 0%nat [SIGTERM; os_Interrupt] Background SIGTERM eq_refl)
    as (_ & _ & _ & Hs & _ & Hd & _).
  split; [exact Hs | exact (eq_trans Hd eq_refl)].
Defined.

(** A body of two spaces and a line end. *)
Lemma DecodeJSONRequestBody_blank_body_witness :
  DecodeJSONRequestBody ascii_foldName testObject (NewRequest ("  " +:+ String "010" "")) =
    (zero testObject, Some (sentinelError io_EOF)).
Proof.
  exact (DecodeJSONRequestBody_blank_body ascii_foldName testObject
           (NewRequest ("  " +:+ String "010" "")) eq_refl).
Defined.

(** A body with a key that the struct of the tests does not have. *)
Lemma DecodeJSONRequestBody_rejects_unknown_fields_witness :
  exists err,
    DecodeJSONRequestBody ascii_foldName testObject (NewRequest "{'a':'x','unknown':1,'b':2}") =
      (zero testObject, Some err).
Proof.
  eapply (DecodeJSONRequestBody_rejects_unknown_fields ascii_foldName
            [("a", TString); ("b", TInt); ("c", TBool);
             ("list", TSlice TString); ("map", TMap TString)]
            (NewRequest "{'a':'x','unknown':1,'b':2}") _ _ "unknown").
  - vm_compute. reflexivity.
  - cbn [fmap list_fmap fst]. apply elem_of_cons. right. apply elem_of_cons. left.
    reflexivity.
  - reflexivity.
Defined.
